(** * Job lifecycle / reconciliation engine of the crawler front end

    A shallow embedding of [src/frontend/src/services/job-service.ts],
    of the transport adapter [services/api.ts] and of the submit handler
    of the crawl-job form, followed by the properties of the
    specification that can be settled on them.

    Conventions of the embedding:
    - a JavaScript [number] that holds a count, an HTTP status or an epoch
      stamp is a [Z]; a [Date] is its number of milliseconds since the
      epoch; a [number] that can be [NaN] (what the form stores after
      [parseInt], and what is computed from it) is a [JS.number];
    - a [string] holds the UTF-8 text of the JavaScript string;
    - an optional field ([x?: T], [T | null], [undefined]) is an [option];
    - a thrown [Error] is a value of [JsError]; an [async] function that
      may throw returns an [outcome];
    - the module-level arrays [jobs] and [logs] are the fields of an
      explicit [Store] that every operation receives and returns;
    - everything the code reads from outside (the clock, the random
      identifier generator, the answer of the network) is an explicit
      argument of the function that reads it. *)

From Stdlib Require Import String Ascii List ZArith Lia Bool DecimalString.
From Stdlib Require Import Permutation Sorted.
From Stdlib Require DecimalPos DecimalZ.
Import ListNotations.
Open Scope string_scope.

(* ================================================================== *)
(** ** JavaScript primitives used by the sources *)
(* ================================================================== *)

Module JS.

(** Truthiness of a string: only [""] is falsy. *)
Definition truthy (s : string) : bool := negb (s =? "").

(** Truthiness of [string | null | undefined]. *)
Definition truthy_opt (o : option string) : bool :=
  match o with
  | Some s => truthy s
  | None => false
  end.

(** [a || b] on [string | undefined] operands. *)
Definition or_else (a b : option string) : option string :=
  if truthy_opt a then a else b.

(** [s.split(sep)] for a one-character separator: the pieces between
    the occurrences of [sep]; never the empty array. *)
Fixpoint split (sep : ascii) (s : string) : list string :=
  match s with
  | EmptyString => [EmptyString]
  | String c rest =>
      if Ascii.eqb c sep then EmptyString :: split sep rest
      else match split sep rest with
           | [] => [String c EmptyString]
           | piece :: pieces => String c piece :: pieces
           end
  end.

(** [s.split(/[\\/]/)]: the same with two separators. *)
Fixpoint split2 (sep1 sep2 : ascii) (s : string) : list string :=
  match s with
  | EmptyString => [EmptyString]
  | String c rest =>
      if Ascii.eqb c sep1 || Ascii.eqb c sep2
      then EmptyString :: split2 sep1 sep2 rest
      else match split2 sep1 sep2 rest with
           | [] => [String c EmptyString]
           | piece :: pieces => String c piece :: pieces
           end
  end.

(** [s.includes(c)] for a character. *)
Fixpoint contains (c : ascii) (s : string) : bool :=
  match s with
  | EmptyString => false
  | String d rest => Ascii.eqb d c || contains c rest
  end.

(** [s.startsWith(c)] for a character. *)
Definition startsWith (c : ascii) (s : string) : bool :=
  match s with
  | String d _ => Ascii.eqb d c
  | EmptyString => false
  end.

(** Decimal text of an integer number, as a template literal prints
    it: ["0"], ["42"], ["-7"]. *)
Definition number_to_string (z : Z) : string :=
  NilZero.string_of_int (Z.to_int z).

(** A [number] that may be [NaN]: [Math.min], [Math.max] and [-] give
    [NaN] when an operand is [NaN], and every comparison with [NaN] is
    false. *)
Inductive number : Type :=
| Num (z : Z)
| NaN.

Bind Scope Z_scope with number.

(** [Math.min(a, b)] *)
Definition Math_min (a b : number) : number :=
  match a, b with
  | Num x, Num y => Num (Z.min x y)
  | _, _ => NaN
  end.

(** [Math.max(a, b)] *)
Definition Math_max (a b : number) : number :=
  match a, b with
  | Num x, Num y => Num (Z.max x y)
  | _, _ => NaN
  end.

(** [a - b] *)
Definition minus (a b : number) : number :=
  match a, b with
  | Num x, Num y => Num (x - y)
  | _, _ => NaN
  end.

(** White space of one byte removed by [String.prototype.trim]: tab,
    line feed, vertical tab, form feed, carriage return and space. *)
Definition is_white (c : ascii) : bool :=
  let n := nat_of_ascii c in
  ((9 <=? n)%nat && (n <=? 13)%nat) || (n =? 32)%nat.

(** White space of two bytes: U+00A0 (C2 A0). *)
Definition is_white2 (a b : ascii) : bool :=
  (nat_of_ascii a =? 194)%nat && (nat_of_ascii b =? 160)%nat.

(** White space of three bytes: U+1680 (E1 9A 80), U+2000 to U+200A
    (E2 80 80 to 8A), U+2028 and U+2029 (E2 80 A8, A9), U+202F
    (E2 80 AF), U+205F (E2 81 9F), U+3000 (E3 80 80) and U+FEFF
    (EF BB BF). *)
Definition is_white3 (a b c : ascii) : bool :=
  let x := nat_of_ascii a in
  let y := nat_of_ascii b in
  let z := nat_of_ascii c in
  ((x =? 225) && (y =? 154) && (z =? 128))%nat
  || ((x =? 226) && (y =? 128)
      && (((128 <=? z) && (z <=? 138)) || (z =? 168) || (z =? 169) || (z =? 175)))%nat
  || ((x =? 226) && (y =? 129) && (z =? 159))%nat
  || ((x =? 227) && (y =? 128) && (z =? 128))%nat
  || ((x =? 239) && (y =? 187) && (z =? 191))%nat.

(** [s.trimStart()] *)
Fixpoint trimStart (s : string) : string :=
  match s with
  | EmptyString => EmptyString
  | String a r =>
      if is_white a then trimStart r
      else match r with
           | String b r2 =>
               if is_white2 a b then trimStart r2
               else match r2 with
                    | String c r3 => if is_white3 a b c then trimStart r3 else s
                    | EmptyString => s
                    end
           | EmptyString => s
           end
  end.

(** A string made of white space only, the empty one included. *)
Fixpoint all_white (s : string) : bool :=
  match s with
  | EmptyString => true
  | String a r =>
      if is_white a then all_white r
      else match r with
           | String b r2 =>
               if is_white2 a b then all_white r2
               else match r2 with
                    | String c r3 => is_white3 a b c && all_white r3
                    | EmptyString => false
                    end
           | EmptyString => false
           end
  end.

(** [s.trimEnd()]: the text is cut where only white space follows. *)
Fixpoint trimEnd (s : string) : string :=
  match s with
  | EmptyString => EmptyString
  | String a r => if all_white s then EmptyString else String a (trimEnd r)
  end.

(** [s.trim()]. *)
Definition trim (s : string) : string := trimEnd (trimStart s).

(** A thrown value: every [throw] of the sources throws an [Error]
    object, and [fetch] rejects with one. *)
Record JsError : Type := mkError { err_name : string; message : string }.

Definition Error (msg : string) : JsError := mkError "Error" msg.
Definition TypeError (msg : string) : JsError := mkError "TypeError" msg.

(** Result of a computation that may throw. *)
Inductive outcome (A : Type) : Type :=
| Ok (value : A)
| Throw (e : JsError).
Arguments Ok {A} value.
Arguments Throw {A} e.

Definition bind {A B} (m : outcome A) (k : A -> outcome B) : outcome B :=
  match m with
  | Ok a => k a
  | Throw e => Throw e
  end.

(** [p.catch(() => d)]. *)
Definition catch_with {A} (m : outcome A) (d : A) : A :=
  match m with
  | Ok a => a
  | Throw _ => d
  end.

End JS.

Import JS.

(** An integer is used where a [number] is expected. *)
Coercion Num : Z >-> number.

Notation "x <- m ;; k" := (JS.bind m (fun x => k))
  (at level 61, m at next level, right associativity).

(** A [Date], as milliseconds since the epoch. *)
Definition Date : Type := Z.

(* ================================================================== *)
(** ** The network, as the sources see it *)
(* ================================================================== *)

Module Net.

(** What the code reads from the [Response] of a [fetch].  [J] is the
    type of the decoded body; [json] is the result of [res.json()] and
    [text] that of [res.text()], either of which may reject. *)
Record Response (J : Type) : Type := mkResponse {
  ok : bool;
  status : Z;
  statusText : string;
  text : outcome string;
  json : outcome J
}.
Arguments mkResponse {J}.
Arguments ok {J}.
Arguments status {J}.
Arguments statusText {J}.
Arguments text {J}.
Arguments json {J}.

(** The settlement of the promise returned by [fetch]. *)
Inductive FetchResult (J : Type) : Type :=
| Rejected (e : JsError)
| Resolved (r : Response J).
Arguments Rejected {J} e.
Arguments Resolved {J} r.

End Net.

(* ================================================================== *)
(** ** job-service.ts *)
(* ================================================================== *)

Module JobService.

Import Net.

(** *** Data model *)

Record CrawlConfig : Type := mkConfig {
  cfg_name : string;
  startUrls : list string;
  maxPages : number;
  maxDepth : number;
  sameDomainOnly : bool;
  includeSubdomains : bool;
  includePatterns : list string;
  excludePatterns : list string;
  useSitemap : bool;
  prioritizeSitemap : bool;
  renderJs : bool;
  timeout : Z;
  retries : Z;
  concurrency : number;
  requestsPerMinute : number;
  userAgent : string;
  headers : list (string * string);
  stripQueryParams : bool;
  canonicalOnly : bool;
  respectRobots : bool;
  overrideRobots : bool;
  extractTitle : bool;
  extractMetaDescription : bool;
  extractHeadings : bool;
  extractMainContent : bool;
  extractLinks : bool;
  extractImages : bool;
  saveRawHtml : bool
}.

Inductive JobStatus : Type :=
| queued | running | paused | completed | failed | canceled.

Definition JobStatus_eqb (a b : JobStatus) : bool :=
  match a, b with
  | queued, queued | running, running | paused, paused
  | completed, completed | failed, failed | canceled, canceled => true
  | _, _ => false
  end.

(** The negation of [['queued','running','paused'].includes(status)]. *)
Definition terminal (s : JobStatus) : bool :=
  negb (existsb (JobStatus_eqb s) [queued; running; paused]).

Record Counts : Type := mkCounts { crawled : Z; cnt_queued : number; cnt_failed : Z }.

Record CrawlJob : Type := mkJob {
  id : string;
  name : string;
  config : CrawlConfig;
  status : JobStatus;
  createdAt : Date;
  startedAt : option Date;
  finishedAt : option Date;
  updatedAt : option Date;
  counts : Counts;
  jobDir : option string;
  startUrl : option string
}.

(** A value stored in the [meta] record of a log entry. *)
Inductive MetaValue : Type :=
| MetaNum (n : Z)
| MetaStr (s : string)
| MetaStrs (l : list string).

Record JobLog : Type := mkLog {
  log_id : string;
  jobId : string;
  level : string;
  log_message : string;
  timestamp : Date;
  meta : option (list (string * MetaValue))
}.

(** The module-level state: [let jobs], [let logs], and the tickers
    [simulateCrawling] has started with [setInterval], by job id.
    ([let pages] is only ever assigned the empty array.) *)
Record Store : Type := mkStore {
  jobs : list CrawlJob;
  logs : list JobLog;
  intervals : list string
}.

(** *** Backend payloads *)

Record BackendAsyncStart : Type := mkAsyncStart { job_id : option string }.

Record BackendStatus : Type := mkBackendStatus {
  st_running : bool;
  st_done : bool;
  st_error : option string
}.

Record BackendCounts : Type := mkBackendCounts { bc_crawled : option Z }.

Record BackendJobInfo : Type := mkJobInfo {
  info_id : string;
  info_name : string;
  created_at : Z;
  info_status : option BackendStatus;
  info_counts : option BackendCounts;
  info_jobDir : option string;
  info_startUrl : option string
}.

Record BackendLogLine : Type := mkLogLine {
  ts : Z;
  line_level : option string;
  line_message : string
}.

Record BackendJobLogs : Type := mkJobLogs { log_lines : option (list BackendLogLine) }.

(** A decoded JSON body: [None] is the JSON value [null]. *)
Definition Body (A : Type) : Type := option A.

(** [const USE_MOCK = false;] *)
Definition USE_MOCK : bool := false.

(** *** Array helpers *)

(** [jobs.find(j => j.id === jobId)] *)
Definition find_job (jobId : string) (js : list CrawlJob) : option CrawlJob :=
  find (fun j => id j =? jobId) js.

(** Assignment to fields of the object [jobs.find(...)] returned: the
    first job with that id is replaced by its updated version. *)
Fixpoint update_job (jobId : string) (f : CrawlJob -> CrawlJob)
    (js : list CrawlJob) : list CrawlJob :=
  match js with
  | [] => []
  | j :: rest =>
      if id j =? jobId then f j :: rest
      else j :: update_job jobId f rest
  end.

(** [xs.map((x, idx) => f idx x)], counting from [start]. *)
Fixpoint map_index {A B} (f : nat -> A -> B) (start : nat) (xs : list A) : list B :=
  match xs with
  | [] => []
  | x :: rest => f start x :: map_index f (S start) rest
  end.

(** [mapped.sort((a, b) => a.timestamp - b.timestamp)]: a stable
    ascending sort on the time stamp. *)
Fixpoint insert_by_time (x : JobLog) (sorted : list JobLog) : list JobLog :=
  match sorted with
  | [] => [x]
  | y :: rest =>
      if (timestamp x <=? timestamp y)%Z then x :: y :: rest
      else y :: insert_by_time x rest
  end.

Definition sort_by_time (ls : list JobLog) : list JobLog :=
  fold_right insert_by_time [] ls.

(** *** Download links *)

Definition slash : ascii := "/"%char.

(** [function extractJobFolder(jobDir?: string | null)] *)
Definition extractJobFolder (jobDir : option string) : option string :=
  match jobDir with
  | None => None
  | Some dir =>
      if negb (truthy dir) then None
      else
        let parts := split slash dir in
        or_else (nth_error parts 1) (or_else (nth_error parts 0) None)
  end.

(** The final path segment of a token, in the words of the
    specification: what follows the last [/]. *)
Definition final_segment (dir : string) : string :=
  last (split slash dir) "".

(** The literal [formatToFilename] of [exportJob]: its own properties. *)
Definition formatToFilename (f : string) : option string :=
  if f =? "json" then Some "all_results.json"
  else if f =? "csv" then Some "all_results.csv"
  else if f =? "markdown-book" then Some "all_results.md"
  else None.

(** The properties an object literal inherits from [Object.prototype].
    The operator [in] and a property read both follow the prototype
    chain, so these names are found in [formatToFilename] too. *)
Definition Object_prototype_names : list string :=
  [ "constructor"; "hasOwnProperty"; "isPrototypeOf";
    "propertyIsEnumerable"; "toLocaleString"; "toString"; "valueOf";
    "__proto__"; "__defineGetter__"; "__defineSetter__";
    "__lookupGetter__"; "__lookupSetter__" ].

Definition inherited (f : string) : bool :=
  existsb (String.eqb f) Object_prototype_names.

(** [f in formatToFilename] *)
Definition in_formatToFilename (f : string) : bool :=
  match formatToFilename f with
  | Some _ => true
  | None => inherited f
  end.

Section Service.

(** [const API_URL = (import.meta.env.VITE_API_URL || ...).replace(/\/$/, '')] *)
Variable API_URL : string.

(** The text a template literal prints for an inherited member of
    [Object.prototype] (a built-in function or the prototype
    itself); it depends on the engine. *)
Variable native_text : string -> string.

(** [export function buildDownloadUrl(jobDir, fileName)] *)
Definition buildDownloadUrl (dir : option string) (fileName : string)
    : option string :=
  match extractJobFolder dir with
  | None => None
  | Some folder =>
      if negb (truthy folder) then None
      else Some (API_URL ++ "/download/" ++ folder ++ "/" ++ fileName)
  end.

(** [formatToFilename[f]] as [buildDownloadUrl] interpolates it, for
    an [f] that passed the [in] test. *)
Definition filename_text (f : string) : string :=
  match formatToFilename f with
  | Some fn => fn
  | None => native_text f
  end.

(** *** MOCK helpers *)

(** [function createSampleLogs(jobId)]; [base] is [Date.now()] and
    [ids k] the result of the [k]-th call of [generateId]. *)
Definition createSampleLogs (base : Date) (ids : nat -> string)
    (job : string) : list JobLog :=
  let mk (n : nat) (lvl msg : string) (m : option (list (string * MetaValue))) :=
    mkLog (ids n) job lvl msg (base - Z.of_nat n * 3000)%Z m in
  [ mk 0%nat "info" "Starting crawl job"
      (Some [("startUrls", MetaStrs ["https://example.com"])]);
    mk 1%nat "info" "Checking robots.txt"
      (Some [("url", MetaStr "https://example.com/robots.txt")]);
    mk 2%nat "success" "Found sitemap.xml"
      (Some [("sitemap", MetaStr "https://example.com/sitemap.xml");
             ("urls", MetaNum 45)]);
    mk 3%nat "info" "Discovered 15 new URLs from sitemap" None;
    mk 4%nat "success" "Successfully crawled: https://example.com/"
      (Some [("status", MetaNum 200); ("size", MetaNum 12345);
             ("links", MetaNum 8)]);
    mk 5%nat "warn" "Rate limiting detected, backing off"
      (Some [("retryAfter", MetaNum 5)]);
    mk 6%nat "error" "Failed to crawl: https://example.com/broken"
      (Some [("status", MetaNum 404); ("error", MetaStr "Not Found")]) ].

(** [function simulateCrawling(jobId)]: returns at once unless the job
    exists and is running; otherwise starts a ticker for it.  (What a
    tick does is modelled in [Simulation.tick].) *)
Definition simulateCrawling (job : string) (st : Store) : Store :=
  match find_job job (jobs st) with
  | None => st
  | Some j =>
      if negb (JobStatus_eqb (status j) running) then st
      else mkStore (jobs st) (logs st) (intervals st ++ [job])
  end.

(** *** JobService.createJob *)

(** [now] is the reading of [new Date()], [base] that of [Date.now()]
    inside [createSampleLogs], [newId] the result of the first call
    of [generateId] and [ids] those of the following ones; [fr] is
    the settlement of the [fetch] of [/crawl_async/]. *)
Definition createJob (mock : bool) (now base : Date) (newId : string)
    (ids : nat -> string) (fr : FetchResult (Body BackendAsyncStart))
    (cfg : CrawlConfig) (st : Store) : outcome CrawlJob * Store :=
  if mock then
    let job := mkJob newId (cfg_name cfg) cfg queued now None None None
                 (mkCounts 0 (JS.Math_min (maxPages cfg) 20) 0) None None in
    (Ok job,
     mkStore (jobs st ++ [job])
             (logs st ++ createSampleLogs base ids (id job))
             (intervals st))
  else
    match fr with
    | Rejected e => (Throw e, st)
    | Resolved res =>
        if negb (Net.ok res) then
          let txt := catch_with (Net.text res) "" in
          (Throw (Error ("Backend error (" ++ number_to_string (Net.status res)
                         ++ "): "
                         ++ (if truthy txt then txt else Net.statusText res))),
           st)
        else
          match Net.json res with
          | Throw e => (Throw e, st)
          | Ok None =>
              (Throw (TypeError "Cannot read properties of null (reading 'job_id')"), st)
          | Ok (Some data) =>
              if negb (truthy_opt (job_id data)) then
                (Throw (Error "No job_id from backend"), st)
              else
                let job :=
                  mkJob (match job_id data with Some i => i | None => "" end)
                        (if truthy (cfg_name cfg) then cfg_name cfg else "job")
                        cfg running now (Some now) None None
                        (mkCounts 0 0 0) None None in
                (Ok job, mkStore (job :: jobs st) (logs st) (intervals st))
          end
    end.

(** *** JobService.performJobAction *)

Inductive Action : Type := start | pause | resume | cancel.

(** [logs.push(entry)] *)
Definition push_log (entry : JobLog) (st : Store) : Store :=
  mkStore (jobs st) (logs st ++ [entry]) (intervals st).

(** Field assignments on the job found in [jobs]. *)
Definition set_job (job : string) (f : CrawlJob -> CrawlJob) (st : Store) : Store :=
  mkStore (update_job job f (jobs st)) (logs st) (intervals st).

(** [now] is the reading of [new Date()], [newId] the result of
    [generateId()].  With [mock = false] the body is the single
    [console.warn]. *)
Definition performJobAction (mock : bool) (now : Date) (newId : string)
    (job : string) (action : Action) (st : Store) : outcome unit * Store :=
  if mock then
    match find_job job (jobs st) with
    | None => (Throw (Error "Job not found"), st)
    | Some j =>
        let entry lvl msg := mkLog newId job lvl msg now None in
        match action, status j with
        | start, queued =>
            let st1 := set_job job (fun j =>
              mkJob (id j) (name j) (config j) running (createdAt j)
                    (Some now) (finishedAt j) (Some now) (counts j)
                    (jobDir j) (startUrl j)) st in
            (Ok tt, simulateCrawling job
                      (push_log (entry "info" "Crawl job started") st1))
        | pause, running =>
            let st1 := set_job job (fun j =>
              mkJob (id j) (name j) (config j) paused (createdAt j)
                    (startedAt j) (finishedAt j) (Some now) (counts j)
                    (jobDir j) (startUrl j)) st in
            (Ok tt, push_log (entry "warn" "Crawl job paused") st1)
        | resume, paused =>
            let st1 := set_job job (fun j =>
              mkJob (id j) (name j) (config j) running (createdAt j)
                    (startedAt j) (finishedAt j) (Some now) (counts j)
                    (jobDir j) (startUrl j)) st in
            (Ok tt, simulateCrawling job
                      (push_log (entry "info" "Crawl job resumed") st1))
        | cancel, (queued | running | paused) =>
            let st1 := set_job job (fun j =>
              mkJob (id j) (name j) (config j) canceled (createdAt j)
                    (startedAt j) (Some now) (Some now) (counts j)
                    (jobDir j) (startUrl j)) st in
            (Ok tt, push_log (entry "error" "Crawl job canceled") st1)
        | _, _ => (Ok tt, st)
        end
    end
  else (Ok tt, st).

(** *** JobService.getJobInfo and JobService.syncJobFromBackend *)

(** [getJobInfo]: [null] on a rejected fetch, a non-2xx answer or a
    body that does not decode. *)
Definition getJobInfo (fr : FetchResult (Body BackendJobInfo))
    : option BackendJobInfo :=
  match fr with
  | Rejected _ => None
  | Resolved res =>
      if negb (Net.ok res) then None
      else catch_with (Net.json res) None
  end.

Definition set_crawled (n : Z) (j : CrawlJob) : CrawlJob :=
  mkJob (id j) (name j) (config j) (status j) (createdAt j) (startedAt j)
        (finishedAt j) (updatedAt j)
        (mkCounts n (cnt_queued (counts j)) (cnt_failed (counts j)))
        (jobDir j) (startUrl j).

Definition set_updatedAt (t : Date) (j : CrawlJob) : CrawlJob :=
  mkJob (id j) (name j) (config j) (status j) (createdAt j) (startedAt j)
        (finishedAt j) (Some t) (counts j) (jobDir j) (startUrl j).

(** [local.status = s; local.finishedAt = new Date();] *)
Definition finish (s : JobStatus) (t : Date) (j : CrawlJob) : CrawlJob :=
  mkJob (id j) (name j) (config j) s (createdAt j) (startedAt j)
        (Some t) (updatedAt j) (counts j) (jobDir j) (startUrl j).

Definition set_jobDir (d : string) (j : CrawlJob) : CrawlJob :=
  mkJob (id j) (name j) (config j) (status j) (createdAt j) (startedAt j)
        (finishedAt j) (updatedAt j) (counts j) (Some d) (startUrl j).

Definition set_startUrl (u : string) (j : CrawlJob) : CrawlJob :=
  mkJob (id j) (name j) (config j) (status j) (createdAt j) (startedAt j)
        (finishedAt j) (updatedAt j) (counts j) (jobDir j) (Some u).

(** [info.counts?.crawled] *)
Definition reported_crawled (info : BackendJobInfo) : option Z :=
  match info_counts info with
  | Some c => bc_crawled c
  | None => None
  end.

(** [info.status?.done], as a condition. *)
Definition reported_done (info : BackendJobInfo) : bool :=
  match info_status info with
  | Some s => st_done s
  | None => false
  end.

(** [info.status?.error], as a condition. *)
Definition reported_error (info : BackendJobInfo) : bool :=
  match info_status info with
  | Some s => truthy_opt (st_error s)
  | None => false
  end.

(** The three readings of [new Date()] of one call, in source order:
    for [updatedAt], in the [done] branch, in the [error] branch. *)
Record SyncClock : Type := mkClock { t_updated : Date; t_done : Date; t_error : Date }.

(** The body of [syncJobFromBackend] after [local] has been found:
    the merge of the snapshot [info] into the job [local]. *)
Definition mergeInfo (clock : SyncClock) (info : BackendJobInfo)
    (local : CrawlJob) : CrawlJob :=
  let j1 := set_crawled (match reported_crawled info with
                         | Some n => n
                         | None => crawled (counts local)
                         end) local in
  let j2 := set_updatedAt (t_updated clock) j1 in
  let j3 := if reported_done info then finish completed (t_done clock) j2 else j2 in
  let j4 := if reported_error info then finish failed (t_error clock) j3 else j3 in
  let j5 := match info_jobDir info with
            | Some d => if truthy d then set_jobDir ("output_crawler/" ++ d) j4 else j4
            | None => j4
            end in
  match info_startUrl info with
  | Some u => if truthy u then set_startUrl u j5 else j5
  | None => j5
  end.

Definition syncJobFromBackend (clock : SyncClock)
    (fr : FetchResult (Body BackendJobInfo)) (job : string) (st : Store) : Store :=
  match getJobInfo fr with
  | None => st
  | Some info =>
      match find_job job (jobs st) with
      | None => st
      | Some _ => set_job job (mergeInfo clock info) st
      end
  end.

(** *** JobService.getJobLogs *)

(** The entry built for the line at position [idx]. *)
Definition log_of_line (job : string) (idx : nat) (l : BackendLogLine) : JobLog :=
  mkLog (job ++ "-" ++ number_to_string (Z.of_nat idx) ++ "-"
             ++ number_to_string (ts l))
        job
        (match line_level l with Some lv => lv | None => "info" end)
        (line_message l)
        (ts l * 1000)%Z
        None.

Definition other_job (job : string) (x : JobLog) : bool :=
  negb (jobId x =? job).

(** Returns the entries to display and the new store. *)
Definition getJobLogs (fr : FetchResult (Body BackendJobLogs))
    (job : string) (st : Store) : list JobLog * Store :=
  match fr with
  | Rejected _ => ([], st)
  | Resolved res =>
      if negb (Net.ok res) then ([], st)
      else
        match Net.json res with
        | Ok (Some data) =>
            match log_lines data with
            | Some lines =>
                let mapped := map_index (log_of_line job) 0 lines in
                (sort_by_time mapped,
                 mkStore (jobs st)
                         (filter (other_job job) (logs st) ++ mapped)
                         (intervals st))
            | None => ([], st)
            end
        | _ => ([], st)
        end
  end.

(** *** JobService.exportJob *)

Record Link : Type := mkLink { format : string; url : string }.

(** [buildDownloadUrl(job.jobDir, fn)] turned into a link or dropped. *)
Definition link_for (dir : option string) (f : string) : list Link :=
  match buildDownloadUrl dir (filename_text f) with
  | Some u => [mkLink f u]
  | None => []
  end.

(** [objectUrl k] is the result of the [k]-th [URL.createObjectURL]. *)
Definition exportJob (mock : bool) (objectUrl : nat -> string)
    (job : string) (formats : list string) (st : Store) : outcome (list Link) :=
  match find_job job (jobs st) with
  | None => Throw (Error "Job not found")
  | Some j =>
      if mock then Ok (map_index (fun k f => mkLink f (objectUrl k)) 0 formats)
      else
        let requested := filter in_formatToFilename formats in
        let links := flat_map (link_for (jobDir j)) requested in
        match links with
        | [] => Throw (Error "No download links available for requested formats.")
        | _ => Ok links
        end
  end.

End Service.

End JobService.

(* ================================================================== *)
(** ** services/api.ts *)
(* ================================================================== *)

Module Api.

(** What one [withTimeout(fetch(...), ms)] does. *)
Inductive Attempt : Type :=
| NoAnswer                         (* not settled when the timer fires *)
| Failed (e : JsError)             (* [fetch] rejects: network error *)
| Answered (resp : Net.Response unit).

(** What [postJSON] does to the outside, in order. *)
Inductive Event (B : Type) : Type :=
| Fetch (url : string) (body : B) (timeout_ms : Z)
| Wait (ms : Z).
Arguments Fetch {B} url body timeout_ms.
Arguments Wait {B} ms.

Section Transport.

(** [const BASE_URL = (import.meta.env.VITE_API_URL || '').replace(/\/$/, '')] *)
Variable BASE_URL : string.

(** Decoded bodies and [JSON.parse]; [None] is a [SyntaxError]. *)
Variable JSON : Type.
Variable JSON_parse : string -> option JSON.

(** Request bodies. *)
Variable B : Type.

Definition url_of (path : string) : string :=
  BASE_URL ++ (if startsWith "/"%char path then path else "/" ++ path).

(** [attempt === 1 ? 65000 : 90000] *)
Definition timeout_of (attempt : nat) : Z :=
  if (attempt =? 1)%nat then 65000%Z else 90000%Z.

(** The body of the [try] block; [undefined] is [None]. *)
Definition try_once (ms : Z) (a : Attempt) : outcome (option JSON) :=
  match a with
  | NoAnswer => Throw (Error ("Timeout after " ++ number_to_string ms ++ "ms"))
  | Failed e => Throw e
  | Answered resp =>
      txt <- Net.text resp ;;
      let data := if truthy txt then JSON_parse txt else None in
      if negb (Net.ok resp) then
        Throw (Error ("HTTP " ++ number_to_string (Net.status resp) ++ " "
                      ++ Net.statusText resp ++ " – "
                      ++ (if truthy txt then txt else "(empty)")))
      else Ok data
  end.

(** The loop [for (let attempt = ...; attempt <= 2; attempt++)] with
    [remaining] iterations to go, and the [throw] after it.  [net k]
    is what the [k]-th request meets. *)
Fixpoint attempts (net : nat -> Attempt) (url : string) (body : B)
    (attempt remaining : nat) (lastErr : option JsError)
    : list (Event B) * outcome (option JSON) :=
  match remaining with
  | O => ([], Throw (match lastErr with
                     | Some e => e
                     | None => Error "Load failed"
                     end))
  | S k =>
      let ms := timeout_of attempt in
      match try_once ms (net attempt) with
      | Ok data => ([Fetch url body ms], Ok data)
      | Throw e =>
          let (evs, r) := attempts net url body (S attempt) k (Some e) in
          (Fetch url body ms :: Wait 1500 :: evs, r)
      end
  end.

(** [export async function postJSON<T>(path, body)] *)
Definition postJSON (net : nat -> Attempt) (path : string) (body : B)
    : list (Event B) * outcome (option JSON) :=
  if negb (truthy BASE_URL) then ([], Throw (Error "VITE_API_URL is not set"))
  else attempts net (url_of path) body 1 2 None.

(** The requests among the events. *)
Definition fetches (evs : list (Event B)) : list (Event B) :=
  filter (fun e => match e with Fetch _ _ _ => true | Wait _ => false end) evs.

End Transport.

End Api.

(* ================================================================== *)
(** ** components/crawl-job-form.tsx: the submit handler *)
(* ================================================================== *)

Module CrawlJobForm.

Import JobService.

Record CrawlResult : Type := mkResult {
  res_startUrl : string;
  res_jobDir : string;
  pages : Z
}.

(** The body [postJSON] is expected to decode. *)
Record CrawlResponse : Type := mkCrawlResponse {
  resp_status : string;
  results : option (list CrawlResult);
  resp_error : option string
}.

Inductive FormEffect : Type :=
| Alert (msg : string)
| Network (e : Api.Event CrawlConfig)
| ConsoleLog (data : option CrawlResponse)
| ConsoleError (err : JsError)
| SetLastJob (jobName dir : string)
| OnSubmit (cfg : CrawlConfig).

Section Form.

Variable BASE_URL : string.
Variable JSON_parse : string -> option CrawlResponse.

(** [data.results?.[0]] followed by the [if (first?.jobDir)] block. *)
Definition remember_first (data : CrawlResponse) : list FormEffect :=
  match results data with
  | Some (first :: _) =>
      if truthy (res_jobDir first) then
        let parts := split2 "\"%char "/"%char (res_jobDir first) in
        [SetLastJob (last parts "") (res_jobDir first)]
      else []
  | _ => []
  end.

(** [err?.message || err] inside the template literal. *)
Definition error_text (err : JsError) : string :=
  if truthy (message err) then message err else err_name err.

(** [const handleSubmit = async (e) => ...], on the [config] held by
    the form; [onSubmit] is recorded as the effect [OnSubmit]. *)
Definition handleSubmit (net : nat -> Api.Attempt) (config : CrawlConfig)
    : list FormEffect :=
  if negb (truthy (trim (cfg_name config))) then
    [Alert "Please provide a job name"]
  else if (length (startUrls config) =? 0)%nat
          || negb (truthy (trim (nth 0 (startUrls config) ""))) then
    [Alert "Please provide at least one start URL"]
  else
    let (evs, r) := Api.postJSON BASE_URL CrawlResponse JSON_parse CrawlConfig
                      net "/crawl" config in
    map Network evs ++
    match r with
    | Throw err =>
        [ConsoleError err; Alert ("Failed to connect to backend: " ++ error_text err)]
    | Ok None =>
        let err := TypeError "Cannot read properties of undefined (reading 'status')" in
        [ConsoleLog None; ConsoleError err;
         Alert ("Failed to connect to backend: " ++ error_text err)]
    | Ok (Some data) =>
        ConsoleLog (Some data) ::
        if resp_status data =? "ok" then
          Alert "Crawl started successfully!" :: remember_first data ++ [OnSubmit config]
        else
          [Alert ("Error: " ++ match resp_error data with
                               | Some m => if truthy m then m else "Unknown error"
                               | None => "Unknown error"
                               end)]
    end.

End Form.

End CrawlJobForm.

(* ================================================================== *)
(** ** App.tsx: what the form's [onSubmit] is bound to *)
(* ================================================================== *)

Module App.

Import JobService CrawlJobForm.

(** What [handleCreateJob] needs from outside for one [createJob]. *)
Record CreateEnv : Type := mkEnv {
  env_now : Date;
  env_base : Date;
  env_newId : string;
  env_ids : nat -> string;
  env_fetch : Net.FetchResult (Body BackendAsyncStart)
}.

(** [const handleCreateJob = async (config) => ...]: the toast shown
    and the store of the service afterwards. *)
Definition handleCreateJob (env : CreateEnv) (cfg : CrawlConfig) (st : Store)
    : string * Store :=
  match createJob USE_MOCK (env_now env) (env_base env) (env_newId env)
          (env_ids env) (env_fetch env) cfg st with
  | (Ok _, st') => ("Crawl job created successfully", st')
  | (Throw err, st') =>
      ("Failed to create crawl job"
         ++ (if truthy (message err) then ": " ++ message err else ""), st')
  end.

(** The store after the effects of one submission of
    [<CrawlJobForm onSubmit={handleCreateJob} />]. *)
Fixpoint run_effects (env : CreateEnv) (effs : list FormEffect) (st : Store) : Store :=
  match effs with
  | [] => st
  | OnSubmit cfg :: rest => run_effects env rest (snd (handleCreateJob env cfg st))
  | _ :: rest => run_effects env rest st
  end.

Definition submit (BASE_URL : string) (JSON_parse : string -> option CrawlResponse)
    (net : nat -> Api.Attempt) (env : CreateEnv) (cfg : CrawlConfig) (st : Store)
    : Store :=
  run_effects env (handleSubmit BASE_URL JSON_parse net cfg) st.

End App.

(* ================================================================== *)
(** ** Predicates used in the statements *)
(* ================================================================== *)

Module Predicates.

Import JobService CrawlJobForm.

(** The submission did not succeed: no answer at all, an answer that
    is not 2xx, or a body without a job identifier. *)
Definition submission_failed (fr : Net.FetchResult (Body BackendAsyncStart)) : Prop :=
  match fr with
  | Net.Rejected _ => True
  | Net.Resolved res =>
      Net.ok res = false
      \/ forall data, Net.json res = Ok (Some data) -> truthy_opt (job_id data) = false
  end.

(** A start URL the form treats as missing. *)
Definition blank (u : string) : Prop := all_white u = true.

Definition is_alert (e : FormEffect) : Prop :=
  match e with
  | Alert _ => True
  | _ => False
  end.

End Predicates.

(* ================================================================== *)
(** ** Concrete inputs *)
(* ================================================================== *)

Module Samples.

Import JobService CrawlJobForm.
Local Open Scope Z_scope.

(** The initial state of the form, with a name and a start URL. *)
Definition cfg_docs : CrawlConfig :=
  mkConfig "docs" ["https://example.com"] 100 3 true false ["**/*"]
    ["**/*?*utm_*"; "**/calendar/**"; "**/wp-admin/**"]
    true false false 10000 3 2 60
    "WebCrawler/1.0 (+https://example.com/bot)" []
    true false true false true true true true true true false.

Definition with_startUrls (urls : list string) (c : CrawlConfig) : CrawlConfig :=
  mkConfig (cfg_name c) urls (maxPages c) (maxDepth c) (sameDomainOnly c)
    (includeSubdomains c) (includePatterns c) (excludePatterns c)
    (useSitemap c) (prioritizeSitemap c) (renderJs c) (timeout c) (retries c)
    (concurrency c) (requestsPerMinute c) (userAgent c) (headers c)
    (stripQueryParams c) (canonicalOnly c) (respectRobots c)
    (overrideRobots c) (extractTitle c) (extractMetaDescription c)
    (extractHeadings c) (extractMainContent c) (extractLinks c)
    (extractImages c) (saveRawHtml c).

Definition cfg_no_urls : CrawlConfig := with_startUrls [] cfg_docs.
Definition cfg_blank_urls : CrawlConfig := with_startUrls [" "; ""] cfg_docs.

Definition api : string := "http://127.0.0.1:8000".

(** What V8 prints for a built-in function. *)
Definition v8_text (f : string) : string :=
  "function " ++ (if String.eqb f "constructor" then "Object" else f)
              ++ "() { [native code] }".

Definition no_ids (k : nat) : string := "".
Definition no_urls (k : nat) : string := "".

Definition job_running : CrawlJob :=
  mkJob "j1" "docs" cfg_docs running 1000 (Some 1000) None None
        (mkCounts 0 0 0) None None.

Definition job_completed : CrawlJob :=
  mkJob "j2" "docs" cfg_docs completed 1000 (Some 1000) (Some 9000) (Some 9000)
        (mkCounts 12 0 0) (Some "output/job-20250101-000000") None.

Definition log_j1 : JobLog := mkLog "j1-0-5" "j1" "info" "old line" 5000 None.
Definition log_j2 : JobLog := mkLog "j2-0-7" "j2" "info" "done" 7000 None.

Definition store0 : Store := mkStore [job_running; job_completed] [log_j1; log_j2] [].

Definition empty_store : Store := mkStore [] [] [].

(** A snapshot reporting completion of 12 pages in [job-20251003-101601]. *)
Definition snapshot_done : BackendJobInfo :=
  mkJobInfo "j1" "docs" 1
    (Some (mkBackendStatus false true None))
    (Some (mkBackendCounts (Some 12)))
    (Some "job-20251003-101601") (Some "https://example.com").

Definition clock_at (t : Date) : SyncClock := mkClock t t t.

Definition response {J} (good : bool) (code : Z) (reason : string)
    (body : string) (decoded : outcome J) : Net.Response J :=
  Net.mkResponse good code reason (Ok body) decoded.

Definition started (i : string) : Net.FetchResult (Body BackendAsyncStart) :=
  Net.Resolved (response true 200 "OK" "" (Ok (Some (mkAsyncStart (Some i))))).

Definition unavailable : Net.FetchResult (Body BackendAsyncStart) :=
  Net.Resolved (response false 503 "Service Unavailable" "waking up"
                  (Throw (mkError "SyntaxError" "Unexpected token"))).

Definition two_lines : list BackendLogLine :=
  [ mkLogLine 20 (Some "info") "second"; mkLogLine 10 None "first" ].

Definition logs_answer : Net.Response (Body BackendJobLogs) :=
  response true 200 "OK" "" (Ok (Some (mkJobLogs (Some two_lines)))).

(** A service that is cold at the first request and answers the second. *)
Definition cold_start (k : nat) : Api.Attempt :=
  if (k =? 1)%nat then Api.NoAnswer
  else Api.Answered (response true 200 "OK" "{}" (Ok tt)).

Definition parse_any (t : string) : option CrawlResponse :=
  Some (mkCrawlResponse "ok" None None).

Definition env_started : App.CreateEnv :=
  App.mkEnv 1000 1000 "local-1" no_ids (started "srv-1").

End Samples.

(* ================================================================== *)
(** ** job-service.ts: the read operations and [clearAll] *)
(* ================================================================== *)

Module Queries.

Import JobService.

(** Where the stable sort of [getJobs] puts [x] among jobs already in
    order: before the first [y] with [y.createdAt - x.createdAt <= 0]. *)
Fixpoint insert_newest (x : CrawlJob) (sorted : list CrawlJob) : list CrawlJob :=
  match sorted with
  | [] => [x]
  | y :: rest =>
      if (createdAt y <=? createdAt x)%Z then x :: y :: rest
      else y :: insert_newest x rest
  end.

(** [getJobs()]: [[...jobs].sort((a, b) => b.createdAt.getTime() - a.createdAt.getTime())] *)
Definition getJobs (st : Store) : list CrawlJob :=
  fold_right insert_newest [] (jobs st).

(** The order of the result: [a] may come before [b]. *)
Definition newer_or_same (a b : CrawlJob) : Prop :=
  (createdAt b <= createdAt a)%Z.

(** The order of the entries [getJobLogs] returns. *)
Definition not_later (a b : JobLog) : Prop :=
  (timestamp a <= timestamp b)%Z.

(** [getJob(jobId)] *)
Definition getJob (job : string) (st : Store) : option CrawlJob :=
  find_job job (jobs st).

Record PageLink : Type := mkPageLink {
  link_url : string;
  link_text : string;
  internal : bool
}.

Record PageImage : Type := mkPageImage { src : string; alt : string }.

Record CrawledPage : Type := mkPage {
  page_id : string;
  page_jobId : string;
  page_url : string;
  normalizedUrl : string;
  page_status : Z;
  contentType : string;
  fetchedAt : Date;
  durationMs : Z;
  hash : string;
  title : string;
  description : string;
  h1 : string;
  headings : list string;
  links : list PageLink;
  images : list PageImage;
  markdown : string;
  html : option string;
  page_error : option string
}.

(** [${job.startUrl || job.config.startUrls[0]}]: an [undefined] operand
    prints as ["undefined"]. *)
Definition page_base (j : CrawlJob) : string :=
  match or_else (startUrl j) (nth_error (startUrls (config j)) 0) with
  | Some u => u
  | None => "undefined"
  end.

(** The line feed of the template literal of [markdown]. *)
Definition newline : string := String (ascii_of_nat 10) EmptyString.

(** The object pushed by iteration [i] of the loop of [getJobPages];
    [newId] is the result of [generateId()] and [now] the reading of
    [Date.now()] in that iteration. *)
Definition mock_page (newId : string) (now : Date) (job : string) (j : CrawlJob)
    (i : nat) : CrawledPage :=
  let n := number_to_string (Z.of_nat i + 1) in
  let u := page_base j ++ "/page-" ++ n in
  mkPage newId job u u 200 "text/html"
    (now - (crawled (counts j) - Z.of_nat i) * 20000)%Z
    800
    ("hash-" ++ number_to_string (Z.of_nat i))
    ("Page " ++ n)
    ("Mock page " ++ n)
    ("Page " ++ n ++ " Heading")
    ["Page " ++ n ++ " Heading"; "Section A"; "Section B"]
    [mkPageLink "/about" "About" true; mkPageLink "/contact" "Contact" true]
    [mkPageImage "/image.jpg" "img"]
    ("# Page " ++ n ++ newline ++ newline ++ "Mock content.")
    None None.

(** [getJobPages(jobId)]: the loop [for (let i = 0; i < job.counts.crawled; i++)]. *)
Definition getJobPages (ids : nat -> string) (nows : nat -> Date) (job : string)
    (st : Store) : list CrawledPage :=
  match find_job job (jobs st) with
  | None => []
  | Some j =>
      map (fun i => mock_page (ids i) (nows i) job j i)
          (seq 0 (Z.to_nat (crawled (counts j))))
  end.

(** [clearAll()]: the arrays are emptied; the tickers are not touched. *)
Definition clearAll (st : Store) : Store :=
  mkStore [] [] (intervals st).

End Queries.

(* ================================================================== *)
(** ** job-service.ts: the callback [simulateCrawling] hands to [setInterval] *)
(* ================================================================== *)

Module Simulation.

Import JobService.

(** [Math.floor(Math.random() * 3) + 1] *)
Inductive Roll : Type := one | two | three.

Definition pages_of (r : Roll) : Z :=
  match r with
  | one => 1
  | two => 2
  | three => 3
  end.

(** What one run of the callback reads from outside: the two draws of
    [Math.random()] (the second as the outcome of [< 0.1]), the two
    results of [generateId()] and the four readings of [new Date()], in
    source order. *)
Record TickEnv : Type := mkTick {
  roll : Roll;
  page_fails : bool;
  crawl_log_id : string;
  done_log_id : string;
  t_progress : Date;
  t_crawl_log : Date;
  t_finished : Date;
  t_done_log : Date
}.

Definition with_counts (c : Counts) (j : CrawlJob) : CrawlJob :=
  mkJob (id j) (name j) (config j) (status j) (createdAt j) (startedAt j)
        (finishedAt j) (updatedAt j) c (jobDir j) (startUrl j).

(** [Math.min(current.config.maxPages, 50)]: [NaN] for a [maxPages]
    that is [NaN]. *)
Definition total_of (j : CrawlJob) : number := JS.Math_min (maxPages (config j)) 50.

(** [${current.config.startUrls[0]}] *)
Definition first_url (j : CrawlJob) : string :=
  match nth_error (startUrls (config j)) 0 with
  | Some u => u
  | None => "undefined"
  end.

(** [current.counts.crawled < total], false for a total that is [NaN]. *)
Definition below_total (j : CrawlJob) : bool :=
  match total_of j with
  | Num total => (crawled (counts j) <? total)%Z
  | NaN => false
  end.

(** [Math.min(Math.floor(Math.random() * 3) + 1, total - current.counts.crawled)],
    read where [below_total] holds. *)
Definition increment (env : TickEnv) (j : CrawlJob) : Z :=
  match total_of j with
  | Num total => Z.min (pages_of (roll env)) (total - crawled (counts j))
  | NaN => 0
  end.

(** The block [if (current.counts.crawled < total) ...]: the job after
    it and the entries pushed. *)
Definition crawl_some (env : TickEnv) (j : CrawlJob) : CrawlJob * list JobLog :=
  if below_total j then
    let inc := increment env j in
    let c := mkCounts (crawled (counts j) + inc)
                      (JS.Math_max 0 (JS.minus (cnt_queued (counts j)) inc))
                      (if page_fails env then cnt_failed (counts j) + 1
                       else cnt_failed (counts j)) in
    let j' := set_updatedAt (t_progress env) (with_counts c j) in
    (j', [mkLog (crawl_log_id env) (id j) "success"
            ("Successfully crawled: " ++ first_url j ++ "/page-"
               ++ number_to_string (crawled c))
            (t_crawl_log env) (Some [("status", MetaNum 200)])])
  else (j, []).

(** [current.counts.crawled + current.counts.failed >= total], false
    for a total that is [NaN]. *)
Definition reached_total (j : CrawlJob) : bool :=
  match total_of j with
  | Num total => (total <=? crawled (counts j) + cnt_failed (counts j))%Z
  | NaN => false
  end.

(** The block [if (... >= total) ...]. *)
Definition complete (env : TickEnv) (j : CrawlJob) : CrawlJob * list JobLog :=
  if reached_total j then
    let c := mkCounts (crawled (counts j)) 0 (cnt_failed (counts j)) in
    (with_counts c (finish completed (t_finished env) j),
     [mkLog (done_log_id env) (id j) "success"
        ("Crawl job completed. Processed " ++ number_to_string (crawled (counts j))
           ++ " pages.")
        (t_done_log env) (Some [("totalPages", MetaNum (crawled (counts j)))])])
  else (j, []).

(** One run of the callback on the running job it found. *)
Definition tick_job (env : TickEnv) (j : CrawlJob) : CrawlJob * list JobLog :=
  let (j1, l1) := crawl_some env j in
  let (j2, l2) := complete env j1 in
  (j2, (l1 ++ l2)%list).

(** [clearInterval(interval)]: one ticker of the job goes away. *)
Fixpoint clear_interval (job : string) (timers : list string) : list string :=
  match timers with
  | [] => []
  | t :: rest => if t =? job then rest else t :: clear_interval job rest
  end.

(** One run of the callback of the ticker of [job]. *)
Definition tick (env : TickEnv) (job : string) (st : Store) : Store :=
  match find_job job (jobs st) with
  | None => mkStore (jobs st) (logs st) (clear_interval job (intervals st))
  | Some current =>
      if negb (JobStatus_eqb (status current) running) then
        mkStore (jobs st) (logs st) (clear_interval job (intervals st))
      else
        let (j', pushed) := tick_job env current in
        mkStore (update_job job (fun _ => j') (jobs st))
                (logs st ++ pushed)
                (if reached_total (fst (crawl_some env current))
                 then clear_interval job (intervals st)
                 else intervals st)
  end.

(** The job after the runs of the callback that [envs] feeds, as long
    as it is running. *)
Fixpoint run_ticks (envs : list TickEnv) (j : CrawlJob) : CrawlJob :=
  match envs with
  | [] => j
  | env :: rest =>
      if JobStatus_eqb (status j) running
      then run_ticks rest (fst (tick_job env j))
      else j
  end.

End Simulation.

(* ================================================================== *)
(** ** The stores the service can be in *)
(* ================================================================== *)

Module Lifecycle.

Import JobService Queries Simulation.

(** One operation of the service on its module-level state, with any
    arguments and any answer from outside. *)
Inductive step : Store -> Store -> Prop :=
| step_create mock now base newId ids fr cfg st :
    step st (snd (createJob mock now base newId ids fr cfg st))
| step_action mock now newId job action st :
    step st (snd (performJobAction mock now newId job action st))
| step_sync clock fr job st :
    step st (syncJobFromBackend clock fr job st)
| step_logs fr job st :
    step st (snd (getJobLogs fr job st))
| step_tick env job st :
    step st (tick env job st)
| step_clear st :
    step st (clearAll st).

(** The stores reached from the empty arrays the module starts with. *)
Inductive reachable : Store -> Prop :=
| reach_start : reachable (mkStore [] [] [])
| reach_step st st' : reachable st -> step st st' -> reachable st'.

(** The transitions of the state machine of the specification:
    queued --start--> running, running --pause--> paused,
    paused --resume--> running, queued/running/paused --cancel--> canceled. *)
Definition spec_transition (a : Action) (s : JobStatus) : option JobStatus :=
  match a, s with
  | start, queued => Some running
  | pause, running => Some paused
  | resume, paused => Some running
  | cancel, queued | cancel, running | cancel, paused => Some canceled
  | _, _ => None
  end.

(** A job has a finish time exactly when its status is terminal. *)
Definition finished_iff_terminal (j : CrawlJob) : Prop :=
  terminal (status j) = true <-> finishedAt j <> None.

End Lifecycle.

(* ================================================================== *)
(** ** services/api.ts: [getJSON] *)
(* ================================================================== *)

Module ApiGet.

(** The request [getJSON] sends. *)
Inductive Request : Type := GET (url : string) (timeout_ms : Z).

Section Get.

Variable BASE_URL : string.
Variable JSON : Type.
Variable JSON_parse : string -> option JSON.

(** [export async function getJSON<T>(path)]; [net] is what the one
    [withTimeout(fetch(url, ...))] meets, with the default of 60000 ms. *)
Definition getJSON (net : Api.Attempt) (path : string)
    : list Request * outcome (option JSON) :=
  if negb (truthy BASE_URL) then ([], Throw (Error "VITE_API_URL is not set"))
  else
    let url := BASE_URL ++ (if startsWith "/"%char path then path else "/" ++ path) in
    ([GET url 60000],
     match net with
     | Api.NoAnswer =>
         Throw (Error ("Timeout after " ++ number_to_string 60000 ++ "ms"))
     | Api.Failed e => Throw e
     | Api.Answered resp =>
         txt <- Net.text resp ;;
         let data := if truthy txt then JSON_parse txt else None in
         if negb (Net.ok resp) then
           Throw (Error ("HTTP " ++ number_to_string (Net.status resp) ++ " "
                         ++ Net.statusText resp ++ " – "
                         ++ (if truthy txt then txt else "(empty)")))
         else Ok data
     end).

End Get.

End ApiGet.

(* ================================================================== *)
(** ** components/crawl-job-form.tsx: the list editors and the links *)
(* ================================================================== *)

Module FormEdit.

(** [xs.filter((_, i) => i !== index)], counting from [pos]. *)
Fixpoint drop_index {A} (index pos : nat) (xs : list A) : list A :=
  match xs with
  | [] => []
  | x :: rest =>
      if (pos =? index)%nat then drop_index index (S pos) rest
      else x :: drop_index index (S pos) rest
  end.

(** [addStartUrl] and [addPattern]: [[...list, '']] *)
Definition addEntry (entries : list string) : list string :=
  (entries ++ [""])%list.

(** [removeStartUrl] and [removePattern]: nothing happens to a list of
    one entry. *)
Definition removeEntry (index : nat) (entries : list string) : list string :=
  if (1 <? length entries)%nat then drop_index index 0 entries else entries.

(** The three links shown under the form for the last job:
    [${API_BASE}/download/${lastJob.jobName}/all_results.*] *)
Definition download_link (API_BASE jobName fileName : string) : string :=
  API_BASE ++ "/download/" ++ jobName ++ "/" ++ fileName.

(** [parts[parts.length - 1]] of [jobDir.split(/[\\/]/)] *)
Definition jobName_of (dir : string) : string :=
  last (split2 "\"%char "/"%char dir) "".

End FormEdit.

(* ================================================================== *)
(** ** components/job-progress.tsx: duration and action buttons *)
(* ================================================================== *)

Module JobProgress.

Import JobService.

(** [Math.floor(duration / (1000 * 60))] *)
Definition minutes_of (duration : Z) : Z := (duration / 60000)%Z.

(** [Math.floor((duration % (1000 * 60)) / 1000)]; the remainder of
    JavaScript has the sign of the dividend. *)
Definition seconds_of (duration : Z) : Z := (Z.rem duration 60000 / 1000)%Z.

(** [formatDuration(start, end)]; [now] is the reading of [new Date()]
    used when there is no [end]. *)
Definition formatDuration (now : Date) (start : Date) (finish : option Date)
    : string :=
  let endTime := match finish with Some e => e | None => now end in
  let duration := (endTime - start)%Z in
  if (0 <? minutes_of duration)%Z then
    number_to_string (minutes_of duration) ++ "m "
      ++ number_to_string (seconds_of duration) ++ "s"
  else number_to_string (seconds_of duration) ++ "s".

(** The actions of the buttons [getActionButtons] renders, in order. *)
Definition getActionButtons (j : CrawlJob) : list Action :=
  match status j with
  | queued => [start]
  | paused => [resume]
  | running => [pause; cancel]
  | _ => []
  end.

End JobProgress.

(* ================================================================== *)
(** ** components/export-panel.tsx and [handleExportJob] of App.tsx *)
(* ================================================================== *)

Module ExportPanel.

Import JobService.

(** [[...new Set(xs)]]: the first occurrence of each value, in order. *)
Fixpoint dedupe (seen xs : list string) : list string :=
  match xs with
  | [] => []
  | x :: rest =>
      if existsb (String.eqb x) seen then dedupe seen rest
      else x :: dedupe (x :: seen) rest
  end.

(** [handleFormatToggle], in the version that goes through a [Set]. *)
Definition handleFormatToggle (formatId : string) (checked : bool)
    (prev : list string) : list string :=
  if checked then dedupe [] (prev ++ [formatId])
  else filter (fun i => negb (i =? formatId)) prev.

(** [handleFormatToggle], in the version that only appends. *)
Definition handleFormatToggle_append (formatId : string) (checked : bool)
    (prev : list string) : list string :=
  if checked then (prev ++ [formatId])%list
  else filter (fun i => negb (i =? formatId)) prev.

(** [const canExport = job.status === 'completed' || job.counts.crawled > 0] *)
Definition canExport (j : CrawlJob) : bool :=
  JobStatus_eqb (status j) completed || (0 <? crawled (counts j))%Z.

(** What [handleExport] asks for. *)
Inductive ExportRequest : Type :=
| AlertNoFormat
| OnExport (job : string) (formats : list string).

(** [handleExport]: the alert on an empty selection, else [onExport]. *)
Definition handleExport (j : CrawlJob) (selected : list string) : ExportRequest :=
  if (length selected =? 0)%nat then AlertNoFormat
  else OnExport (id j) selected.

(** An anchor clicked by [handleExportJob]. *)
Record Download : Type := mkDownload { href : string; download : string }.

Section Handler.

Variable API_URL : string.
Variable native_text : string -> string.

(** [extByFormat[format] || 'txt'], as the template literal prints it. *)
Definition ext_of (f : string) : string :=
  if f =? "json" then "json"
  else if f =? "csv" then "csv"
  else if f =? "markdown-book" then "md"
  else if inherited f then native_text f
  else "txt".

(** [handleExportJob] of App.tsx: the anchors clicked and the toast. *)
Definition handleExportJob (objectUrl : nat -> string) (job : string)
    (formats : list string) (st : Store) : list Download * string :=
  match exportJob API_URL native_text USE_MOCK objectUrl job formats st with
  | Ok results =>
      (map (fun l => mkDownload (url l)
                       ("crawl-job-" ++ job ++ "-export." ++ ext_of (format l)))
           results,
       "Export generated successfully")
  | Throw _ => ([], "Failed to generate export")
  end.

(** The panel's [handleExport] wired to [handleExportJob]. *)
Definition export_selected (objectUrl : nat -> string) (j : CrawlJob)
    (selected : list string) (st : Store) : list Download * list string :=
  match handleExport j selected with
  | AlertNoFormat => ([], ["Please select at least one export format"])
  | OnExport job formats =>
      let (clicked, toast) := handleExportJob objectUrl job formats st in
      (clicked, [toast])
  end.

End Handler.

End ExportPanel.

(* ================================================================== *)
(** ** job-service.ts, the version that crawls in one call ([/crawl/]) *)
(* ================================================================== *)

Module SyncService.

Import JobService.

Record BackendResult : Type := mkBackendResult {
  r_startUrl : string;
  r_jobDir : string;
  r_pages : option Z
}.

Record BackendCrawlResult : Type := mkCrawlResult {
  crawl_status : string;
  crawl_results : option (list BackendResult);
  crawl_message : option string;
  crawl_error : option string
}.

(** [function jobFromBackend(config, r)]; [newId] is [generateId()]
    and [now] the reading of [new Date()]. *)
Definition jobFromBackend (newId : string) (now : Date) (cfg : CrawlConfig)
    (r : BackendResult) : CrawlJob :=
  mkJob newId (if truthy (cfg_name cfg) then cfg_name cfg else "job") cfg
        completed now (Some now) (Some now) (Some now)
        (mkCounts (match r_pages r with Some n => n | None => 0%Z end) 0 0)
        (Some (r_jobDir r)) (Some (r_startUrl r)).

(** [data.message || data.error || 'Unknown crawler error'] *)
Definition crawler_error (data : BackendCrawlResult) : string :=
  match or_else (crawl_message data) (or_else (crawl_error data) None) with
  | Some m => m
  | None => "Unknown crawler error"
  end.

(** [createJob] of this version, with the mock off; [ids k] and
    [nows k] are what the [k]-th [jobFromBackend] reads. *)
Definition createJobSync (ids : nat -> string) (nows : nat -> Date)
    (fr : Net.FetchResult (Body BackendCrawlResult))
    (cfg : CrawlConfig) (st : Store) : outcome (option CrawlJob) * Store :=
  match fr with
  | Net.Rejected e => (Throw e, st)
  | Net.Resolved res =>
      if negb (Net.ok res) then
        let txt := catch_with (Net.text res) "" in
        (Throw (Error ("Backend error (" ++ number_to_string (Net.status res)
                       ++ "): "
                       ++ (if truthy txt then txt else Net.statusText res))),
         st)
      else
        match Net.json res with
        | Throw e => (Throw e, st)
        | Ok None =>
            (Throw (TypeError "Cannot read properties of null (reading 'status')"), st)
        | Ok (Some data) =>
            match crawl_results data with
            | Some (r :: rs) =>
                if crawl_status data =? "ok" then
                  let completedJobs :=
                    map_index (fun k r => jobFromBackend (ids k) (nows k) cfg r)
                              0 (r :: rs) in
                  (Ok (nth_error completedJobs 0),
                   mkStore (completedJobs ++ jobs st) (logs st) (intervals st))
                else (Throw (Error (crawler_error data)), st)
            | _ => (Throw (Error (crawler_error data)), st)
            end
        end
  end.

(** [getJobLogs] of this version: the cached entries of the job, oldest
    first. *)
Definition getJobLogsSync (job : string) (st : Store) : list JobLog :=
  sort_by_time (filter (fun l => jobId l =? job) (logs st)).

Section Links.

Variable API_URL : string.

(** [exportJob] of this version, with the mock off: the first of the
    links to [all_results.json], [.csv] and [.md] that can be built. *)
Definition exportJobSync (job : string) (st : Store) : outcome string :=
  match find_job job (jobs st) with
  | None => Throw (Error "Job not found")
  | Some j =>
      let links :=
        flat_map (fun fn => match buildDownloadUrl API_URL (jobDir j) fn with
                            | Some u => [u]
                            | None => []
                            end)
                 ["all_results.json"; "all_results.csv"; "all_results.md"] in
      match links with
      | [] => Throw (Error "No download links available for this job.")
      | u :: _ => Ok u
      end
  end.

End Links.

End SyncService.

(* ================================================================== *)
(** ** Facts about the string primitives *)
(* ================================================================== *)

Module JSFacts.

Lemma truthy_true_iff (s : string) : truthy s = true <-> s <> "".
Proof.
  unfold truthy. rewrite negb_true_iff. apply String.eqb_neq.
Qed.

Lemma split_not_nil (sep : ascii) (s : string) : split sep s <> [].
Proof.
  destruct s as [|c s]; simpl; [discriminate|].
  destruct (Ascii.eqb c sep); [discriminate|].
  destruct (split sep s); discriminate.
Qed.

(** A string without the separator is its own single piece. *)
Lemma split_without_sep (sep : ascii) (s : string) :
  contains sep s = false -> split sep s = [s].
Proof.
  induction s as [|c s IH]; simpl; intros H; [reflexivity|].
  apply orb_false_iff in H as [Hc Hs].
  rewrite Hc, (IH Hs). reflexivity.
Qed.

(** No piece of a split contains the separator. *)
Lemma split_pieces (sep : ascii) (s : string) :
  Forall (fun piece => contains sep piece = false) (split sep s).
Proof.
  induction s as [|c s IH]; simpl.
  - constructor; [reflexivity|constructor].
  - destruct (Ascii.eqb c sep) eqn:Hc.
    + constructor; [reflexivity|exact IH].
    + destruct (split sep s) as [|piece pieces].
      * constructor; [simpl; now rewrite Hc|constructor].
      * inversion IH as [|? ? Hp Hps]; subst.
        constructor; [simpl; now rewrite Hc, Hp|exact Hps].
Qed.

(** Splitting [a ++ sep ++ b] when [a] has no separator. *)
Lemma split_prefix (sep : ascii) (a b : string) :
  contains sep a = false ->
  split sep (a ++ String sep b) = a :: split sep b.
Proof.
  induction a as [|c a IH]; simpl; intros H.
  - now rewrite Ascii.eqb_refl.
  - apply orb_false_iff in H as [Hc Ha].
    rewrite Hc, (IH Ha). reflexivity.
Qed.

Lemma trimStart_all_white_le (n : nat) :
  forall s, (String.length s <= n)%nat -> all_white s = true -> trimStart s = "".
Proof.
  induction n as [|n IH]; intros s Hlen H.
  - destruct s; [reflexivity | simpl in Hlen; lia].
  - destruct s as [|a r]; [reflexivity|].
    simpl in Hlen. simpl in H. simpl.
    destruct (is_white a); [apply IH; [lia | exact H]|].
    destruct r as [|b r2]; [discriminate|]. simpl in Hlen.
    destruct (is_white2 a b); [apply IH; [lia | exact H]|].
    destruct r2 as [|c r3]; [discriminate|]. simpl in Hlen.
    apply andb_true_iff in H as [H1 H2]. rewrite H1.
    apply IH; [lia | exact H2].
Qed.

Lemma trimStart_all_white (s : string) :
  all_white s = true -> trimStart s = "".
Proof. apply (trimStart_all_white_le (String.length s)). lia. Qed.

(** A blank string trims to the empty string, which is falsy. *)
Lemma trim_all_white (s : string) : all_white s = true -> trim s = "".
Proof.
  intros H. unfold trim. rewrite (trimStart_all_white s H). reflexivity.
Qed.

End JSFacts.

(* ================================================================== *)
(** ** Download links: [extractJobFolder], [buildDownloadUrl], [exportJob] *)
(* ================================================================== *)

Module LinkProps.

Import JobService JSFacts.

(** What [extractJobFolder] returns is a non-empty piece of the token
    that holds no [/]. *)
Lemma extractJobFolder_piece (dir : option string) (folder : string) :
  extractJobFolder dir = Some folder ->
  folder <> "" /\ contains slash folder = false.
Proof.
  destruct dir as [dir|]; simpl; [|discriminate].
  destruct (truthy dir); simpl; [|discriminate].
  pose proof (split_pieces slash dir) as Hall.
  destruct (split slash dir) as [|p0 [|p1 rest]] eqn:Hs; simpl.
  - discriminate.
  - unfold or_else; simpl. destruct (truthy p0) eqn:Hp0; [|discriminate].
    intros [= <-]. split; [now apply truthy_true_iff|].
    now inversion Hall.
  - inversion Hall as [|? ? H0 Hrest]; subst.
    inversion Hrest as [|? ? H1 _]; subst.
    unfold or_else; simpl. destruct (truthy p1) eqn:Hp1.
    + intros [= <-]. split; [now apply truthy_true_iff|assumption].
    + destruct (truthy p0) eqn:Hp0; [|discriminate].
      intros [= <-]. split; [now apply truthy_true_iff|assumption].
Qed.

(** A non-empty name without [/] is returned as it is. *)
Lemma extractJobFolder_plain (folder : string) :
  folder <> "" -> contains slash folder = false ->
  extractJobFolder (Some folder) = Some folder.
Proof.
  intros Hne Hno. apply truthy_true_iff in Hne.
  unfold extractJobFolder. rewrite Hne; simpl.
  rewrite (split_without_sep _ _ Hno); simpl.
  unfold or_else; simpl. now rewrite Hne.
Qed.

(** Normalisation is idempotent: a second application returns what the
    first returned. *)
Lemma extractJobFolder_idempotent (dir : option string) :
  extractJobFolder (extractJobFolder dir) = extractJobFolder dir.
Proof.
  destruct (extractJobFolder dir) as [folder|] eqn:H; [|reflexivity].
  apply extractJobFolder_piece in H as [Hne Hno].
  now apply extractJobFolder_plain.
Qed.

(** The link is the same text for the same base, folder and file name. *)
Lemma buildDownloadUrl_folder (API_URL : string) (dir : option string)
    (folder fileName : string) :
  extractJobFolder dir = Some folder ->
  buildDownloadUrl API_URL dir fileName
  = Some (API_URL ++ "/download/" ++ folder ++ "/" ++ fileName).
Proof.
  intros H. unfold buildDownloadUrl. rewrite H.
  apply extractJobFolder_piece in H as [Hne _].
  apply truthy_true_iff in Hne. now rewrite Hne.
Qed.

Lemma buildDownloadUrl_none (API_URL : string) (dir : option string) (fileName : string) :
  extractJobFolder dir = None -> buildDownloadUrl API_URL dir fileName = None.
Proof. intros H. unfold buildDownloadUrl. now rewrite H. Qed.

(** The final segment of [prefix/folder] is [folder]. *)
Lemma final_segment_two (prefix folder : string) :
  contains slash prefix = false -> contains slash folder = false ->
  final_segment (prefix ++ String slash folder) = folder.
Proof.
  intros Hp Hf. unfold final_segment.
  rewrite (split_prefix _ _ _ Hp), (split_without_sep _ _ Hf). reflexivity.
Qed.

Lemma extractJobFolder_two (prefix folder : string) :
  contains slash prefix = false -> contains slash folder = false ->
  folder <> "" ->
  extractJobFolder (Some (prefix ++ String slash folder)) = Some folder.
Proof.
  intros Hp Hf Hne. apply truthy_true_iff in Hne.
  unfold extractJobFolder.
  replace (truthy (prefix ++ String slash folder)) with true
    by (destruct prefix; reflexivity).
  simpl negb. cbv iota.
  rewrite (split_prefix _ _ _ Hp), (split_without_sep _ _ Hf). simpl.
  unfold or_else; simpl. now rewrite Hne.
Qed.

(** C2: the normalization is to give the final path segment of the
    token, the job's folder.  On a token of three segments the code
    gives the second segment instead: [parts[1] || parts[0]] looks at
    the first two segments only. *)
Theorem extractJobFolder_not_final_segment :
  extractJobFolder (Some "data/output_crawler/job-20251003-101601")
    = Some "output_crawler"
  /\ final_segment "data/output_crawler/job-20251003-101601"
    = "job-20251003-101601"
  /\ extractJobFolder (Some "data/output_crawler/job-20251003-101601")
    <> Some (final_segment "data/output_crawler/job-20251003-101601").
Proof. split; [reflexivity | split; [reflexivity | discriminate]]. Qed.

(** On a token [prefix/folder] (no other [/], [folder] not empty) and
    on a token [folder] without [/], [extractJobFolder] returns
    [folder], the final path segment; and for every token, applying
    [extractJobFolder] to its own result returns that result. *)
Lemma extractJobFolder_normalizes (prefix folder : string) (dir : option string) :
  contains slash prefix = false ->
  contains slash folder = false ->
  folder <> "" ->
  extractJobFolder (Some (prefix ++ String slash folder))
    = Some (final_segment (prefix ++ String slash folder))
  /\ extractJobFolder (Some (prefix ++ String slash folder)) = Some folder
  /\ extractJobFolder (Some folder) = Some folder
  /\ extractJobFolder (extractJobFolder dir) = extractJobFolder dir.
Proof.
  intros Hp Hf Hne. repeat split.
  - now rewrite final_segment_two, extractJobFolder_two.
  - now apply extractJobFolder_two.
  - now apply extractJobFolder_plain.
  - apply extractJobFolder_idempotent.
Qed.

Lemma extractJobFolder_normalizes_witness :
  extractJobFolder (Some "output/job-20250101-000000")
    = Some (final_segment "output/job-20250101-000000")
  /\ extractJobFolder (Some "output/job-20250101-000000")
    = Some "job-20250101-000000"
  /\ extractJobFolder (Some "job-20250101-000000") = Some "job-20250101-000000"
  /\ extractJobFolder (extractJobFolder (Some "a/b/c"))
    = extractJobFolder (Some "a/b/c").
Proof.
  apply (extractJobFolder_normalizes "output" "job-20250101-000000" (Some "a/b/c"));
    [reflexivity | reflexivity | discriminate].
Defined.

(** C3: for a stored job whose token is ["output/job-20250101-000000"],
    exporting [json] and [csv] returns exactly two links, in that
    order, whose URLs are the base endpoint followed by
    [/download/job-20250101-000000/all_results.json] and [.csv]; each
    is the URL [buildDownloadUrl] computes from base, folder and file
    name alone. *)
Theorem exportJob_json_csv (API_URL : string) (native_text : string -> string)
    (objectUrl : nat -> string) (job : string) (st : Store) (j : CrawlJob) :
  find_job job (jobs st) = Some j ->
  jobDir j = Some "output/job-20250101-000000" ->
  exportJob API_URL native_text USE_MOCK objectUrl job ["json"; "csv"] st
    = Ok [ mkLink "json"
             (API_URL ++ "/download" ++ "/job-20250101-000000/all_results.json");
           mkLink "csv"
             (API_URL ++ "/download" ++ "/job-20250101-000000/all_results.csv") ]
  /\ buildDownloadUrl API_URL (jobDir j) "all_results.json"
     = Some (API_URL ++ "/download/" ++ "job-20250101-000000" ++ "/" ++ "all_results.json")
  /\ buildDownloadUrl API_URL (jobDir j) "all_results.csv"
     = Some (API_URL ++ "/download/" ++ "job-20250101-000000" ++ "/" ++ "all_results.csv").
Proof.
  intros Hfind Hdir. unfold exportJob. rewrite Hfind, Hdir. simpl.
  repeat split; reflexivity.
Qed.

Lemma exportJob_json_csv_witness :
  exportJob Samples.api Samples.v8_text USE_MOCK Samples.no_urls "j2"
    ["json"; "csv"] Samples.store0
  = Ok [ mkLink "json"
           "http://127.0.0.1:8000/download/job-20250101-000000/all_results.json";
         mkLink "csv"
           "http://127.0.0.1:8000/download/job-20250101-000000/all_results.csv" ].
Proof.
  exact (proj1 (exportJob_json_csv Samples.api Samples.v8_text Samples.no_urls
                  "j2" Samples.store0 Samples.job_completed
                  eq_refl eq_refl)).
Defined.

(** Without a working-directory token no link can be built, whatever
    the formats: [exportJob] throws. *)
Lemma exportJob_without_token (API_URL : string) (native_text : string -> string)
    (objectUrl : nat -> string) (job : string) (formats : list string)
    (st : Store) (j : CrawlJob) :
  find_job job (jobs st) = Some j ->
  jobDir j = None ->
  exportJob API_URL native_text USE_MOCK objectUrl job formats st
    = Throw (Error "No download links available for requested formats.").
Proof.
  intros Hfind Hdir. unfold exportJob. rewrite Hfind, Hdir. simpl.
  induction (filter in_formatToFilename formats) as [|f fs IH]; [reflexivity|].
  simpl. exact IH.
Qed.

(** A format id that is neither a key of the table nor a name inherited
    from [Object.prototype] contributes nothing to the result. *)
Lemma exportJob_drops (API_URL : string) (native_text : string -> string)
    (objectUrl : nat -> string) (job f : string) (formats : list string) (st : Store) :
  formatToFilename f = None -> inherited f = false ->
  exportJob API_URL native_text USE_MOCK objectUrl job (f :: formats) st
    = exportJob API_URL native_text USE_MOCK objectUrl job formats st.
Proof.
  intros Hown Hinh. unfold exportJob.
  assert (Hf : filter in_formatToFilename (f :: formats)
               = filter in_formatToFilename formats).
  { simpl. unfold in_formatToFilename at 1. now rewrite Hown, Hinh. }
  now rewrite Hf.
Qed.

(** C7 fails on the code for a format id that names a member of
    [Object.prototype]: [constructor] is unknown to the table, yet the
    [in] test keeps it, and a link is returned instead of the error. *)
Theorem exportJob_keeps_inherited_name (API_URL : string)
    (native_text : string -> string) (objectUrl : nat -> string) :
  formatToFilename "constructor" = None
  /\ exportJob API_URL native_text USE_MOCK objectUrl "j2" ["constructor"]
       Samples.store0
     = Ok [ mkLink "constructor"
              (API_URL ++ "/download/job-20250101-000000/"
                       ++ native_text "constructor") ].
Proof. split; reflexivity. Qed.

End LinkProps.

(* ================================================================== *)
(** ** Reconciliation: [syncJobFromBackend] *)
(* ================================================================== *)

Module ReconcileProps.

Import JobService JSFacts.
Local Open Scope Z_scope.

Ltac merge_cases info local :=
  destruct info as [i n c [[r d e]|] [[[k|]]|] [dir|] [su|]];
  destruct local as [lid lname lcfg lst lcr lsa lfi lup [cr qu fa] ldir lsu];
  unfold mergeInfo, reported_crawled, reported_done, reported_error;
  cbn [info_status info_counts info_jobDir info_startUrl bc_crawled st_done st_error];
  repeat match goal with
         | |- context [truthy ?s] => destruct (truthy s)
         | |- context [truthy_opt ?o] => destruct (truthy_opt o)
         | b : bool |- _ => destruct b
         end.

(** The merge never touches the identity and the creation data of a
    job. *)
Lemma mergeInfo_id (clock : SyncClock) (info : BackendJobInfo) (local : CrawlJob) :
  id (mergeInfo clock info local) = id local.
Proof. merge_cases info local; reflexivity. Qed.

(** With the clock readings held fixed the merge is idempotent. *)
Lemma mergeInfo_same_clock (clock : SyncClock) (info : BackendJobInfo)
    (local : CrawlJob) :
  mergeInfo clock info (mergeInfo clock info local) = mergeInfo clock info local.
Proof. merge_cases info local; reflexivity. Qed.

(** C1, as the specification states it, fails: a second application of
    the same snapshot, one polling interval later, changes the record,
    [finishedAt] included. *)
Lemma mergeInfo_changes_record_again :
  mergeInfo (Samples.clock_at 2200) Samples.snapshot_done
    (mergeInfo (Samples.clock_at 1000) Samples.snapshot_done Samples.job_running)
  <> mergeInfo (Samples.clock_at 1000) Samples.snapshot_done Samples.job_running
  /\ finishedAt (mergeInfo (Samples.clock_at 1000) Samples.snapshot_done
                   Samples.job_running) = Some 1000
  /\ finishedAt (mergeInfo (Samples.clock_at 2200) Samples.snapshot_done
                   (mergeInfo (Samples.clock_at 1000) Samples.snapshot_done
                      Samples.job_running)) = Some 2200
  /\ updatedAt (mergeInfo (Samples.clock_at 2200) Samples.snapshot_done
                  (mergeInfo (Samples.clock_at 1000) Samples.snapshot_done
                     Samples.job_running)) = Some 2200.
Proof.
  split; [|split; [reflexivity | split; reflexivity]].
  intros H. apply (f_equal updatedAt) in H. discriminate H.
Qed.

(** C1, amended: applying the merge of one snapshot a second time
    leaves id, name, config, status, counts, creation and start time,
    working directory and origin URL as the first application left
    them; [updatedAt] is refreshed to the reading of the second
    application; [finishedAt] is untouched when the snapshot reports
    neither completion nor an error; and when both applications read
    the same clock values the record is identical. *)
Theorem mergeInfo_twice (c1 c2 : SyncClock) (info : BackendJobInfo) (local : CrawlJob) :
  let once := mergeInfo c1 info local in
  let twice := mergeInfo c2 info once in
  id twice = id once
  /\ name twice = name once
  /\ config twice = config once
  /\ status twice = status once
  /\ counts twice = counts once
  /\ createdAt twice = createdAt once
  /\ startedAt twice = startedAt once
  /\ jobDir twice = jobDir once
  /\ startUrl twice = startUrl once
  /\ updatedAt twice = Some (t_updated c2)
  /\ (reported_done info || reported_error info = true
      \/ finishedAt twice = finishedAt once)
  /\ mergeInfo c1 info once = once.
Proof.
  cbv zeta.
  repeat match goal with |- _ /\ _ => split end;
    try apply mergeInfo_same_clock;
    merge_cases info local; cbn; auto.
Qed.

Lemma find_update_job (job : string) (f : CrawlJob -> CrawlJob) (js : list CrawlJob)
    (j : CrawlJob) :
  (forall x, id (f x) = id x) ->
  find_job job js = Some j ->
  find_job job (update_job job f js) = Some (f j).
Proof.
  intros Hid. unfold find_job.
  induction js as [|x js IH]; simpl; [discriminate|].
  destruct (id x =? job)%string eqn:Hx; simpl.
  - intros [= <-]. now rewrite Hid, Hx.
  - rewrite Hx. exact IH.
Qed.

(** In the store: the job the second reconciliation finds is the merge
    of the snapshot into the result of the first. *)
Lemma syncJobFromBackend_twice (c1 c2 : SyncClock)
    (res : Net.Response (Body BackendJobInfo)) (info : BackendJobInfo)
    (job : string) (st : Store) (local : CrawlJob) :
  Net.ok res = true -> Net.json res = Ok (Some info) ->
  find_job job (jobs st) = Some local ->
  find_job job (jobs (syncJobFromBackend c2 (Net.Resolved res) job
                        (syncJobFromBackend c1 (Net.Resolved res) job st)))
  = Some (mergeInfo c2 info (mergeInfo c1 info local)).
Proof.
  intros Hok Hjson Hfind.
  unfold syncJobFromBackend, getJobInfo. rewrite Hok, Hjson. simpl.
  rewrite Hfind. simpl.
  rewrite (find_update_job _ _ _ _ (mergeInfo_id c1 info) Hfind). simpl.
  apply find_update_job; [apply mergeInfo_id|].
  now apply find_update_job; [apply mergeInfo_id|].
Qed.

(** C10: when the backend reports a directory name [d] that is not
    empty and holds no [/], the merge stores ["output_crawler/" ++ d]
    as the job's token, and [buildDownloadUrl] on that token gives
    base + ["/download/"] + [d] + ["/"] + file name. *)
Theorem sync_then_download (API_URL : string) (clock : SyncClock)
    (info : BackendJobInfo) (local : CrawlJob) (d fileName : string) :
  info_jobDir info = Some d ->
  d <> ""%string ->
  contains slash d = false ->
  jobDir (mergeInfo clock info local) = Some ("output_crawler/" ++ d)%string
  /\ extractJobFolder (jobDir (mergeInfo clock info local)) = Some d
  /\ buildDownloadUrl API_URL (jobDir (mergeInfo clock info local)) fileName
     = Some (API_URL ++ "/download/" ++ d ++ "/" ++ fileName)%string.
Proof.
  intros Hdir Hne Hno.
  assert (Hstored : jobDir (mergeInfo clock info local)
                    = Some ("output_crawler/" ++ d)%string).
  { apply truthy_true_iff in Hne.
    unfold mergeInfo. rewrite Hdir, Hne.
    destruct (info_startUrl info) as [u|]; [destruct (truthy u)|]; reflexivity. }
  assert (Hfolder : extractJobFolder (Some ("output_crawler/" ++ d)%string) = Some d).
  { exact (LinkProps.extractJobFolder_two "output_crawler" d eq_refl Hno Hne). }
  rewrite Hstored. repeat split; [exact Hfolder|].
  now apply LinkProps.buildDownloadUrl_folder.
Qed.

Lemma sync_then_download_witness :
  jobDir (mergeInfo (Samples.clock_at 1000) Samples.snapshot_done Samples.job_running)
    = Some "output_crawler/job-20251003-101601"%string
  /\ extractJobFolder
       (jobDir (mergeInfo (Samples.clock_at 1000) Samples.snapshot_done
                  Samples.job_running))
     = Some "job-20251003-101601"%string
  /\ buildDownloadUrl Samples.api
       (jobDir (mergeInfo (Samples.clock_at 1000) Samples.snapshot_done
                  Samples.job_running)) "all_results.md"
     = Some "http://127.0.0.1:8000/download/job-20251003-101601/all_results.md"%string.
Proof.
  apply (sync_then_download Samples.api (Samples.clock_at 1000)
           Samples.snapshot_done Samples.job_running
           "job-20251003-101601" "all_results.md");
    [reflexivity | discriminate | reflexivity].
Defined.

End ReconcileProps.

(* ================================================================== *)
(** ** Actions: [performJobAction] *)
(* ================================================================== *)

Module ActionProps.

Import JobService.

(** C4: an action on a stored job whose status is completed, failed or
    canceled returns normally and leaves the whole store as it was:
    status, counts and time stamps of every job, every log entry, every
    ticker; with the mock switched on or off. *)
Theorem performJobAction_terminal (mock : bool) (now : Date) (newId job : string)
    (action : Action) (st : Store) (j : CrawlJob) :
  find_job job (jobs st) = Some j ->
  terminal (status j) = true ->
  performJobAction mock now newId job action st = (Ok tt, st).
Proof.
  intros Hfind Hterm. unfold performJobAction.
  destruct mock; [|reflexivity].
  rewrite Hfind.
  destruct action, (status j); try discriminate Hterm; reflexivity.
Qed.

(** [pause] on the completed job of the sample store, in mock mode. *)
Lemma performJobAction_terminal_witness :
  performJobAction true 5000%Z "fresh" "j2" pause Samples.store0
  = (Ok tt, Samples.store0).
Proof.
  apply (performJobAction_terminal true 5000%Z "fresh" "j2" pause
           Samples.store0 Samples.job_completed);
    reflexivity.
Defined.

End ActionProps.

(* ================================================================== *)
(** ** Creation: [createJob] and the form in front of it *)
(* ================================================================== *)

Module CreateProps.

Import JobService CrawlJobForm JSFacts Predicates.

(** C5: when the submission does not succeed, [createJob] throws and
    the store it leaves is the store it was given. *)
Theorem createJob_failure_leaves_store (now base : Date) (newId : string)
    (ids : nat -> string) (fr : Net.FetchResult (Body BackendAsyncStart))
    (cfg : CrawlConfig) (st : Store) :
  submission_failed fr ->
  exists e, createJob USE_MOCK now base newId ids fr cfg st = (Throw e, st).
Proof.
  unfold submission_failed, createJob, USE_MOCK.
  destruct fr as [e|res]; intros H; [now exists e|].
  destruct (Net.ok res) eqn:Hok; simpl.
  - destruct H as [H|H]; [discriminate|].
    destruct (Net.json res) as [[data|]|e]; try (eexists; reflexivity).
    rewrite (H data eq_refl). simpl. eexists; reflexivity.
  - eexists; reflexivity.
Qed.

Lemma createJob_failure_leaves_store_witness :
  exists e, createJob USE_MOCK 1000%Z 1000%Z "local-1" Samples.no_ids
              Samples.unavailable Samples.cfg_docs Samples.store0
            = (Throw e, Samples.store0).
Proof.
  apply (createJob_failure_leaves_store 1000%Z 1000%Z "local-1" Samples.no_ids
           Samples.unavailable Samples.cfg_docs Samples.store0).
  simpl. left. reflexivity.
Defined.

(** The message the caller sees for the sample failure. *)
Example createJob_unavailable_message :
  fst (createJob USE_MOCK 1000%Z 1000%Z "local-1" Samples.no_ids
         Samples.unavailable Samples.cfg_docs Samples.store0)
  = Throw (Error "Backend error (503): waking up").
Proof. reflexivity. Qed.

(** Conversely a job is stored only for an accepted submission. *)
Lemma createJob_success (now base : Date) (newId : string) (ids : nat -> string)
    (fr : Net.FetchResult (Body BackendAsyncStart)) (cfg : CrawlConfig)
    (st st' : Store) (job : CrawlJob) :
  createJob USE_MOCK now base newId ids fr cfg st = (Ok job, st') ->
  st' = mkStore (job :: jobs st) (logs st) (intervals st)
  /\ status job = running /\ counts job = mkCounts 0 0 0
  /\ createdAt job = now /\ startedAt job = Some now /\ config job = cfg.
Proof.
  unfold createJob, USE_MOCK.
  destruct fr as [e|res]; [discriminate|].
  destruct (Net.ok res); simpl; [|discriminate].
  destruct (Net.json res) as [[data|]|e]; try discriminate.
  destruct (truthy_opt (job_id data)); simpl; [|discriminate].
  intros [= <- <-]. repeat split.
Qed.

(** C6, as the specification states it, fails: [createJob] does not
    look at the start URLs; with an empty list and an accepting
    backend it returns normally and stores a job. *)
Lemma createJob_accepts_empty_startUrls :
  startUrls Samples.cfg_no_urls = []
  /\ exists job,
       createJob USE_MOCK 1000%Z 1000%Z "local-1" Samples.no_ids
         (Samples.started "srv-1") Samples.cfg_no_urls Samples.empty_store
       = (Ok job, mkStore [job] [] [])
       /\ id job = "srv-1".
Proof. split; [reflexivity|]. eexists. split; reflexivity. Qed.

(** C6, amended: the validation is the form's.  For a config whose
    start-URL list is empty or holds only blank URLs, [handleSubmit]
    does nothing but show one alert: no request is sent and [onSubmit]
    is not called, so [createJob] does not run and the store of the
    service is unchanged. *)
Theorem handleSubmit_rejects_blank_startUrls (BASE_URL : string)
    (JSON_parse : string -> option CrawlResponse) (net : nat -> Api.Attempt)
    (env : App.CreateEnv) (cfg : CrawlConfig) (st : Store) :
  Forall blank (startUrls cfg) ->
  (exists msg, handleSubmit BASE_URL JSON_parse net cfg = [Alert msg])
  /\ Forall is_alert (handleSubmit BASE_URL JSON_parse net cfg)
  /\ App.submit BASE_URL JSON_parse net env cfg st = st.
Proof.
  intros Hblank.
  assert (H : exists msg, handleSubmit BASE_URL JSON_parse net cfg = [Alert msg]).
  { unfold handleSubmit.
    destruct (negb (truthy (trim (cfg_name cfg)))); [eexists; reflexivity|].
    destruct (startUrls cfg) as [|u us]; simpl; [eexists; reflexivity|].
    inversion Hblank as [|? ? Hu _]; subst.
    rewrite (trim_all_white u Hu). simpl. eexists; reflexivity. }
  destruct H as [msg Hmsg]. unfold App.submit. rewrite Hmsg.
  split; [now exists msg|]. split; [|reflexivity].
  constructor; [exact I|constructor].
Qed.

Lemma handleSubmit_rejects_blank_startUrls_witness :
  (exists msg, handleSubmit Samples.api Samples.parse_any Samples.cold_start
                 Samples.cfg_blank_urls = [Alert msg])
  /\ Forall is_alert (handleSubmit Samples.api Samples.parse_any Samples.cold_start
                        Samples.cfg_blank_urls)
  /\ App.submit Samples.api Samples.parse_any Samples.cold_start
       Samples.env_started Samples.cfg_blank_urls Samples.store0
     = Samples.store0.
Proof.
  apply (handleSubmit_rejects_blank_startUrls Samples.api Samples.parse_any
           Samples.cold_start Samples.env_started Samples.cfg_blank_urls
           Samples.store0).
  repeat constructor.
Defined.

(** The alert shown for an empty list of start URLs. *)
Example handleSubmit_no_urls :
  handleSubmit Samples.api Samples.parse_any Samples.cold_start Samples.cfg_no_urls
  = [Alert "Please provide at least one start URL"].
Proof. reflexivity. Qed.

(** A valid config goes through: the request is retried after the cold
    start, [onSubmit] is called and the job is stored. *)
Example submit_valid_config :
  jobs (App.submit Samples.api Samples.parse_any Samples.cold_start
          Samples.env_started Samples.cfg_docs Samples.empty_store)
  = [mkJob "srv-1" "docs" Samples.cfg_docs running 1000%Z (Some 1000%Z)
           None None (mkCounts 0 0 0) None None].
Proof. reflexivity. Qed.

End CreateProps.

(* ================================================================== *)
(** ** Transport: [postJSON] *)
(* ================================================================== *)

Module TransportProps.

Import Api JSFacts.
Local Open Scope Z_scope.

(** The text of the error raised for an answer that is not 2xx. *)
Lemma try_once_http_error (JSON : Type) (parse : string -> option JSON) (ms : Z)
    (resp : Net.Response unit) (txt : string) :
  Net.text resp = Ok txt -> Net.ok resp = false ->
  try_once JSON parse ms (Answered resp)
  = Throw (Error ("HTTP " ++ number_to_string (Net.status resp) ++ " "
                  ++ Net.statusText resp ++ " – "
                  ++ (if truthy txt then txt else "(empty)"))).
Proof. intros Ht Hok. unfold try_once. rewrite Ht. simpl. now rewrite Hok. Qed.

(** A 2xx answer gives the parsed body, [undefined] when the text is
    empty or is not JSON. *)
Lemma try_once_success (JSON : Type) (parse : string -> option JSON) (ms : Z)
    (resp : Net.Response unit) (txt : string) :
  Net.text resp = Ok txt -> Net.ok resp = true ->
  try_once JSON parse ms (Answered resp)
  = Ok (if truthy txt then parse txt else None).
Proof. intros Ht Hok. unfold try_once. rewrite Ht. simpl. now rewrite Hok. Qed.

(** The loop never sends more requests than it has iterations left. *)
Lemma attempts_fetches (JSON : Type) (parse : string -> option JSON) (B : Type)
    (net : nat -> Attempt) (url : string) (body : B) (remaining : nat) :
  forall (attempt : nat) (lastErr : option JsError),
    (length (fetches B (fst (attempts JSON parse B net url body attempt remaining lastErr)))
     <= remaining)%nat.
Proof.
  induction remaining as [|k IH]; intros attempt lastErr; simpl; [lia|].
  destruct (try_once JSON parse (timeout_of attempt) (net attempt)); simpl; [lia|].
  specialize (IH (S attempt) (Some e)).
  destruct (attempts JSON parse B net url body (S attempt) k (Some e)) as [evs r].
  simpl in *. lia.
Qed.

(** C8: with a base URL configured, [postJSON] sends at most two
    requests.  If the first attempt succeeds its parsed body is returned
    at once.  If it fails (time-out, network error, answer that is not
    2xx) the code waits 1500 ms and sends exactly one more request: its
    parsed body is returned if it succeeds, and otherwise the error of
    that second attempt is thrown unchanged, which for an answer that is
    not 2xx carries the status, the status text and the body. *)
Theorem postJSON_retries_once (BASE_URL : string) (JSON : Type)
    (parse : string -> option JSON) (B : Type) (net : nat -> Attempt)
    (path : string) (body : B) :
  BASE_URL <> ""%string ->
  let u := url_of BASE_URL path in
  let first := try_once JSON parse 65000 (net 1%nat) in
  let second := try_once JSON parse 90000 (net 2%nat) in
  let run := postJSON BASE_URL JSON parse B net path body in
  (length (fetches B (fst run)) <= 2)%nat
  /\ (forall d, first = Ok d -> run = ([Fetch u body 65000], Ok d))
  /\ (forall e1 d, first = Throw e1 -> second = Ok d ->
        run = ([Fetch u body 65000; Wait 1500; Fetch u body 90000], Ok d))
  /\ (forall e1 e2, first = Throw e1 -> second = Throw e2 ->
        run = ([Fetch u body 65000; Wait 1500; Fetch u body 90000; Wait 1500],
               Throw e2))
  /\ (forall ms, try_once JSON parse ms NoAnswer
                 = Throw (Error ("Timeout after " ++ number_to_string ms ++ "ms")))
  /\ (forall ms e, try_once JSON parse ms (Failed e) = Throw e)
  /\ (forall ms resp txt, Net.text resp = Ok txt -> Net.ok resp = false ->
        try_once JSON parse ms (Answered resp)
        = Throw (Error ("HTTP " ++ number_to_string (Net.status resp) ++ " "
                        ++ Net.statusText resp ++ " – "
                        ++ (if truthy txt then txt else "(empty)"))))
  /\ (forall ms resp txt, Net.text resp = Ok txt -> Net.ok resp = true ->
        try_once JSON parse ms (Answered resp)
        = Ok (if truthy txt then parse txt else None)).
Proof.
  intros Hbase. apply truthy_true_iff in Hbase. cbv zeta.
  unfold postJSON. rewrite Hbase. simpl negb. cbv iota.
  split; [apply attempts_fetches|].
  split; [intros d H1; simpl; change (timeout_of 1) with 65000; now rewrite H1|].
  split.
  { intros e1 d H1 H2. simpl.
    change (timeout_of 1) with 65000. change (timeout_of 2) with 90000.
    now rewrite H1, H2. }
  split.
  { intros e1 e2 H1 H2. simpl.
    change (timeout_of 1) with 65000. change (timeout_of 2) with 90000.
    now rewrite H1, H2. }
  split; [reflexivity|]. split; [reflexivity|].
  split; [apply try_once_http_error | apply try_once_success].
Qed.

(** The cold start of the samples: a time-out, then an answer. *)
Lemma postJSON_retries_once_witness :
  postJSON Samples.api unit (fun _ => Some tt) unit Samples.cold_start "/crawl" tt
  = ([ Fetch "http://127.0.0.1:8000/crawl"%string tt 65000; Wait 1500;
       Fetch "http://127.0.0.1:8000/crawl"%string tt 90000 ],
     Ok (Some tt)).
Proof.
  refine (proj1 (proj2 (proj2
    (postJSON_retries_once Samples.api unit (fun _ => Some tt) unit
       Samples.cold_start "/crawl" tt _)))
    (Error "Timeout after 65000ms") (Some tt) _ _).
  - discriminate.
  - reflexivity.
  - reflexivity.
Defined.

(** Two failures: the error thrown is the one of the second attempt. *)
Example postJSON_two_failures :
  snd (postJSON Samples.api unit (fun _ => Some tt) unit
         (fun k => if (k =? 1)%nat then NoAnswer
                   else Answered (Samples.response false 502 "Bad Gateway" "" (Ok tt)))
         "crawl" tt)
  = Throw (Error "HTTP 502 Bad Gateway – (empty)").
Proof. reflexivity. Qed.

(** Without a base URL nothing is sent. *)
Example postJSON_unconfigured :
  postJSON "" unit (fun _ => Some tt) unit Samples.cold_start "/crawl" tt
  = ([], Throw (Error "VITE_API_URL is not set")).
Proof. reflexivity. Qed.

End TransportProps.

(* ================================================================== *)
(** ** Logs: [getJobLogs] *)
(* ================================================================== *)

Module LogProps.

Import JobService.

(** Every fetched entry belongs to the job it was fetched for. *)
Lemma mapped_jobId (job : string) (lines : list BackendLogLine) :
  forall start, Forall (fun e => jobId e = job) (map_index (log_of_line job) start lines).
Proof.
  induction lines as [|l lines IH]; intros start; simpl; constructor.
  - reflexivity.
  - apply IH.
Qed.

Lemma filter_all {A} (p : A -> bool) (xs : list A) :
  Forall (fun x => p x = true) xs -> filter p xs = xs.
Proof.
  induction 1 as [|x xs Hx _ IH]; simpl; [reflexivity|]. now rewrite Hx, IH.
Qed.

Lemma filter_none {A} (p : A -> bool) (xs : list A) :
  Forall (fun x => p x = false) xs -> filter p xs = [].
Proof.
  induction 1 as [|x xs Hx _ IH]; simpl; [reflexivity|]. now rewrite Hx, IH.
Qed.

Lemma filter_twice {A} (p q : A -> bool) (xs : list A) :
  (forall x, q x = true -> p x = true) ->
  filter q (filter p xs) = filter q xs.
Proof.
  intros Hpq. induction xs as [|x xs IH]; simpl; [reflexivity|].
  destruct (p x) eqn:Hp; simpl.
  - now rewrite IH.
  - destruct (q x) eqn:Hq; [|exact IH].
    apply Hpq in Hq. congruence.
Qed.

(** The entry at a position, and so its identifier, is a function of
    the job id, the position and the line. *)
Lemma nth_map_index {A B} (f : nat -> A -> B) (xs : list A) :
  forall start idx,
    nth_error (map_index f start xs) idx = option_map (f (start + idx)%nat) (nth_error xs idx).
Proof.
  induction xs as [|x xs IH]; intros start [|idx]; simpl; try reflexivity.
  - now rewrite Nat.add_0_r.
  - rewrite IH. now rewrite Nat.add_succ_r.
Qed.

(** C9: a successful fetch of the lines of a job replaces the cached
    entries of that job by the fetched ones and keeps the entries of
    every other job; the entry at position [idx] gets the identifier
    [job-idx-ts]; and fetching the same lines again leaves the same
    store and returns the same entries, identifiers included. *)
Theorem getJobLogs_replaces (res : Net.Response (Body BackendJobLogs))
    (data : BackendJobLogs) (lines : list BackendLogLine) (job : string) (st : Store) :
  Net.ok res = true ->
  Net.json res = Ok (Some data) ->
  log_lines data = Some lines ->
  let fresh := map_index (log_of_line job) 0 lines in
  let st' := snd (getJobLogs (Net.Resolved res) job st) in
  logs st' = (filter (other_job job) (logs st) ++ fresh)%list
  /\ filter (fun x => jobId x =? job) (logs st') = fresh
  /\ (forall other, other <> job ->
        filter (fun x => jobId x =? other) (logs st')
        = filter (fun x => jobId x =? other) (logs st))
  /\ jobs st' = jobs st
  /\ (forall idx l, nth_error lines idx = Some l ->
        option_map log_id (nth_error fresh idx)
        = Some (job ++ "-" ++ number_to_string (Z.of_nat idx) ++ "-"
                    ++ number_to_string (ts l)))
  /\ getJobLogs (Net.Resolved res) job st'
     = (fst (getJobLogs (Net.Resolved res) job st), st').
Proof.
  intros Hok Hjson Hlines. cbv zeta.
  unfold getJobLogs. rewrite Hok, Hjson, Hlines. cbn [negb fst snd logs jobs intervals].
  set (fresh := map_index (log_of_line job) 0 lines).
  assert (Hmine : Forall (fun e => (jobId e =? job) = true) fresh).
  { eapply Forall_impl; [|apply mapped_jobId].
    intros e He. simpl in He. rewrite He. apply String.eqb_refl. }
  assert (Hnot : Forall (fun e => other_job job e = false) fresh).
  { eapply Forall_impl; [|exact Hmine].
    intros e He. simpl in He. unfold other_job. now rewrite He. }
  split; [reflexivity|].
  split.
  { rewrite filter_app, (filter_all _ _ Hmine).
    rewrite (filter_none (fun x => jobId x =? job)); [reflexivity|].
    apply Forall_forall. intros x Hx. apply filter_In in Hx as [_ Hx].
    unfold other_job in Hx. now apply negb_true_iff in Hx. }
  split.
  { intros other Hother. rewrite filter_app.
    rewrite (filter_none _ fresh).
    - rewrite app_nil_r. apply filter_twice.
      intros x Hx. apply String.eqb_eq in Hx. unfold other_job.
      apply negb_true_iff. apply String.eqb_neq. congruence.
    - eapply Forall_impl; [|exact Hmine].
      intros e He. simpl in He. apply String.eqb_eq in He.
      apply String.eqb_neq. congruence. }
  split; [reflexivity|].
  split.
  { intros idx l Hl. unfold fresh. rewrite nth_map_index, Hl. reflexivity. }
  f_equal. f_equal.
  rewrite filter_app, (filter_none _ _ Hnot), app_nil_r.
  f_equal. apply filter_twice. auto.
Qed.

Lemma getJobLogs_replaces_witness :
  logs (snd (getJobLogs (Net.Resolved Samples.logs_answer) "j1" Samples.store0))
  = [ Samples.log_j2;
      mkLog "j1-0-20" "j1" "info" "second" 20000%Z None;
      mkLog "j1-1-10" "j1" "info" "first" 10000%Z None ].
Proof.
  exact (proj1 (getJobLogs_replaces Samples.logs_answer
                  (mkJobLogs (Some Samples.two_lines)) Samples.two_lines
                  "j1" Samples.store0 eq_refl eq_refl eq_refl)).
Defined.

(** What the caller gets is sorted by time. *)
Example getJobLogs_sorted :
  map log_id (fst (getJobLogs (Net.Resolved Samples.logs_answer) "j1" Samples.store0))
  = ["j1-1-10"; "j1-0-20"].
Proof. reflexivity. Qed.

(** A failed fetch leaves the cache alone. *)
Lemma getJobLogs_failure (e : JsError) (job : string) (st : Store) :
  getJobLogs (Net.Rejected e) job st = ([], st).
Proof. reflexivity. Qed.

End LogProps.

(* ================================================================== *)
(** ** Read operations: [getJobs], [getJob], [getJobPages], [clearAll] *)
(* ================================================================== *)

Module QueryProps.

Import JobService Queries JSFacts.
Local Open Scope Z_scope.

Lemma insert_newest_perm (x : CrawlJob) (l : list CrawlJob) :
  Permutation (insert_newest x l) (x :: l).
Proof.
  induction l as [|y l IH]; simpl; [apply Permutation_refl|].
  destruct (createdAt y <=? createdAt x); [apply Permutation_refl|].
  eapply perm_trans; [apply perm_skip, IH | apply perm_swap].
Qed.

Lemma insert_newest_sorted (x : CrawlJob) (l : list CrawlJob) :
  StronglySorted newer_or_same l -> StronglySorted newer_or_same (insert_newest x l).
Proof.
  induction 1 as [|y l Hl IH Hy]; simpl.
  - constructor; constructor.
  - destruct (createdAt y <=? createdAt x) eqn:Hxy.
    + apply Z.leb_le in Hxy. constructor; [constructor; assumption|].
      constructor; [exact Hxy|].
      eapply Forall_impl; [|exact Hy].
      unfold newer_or_same. intros z Hz. lia.
    + apply Z.leb_gt in Hxy. constructor; [exact IH|].
      eapply Permutation_Forall;
        [apply Permutation_sym, insert_newest_perm|].
      constructor; [unfold newer_or_same; lia | exact Hy].
Qed.

Lemma getJobs_perm (st : Store) : Permutation (getJobs st) (jobs st).
Proof.
  unfold getJobs. induction (jobs st) as [|j js IH]; simpl; [constructor|].
  eapply perm_trans; [apply insert_newest_perm | now apply perm_skip].
Qed.

(** X1: [getJobs] lists every stored job exactly once, newest first. *)
Theorem getJobs_newest_first (st : Store) :
  Permutation (getJobs st) (jobs st)
  /\ StronglySorted newer_or_same (getJobs st).
Proof.
  split; [apply getJobs_perm|].
  unfold getJobs. induction (jobs st) as [|j js IH]; simpl; [constructor|].
  now apply insert_newest_sorted.
Qed.

Lemma find_job_id (job : string) (js : list CrawlJob) (j : CrawlJob) :
  find_job job js = Some j -> id j = job.
Proof.
  unfold find_job. intros H. apply find_some in H as [_ H].
  now apply String.eqb_eq.
Qed.

(** X2: The job [createJob] returns is the one [getJob] finds under its id
    afterwards, whatever was stored before; the other ids resolve as
    before, the list grows by one, and no log entry is written. *)
Theorem createJob_then_getJob (now base : Date) (newId : string) (ids : nat -> string)
    (fr : Net.FetchResult (Body BackendAsyncStart)) (cfg : CrawlConfig)
    (st st' : Store) (job : CrawlJob) :
  createJob USE_MOCK now base newId ids fr cfg st = (Ok job, st') ->
  getJob (id job) st' = Some job
  /\ (forall other, other <> id job -> getJob other st' = getJob other st)
  /\ length (jobs st') = S (length (jobs st))
  /\ logs st' = logs st
  /\ In job (getJobs st').
Proof.
  intros H. apply CreateProps.createJob_success in H as (-> & _).
  unfold getJob, find_job. simpl. rewrite String.eqb_refl.
  repeat split.
  - intros other Hother.
    destruct (id job =? other)%string eqn:E; [|reflexivity].
    apply String.eqb_eq in E. congruence.
  - eapply Permutation_in;
      [apply Permutation_sym, getJobs_perm|].
    now left.
Qed.

Lemma createJob_then_getJob_witness :
  exists job,
    getJob "srv-1" (snd (createJob USE_MOCK 1000 1000 "local-1" Samples.no_ids
                           (Samples.started "srv-1") Samples.cfg_docs Samples.store0))
    = Some job /\ status job = running.
Proof.
  eexists. split.
  - exact (proj1 (createJob_then_getJob 1000 1000 "local-1" Samples.no_ids
                    (Samples.started "srv-1") Samples.cfg_docs Samples.store0
                    _ _ eq_refl)).
  - reflexivity.
Defined.

Lemma mergeInfo_crawled (clock : SyncClock) (info : BackendJobInfo) (local : CrawlJob) :
  crawled (counts (mergeInfo clock info local))
  = match reported_crawled info with
    | Some n => n
    | None => crawled (counts local)
    end.
Proof. ReconcileProps.merge_cases info local; reflexivity. Qed.

(** X3: After a reconciliation that reports [n] crawled pages for a stored
    job, [getJobPages] lists [n] pages (none when [n] is negative), the
    [i]-th with the URL [base/page-(i+1)]. *)
Theorem pages_follow_sync (ids : nat -> string) (nows : nat -> Date)
    (clock : SyncClock) (res : Net.Response (Body BackendJobInfo))
    (info : BackendJobInfo) (job : string) (st : Store) (local : CrawlJob) (n : Z) :
  Net.ok res = true -> Net.json res = Ok (Some info) ->
  reported_crawled info = Some n ->
  find_job job (jobs st) = Some local ->
  let st' := syncJobFromBackend clock (Net.Resolved res) job st in
  length (getJobPages ids nows job st') = Z.to_nat n
  /\ forall i, (i < Z.to_nat n)%nat ->
       option_map page_url (nth_error (getJobPages ids nows job st') i)
       = Some (page_base (mergeInfo clock info local) ++ "/page-"
                 ++ number_to_string (Z.of_nat i + 1))%string.
Proof.
  intros Hok Hjson Hn Hfind. cbv zeta.
  unfold syncJobFromBackend, getJobInfo. rewrite Hok, Hjson. simpl. rewrite Hfind.
  unfold getJobPages, set_job. simpl.
  rewrite (ReconcileProps.find_update_job _ _ _ _
             (ReconcileProps.mergeInfo_id clock info) Hfind).
  rewrite mergeInfo_crawled, Hn. split.
  - now rewrite length_map, length_seq.
  - intros i Hi. rewrite nth_error_map, nth_error_seq.
    apply Nat.ltb_lt in Hi. rewrite Hi. reflexivity.
Qed.

Lemma pages_follow_sync_witness :
  length (getJobPages Samples.no_ids (fun _ => 0) "j1"
            (syncJobFromBackend (Samples.clock_at 1000)
               (Net.Resolved (Samples.response true 200 "OK" ""
                                (Ok (Some Samples.snapshot_done))))
               "j1" Samples.store0))
  = 12%nat.
Proof.
  exact (proj1 (pages_follow_sync Samples.no_ids (fun _ => 0)
                  (Samples.clock_at 1000)
                  (Samples.response true 200 "OK" "" (Ok (Some Samples.snapshot_done)))
                  Samples.snapshot_done "j1" Samples.store0 Samples.job_running 12
                  eq_refl eq_refl eq_refl eq_refl)).
Defined.

(** After [clearAll] the service knows no job: the list is empty, no id
    resolves, no pages are listed, an export throws [Job not found] and
    a reconciliation changes nothing. *)
Theorem clearAll_forgets (API_URL : string) (native_text : string -> string)
    (objectUrl ids : nat -> string) (nows : nat -> Date) (clock : SyncClock)
    (fr : Net.FetchResult (Body BackendJobInfo)) (env : Simulation.TickEnv)
    (job : string) (formats : list string) (st : Store) :
  getJobs (clearAll st) = []
  /\ getJob job (clearAll st) = None
  /\ getJobPages ids nows job (clearAll st) = []
  /\ exportJob API_URL native_text USE_MOCK objectUrl job formats (clearAll st)
     = Throw (Error "Job not found")
  /\ syncJobFromBackend clock fr job (clearAll st) = clearAll st
  /\ Simulation.tick env job (clearAll st)
     = mkStore [] [] (Simulation.clear_interval job (intervals st)).
Proof.
  repeat split.
  unfold syncJobFromBackend. destruct (getJobInfo fr); reflexivity.
Qed.

End QueryProps.

(* ================================================================== *)
(** ** The simulation: one tick and a run of ticks *)
(* ================================================================== *)

Module SimulationProps.

Import JobService Simulation.
Local Open Scope Z_scope.

Lemma pages_of_pos (r : Roll) : 1 <= pages_of r <= 3.
Proof. destruct r; simpl; lia. Qed.

(** X6: A tick for a job that is missing or not running changes neither a
    job nor a log entry; it only stops its own ticker. *)
Theorem tick_idle (env : TickEnv) (job : string) (st : Store) :
  (forall j, find_job job (jobs st) = Some j -> status j <> running) ->
  tick env job st = mkStore (jobs st) (logs st) (clear_interval job (intervals st)).
Proof.
  intros H. unfold tick.
  destruct (find_job job (jobs st)) as [j|]; [|reflexivity].
  specialize (H j eq_refl).
  destruct (status j); try reflexivity. now elim H.
Qed.

Lemma tick_idle_witness :
  tick (mkTick three true "a" "b" 1 2 3 4) "j2"
    (mkStore (jobs Samples.store0) (logs Samples.store0) ["j1"; "j2"; "j2"])
  = mkStore (jobs Samples.store0) (logs Samples.store0) ["j1"; "j2"].
Proof.
  apply (tick_idle (mkTick three true "a" "b" 1 2 3 4) "j2"
           (mkStore (jobs Samples.store0) (logs Samples.store0) ["j1"; "j2"; "j2"])).
  intros j [= <-]. discriminate.
Defined.

Ltac open_tick env j :=
  unfold tick_job, crawl_some, complete, below_total, reached_total, increment,
    total_of;
  destruct j as [jid jname jcfg jst jcr jsa jfi jup [cr qu fa] jdir jsu];
  cbn [counts crawled cnt_queued cnt_failed config status finishedAt id];
  pose proof (pages_of_pos (roll env)).

Ltac tick_fields :=
  cbn [fst snd counts crawled cnt_queued cnt_failed config status finishedAt id
       set_updatedAt with_counts finish JS.Math_min JS.Math_max JS.minus].

(** The arithmetic of one tick, shared by the statements below. *)
Lemma tick_job_facts (env : TickEnv) (j : CrawlJob) :
  let j' := fst (tick_job env j) in
  id j' = id j /\ config j' = config j
  /\ crawled (counts j) <= crawled (counts j')
  /\ cnt_failed (counts j) <= cnt_failed (counts j') <= cnt_failed (counts j) + 1
  /\ match total_of j with
     | NaN => j' = j
     | Num total =>
         crawled (counts j') <= Z.max (crawled (counts j)) total
         /\ (crawled (counts j) < total ->
               crawled (counts j) < crawled (counts j')
               /\ forall q, cnt_queued (counts j') = Num q -> 0 <= q)
         /\ ((status j' = completed /\ finishedAt j' = Some (t_finished env)
              /\ cnt_queued (counts j') = Num 0
              /\ total <= crawled (counts j') + cnt_failed (counts j'))
             \/ (status j' = status j /\ finishedAt j' = finishedAt j
                 /\ crawled (counts j') + cnt_failed (counts j') < total))
     end.
Proof.
  cbv zeta. open_tick env j.
  destruct (maxPages jcfg) as [m|] eqn:Hm; tick_fields; rewrite ?Hm; tick_fields.
  2:{ repeat split; lia. }
  destruct (cr <? Z.min m 50) eqn:Hlt;
    [apply Z.ltb_lt in Hlt | apply Z.ltb_ge in Hlt]; tick_fields.
  - rewrite ?Hm; tick_fields.
    destruct (page_fails env);
      match goal with
      | |- context [(?a <=? ?b)] => destruct (a <=? b) eqn:Hdone
      end;
      [apply Z.leb_le in Hdone | apply Z.leb_gt in Hdone
      |apply Z.leb_le in Hdone | apply Z.leb_gt in Hdone];
      tick_fields;
      repeat match goal with |- _ /\ _ => split end;
      try lia; try reflexivity;
      try (intros _; split; [lia|]; intros q E;
           first [discriminate E
                 |injection E as <-; lia
                 |destruct qu as [q0|]; cbn in E;
                  [injection E as <-; lia | discriminate E]]);
      try (left; repeat split; lia);
      try (right; repeat split; lia).
  - rewrite ?Hm; tick_fields.
    match goal with
    | |- context [(?a <=? ?b)] => destruct (a <=? b) eqn:Hdone
    end;
      [apply Z.leb_le in Hdone | apply Z.leb_gt in Hdone];
      tick_fields;
      repeat match goal with |- _ /\ _ => split end;
      try lia; try reflexivity;
      try (intros Hc; exfalso; lia);
      try (left; repeat split; lia);
      try (right; repeat split; lia).
Qed.

(** X7: what one tick does to the job.  The crawled and failed counts
    never go down and failed grows by at most one.  When [maxPages] is
    [NaN] the tick changes nothing.  Otherwise, with the total
    [min(maxPages, 50)]: crawled grows by at least one page while it is
    below the total and never passes it, the queue does not become a
    negative number, and the job either stays as it was in status and
    finish time, below the total, or is completed with a finish time and
    an empty queue. *)
Theorem tick_job_progress (env : TickEnv) (j : CrawlJob) :
  let j' := fst (tick_job env j) in
  id j' = id j /\ config j' = config j
  /\ crawled (counts j) <= crawled (counts j')
  /\ cnt_failed (counts j) <= cnt_failed (counts j') <= cnt_failed (counts j) + 1
  /\ match total_of j with
     | NaN => j' = j
     | Num total =>
         crawled (counts j') <= Z.max (crawled (counts j)) total
         /\ (crawled (counts j) < total ->
               crawled (counts j) < crawled (counts j')
               /\ forall q, cnt_queued (counts j') = Num q -> 0 <= q)
         /\ ((status j' = completed /\ finishedAt j' = Some (t_finished env)
              /\ cnt_queued (counts j') = Num 0
              /\ total <= crawled (counts j') + cnt_failed (counts j'))
             \/ (status j' = status j /\ finishedAt j' = finishedAt j
                 /\ crawled (counts j') + cnt_failed (counts j') < total))
     end.
Proof. exact (tick_job_facts env j). Qed.

End SimulationProps.

(* ================================================================== *)
(** ** Facts about updating a job in the list *)
(* ================================================================== *)

Module StoreFacts.

Import JobService.

Lemma find_update_job_at (job : string) (f : CrawlJob -> CrawlJob)
    (js : list CrawlJob) (j : CrawlJob) :
  find_job job js = Some j -> id (f j) = job ->
  find_job job (update_job job f js) = Some (f j).
Proof.
  unfold find_job. induction js as [|x js IH]; simpl; [discriminate|].
  destruct (id x =? job) eqn:Hx; simpl.
  - intros [= <-] Hid. apply String.eqb_eq in Hid. now rewrite Hid.
  - intros H Hid. rewrite Hx. now apply IH.
Qed.

Lemma find_update_job_other (job other : string) (f : CrawlJob -> CrawlJob)
    (js : list CrawlJob) :
  (forall x, id x = job -> id (f x) = job) -> other <> job ->
  find_job other (update_job job f js) = find_job other js.
Proof.
  intros Hf Hother. unfold find_job.
  induction js as [|x js IH]; simpl; [reflexivity|].
  destruct (id x =? job) eqn:Hx; simpl.
  - apply String.eqb_eq in Hx. rewrite (Hf x Hx), Hx.
    apply String.eqb_neq in Hother. rewrite String.eqb_sym in Hother.
    now rewrite Hother.
  - now rewrite IH.
Qed.

Lemma length_update_job (job : string) (f : CrawlJob -> CrawlJob) (js : list CrawlJob) :
  length (update_job job f js) = length js.
Proof.
  induction js as [|x js IH]; simpl; [reflexivity|].
  destruct (id x =? job); simpl; [reflexivity | now rewrite IH].
Qed.

(** A property of jobs that the update keeps on the job it touches is
    kept on the whole list. *)
Lemma Forall_update_job (P : CrawlJob -> Prop) (job : string)
    (f : CrawlJob -> CrawlJob) (js : list CrawlJob) :
  (forall x, In x js -> id x = job -> P x -> P (f x)) ->
  Forall P js -> Forall P (update_job job f js).
Proof.
  induction js as [|x js IH]; simpl; intros Hf Hall; [constructor|].
  inversion Hall as [|? ? Hx Hrest]; subst.
  destruct (id x =? job) eqn:E.
  - constructor; [|exact Hrest].
    apply Hf; [now left | now apply String.eqb_eq | exact Hx].
  - constructor; [exact Hx|]. apply IH; [|exact Hrest].
    intros y Hy. apply Hf. now right.
Qed.

Lemma find_job_In (job : string) (js : list CrawlJob) (j : CrawlJob) :
  find_job job js = Some j -> In j js /\ id j = job.
Proof.
  unfold find_job. intros H. apply find_some in H as [Hin H].
  split; [exact Hin | now apply String.eqb_eq].
Qed.

End StoreFacts.

(* ================================================================== *)
(** ** The simulation in the store, and its end *)
(* ================================================================== *)

Module SimulationRun.

Import JobService Simulation StoreFacts.
Local Open Scope Z_scope.

Lemma tick_job_id (env : TickEnv) (j : CrawlJob) : id (fst (tick_job env j)) = id j.
Proof.
  unfold tick_job, crawl_some, complete.
  destruct (below_total j);
    match goal with |- context [reached_total ?x] => destruct (reached_total x) end;
    reflexivity.
Qed.

Lemma tick_job_logs (env : TickEnv) (j : CrawlJob) :
  Forall (fun e => jobId e = id j) (snd (tick_job env j)).
Proof.
  unfold tick_job, crawl_some, complete.
  destruct (below_total j);
    match goal with |- context [reached_total ?x] => destruct (reached_total x) end;
    simpl; repeat constructor.
Qed.

(** X8: A tick for a running job touches that job only: the job found under
    the id afterwards is the result of the tick, every other id resolves
    as before, the list keeps its length, and the entries appended to
    the log (at most two) all belong to the job. *)
Theorem tick_running (env : TickEnv) (job : string) (st : Store) (current : CrawlJob) :
  find_job job (jobs st) = Some current ->
  status current = running ->
  let st' := tick env job st in
  find_job job (jobs st') = Some (fst (tick_job env current))
  /\ (forall other, other <> job -> find_job other (jobs st') = find_job other (jobs st))
  /\ length (jobs st') = length (jobs st)
  /\ logs st' = (logs st ++ snd (tick_job env current))%list
  /\ Forall (fun e => jobId e = job) (snd (tick_job env current))
  /\ (length (snd (tick_job env current)) <= 2)%nat.
Proof.
  intros Hfind Hrun. cbv zeta. unfold tick. rewrite Hfind, Hrun. simpl.
  destruct (find_job_In _ _ _ Hfind) as [_ Hid].
  pose proof (tick_job_id env current) as Hid'.
  pose proof (tick_job_logs env current) as Hlogs.
  destruct (tick_job env current) as [j' pushed] eqn:Htick. simpl in *.
  repeat split.
  - assert (Hj : id j' = job) by congruence.
    exact (find_update_job_at job (fun _ => j') (jobs st) current Hfind Hj).
  - intros other Hother. apply find_update_job_other; [|exact Hother].
    intros _ _. congruence.
  - apply length_update_job.
  - now rewrite Hid in Hlogs.
  - revert Htick. unfold tick_job, crawl_some, complete.
    destruct (below_total current);
      match goal with |- context [reached_total ?x] => destruct (reached_total x) end;
      intros [= _ <-]; simpl; lia.
Qed.

Lemma tick_running_witness :
  find_job "j1" (jobs (tick (mkTick two false "a" "b" 1 2 3 4) "j1" Samples.store0))
  = Some (fst (tick_job (mkTick two false "a" "b" 1 2 3 4) Samples.job_running)).
Proof.
  exact (proj1 (tick_running (mkTick two false "a" "b" 1 2 3 4) "j1" Samples.store0
                  Samples.job_running eq_refl eq_refl)).
Defined.

Lemma run_ticks_stopped (envs : list TickEnv) (j : CrawlJob) :
  status j <> running -> run_ticks envs j = j.
Proof.
  intros H. destruct envs as [|env rest]; [reflexivity|]. simpl.
  destruct (status j); try reflexivity. now elim H.
Qed.

Lemma run_ticks_nan (envs : list TickEnv) :
  forall (j : CrawlJob), total_of j = NaN -> run_ticks envs j = j.
Proof.
  induction envs as [|env rest IH]; intros j Hnan; [reflexivity|]. simpl.
  destruct (JobStatus_eqb (status j) running); [|reflexivity].
  pose proof (SimulationProps.tick_job_facts env j) as P. cbv zeta in P.
  rewrite Hnan in P. destruct P as (_ & _ & _ & _ & ->).
  now apply IH.
Qed.

Lemma run_ticks_number (envs : list TickEnv) :
  forall (j : CrawlJob) (total : Z),
  total_of j = Num total ->
  status j = running ->
  0 <= cnt_failed (counts j) ->
  (Z.to_nat (total - crawled (counts j)) < length envs)%nat ->
  let j' := run_ticks envs j in
  status j' = completed
  /\ finishedAt j' <> None
  /\ cnt_queued (counts j') = Num 0
  /\ total <= crawled (counts j') + cnt_failed (counts j')
  /\ crawled (counts j') <= Z.max (crawled (counts j)) total
  /\ forall more, run_ticks more j' = j'.
Proof.
  induction envs as [|env rest IH]; intros j total Ht Hrun Hfail Hlen;
    [simpl in Hlen; lia|].
  cbv zeta. simpl. rewrite Hrun. simpl.
  pose proof (SimulationProps.tick_job_facts env j) as P. cbv zeta in P.
  rewrite Ht in P.
  destruct P as (_ & Hcfg & Hup & Hf & Hmax & Hgrow & Hend).
  set (j1 := fst (tick_job env j)) in *.
  assert (Htotal : total_of j1 = Num total)
    by (unfold total_of in *; now rewrite Hcfg).
  destruct Hend as [(Hst & Hfin & Hq & Hreach) | (Hst & _ & Hbelow)].
  - assert (Hstop : forall more, run_ticks more j1 = j1).
    { intros more. apply run_ticks_stopped. rewrite Hst. discriminate. }
    rewrite Hstop. repeat split; try assumption.
    rewrite Hfin. discriminate.
  - assert (Hlt : crawled (counts j) < total) by lia.
    destruct (Hgrow Hlt) as [Hstrict _].
    simpl in Hlen.
    assert (Hrun1 : status j1 = running) by congruence.
    assert (Hfail1 : 0 <= cnt_failed (counts j1)) by lia.
    assert (Hlen1 : (Z.to_nat (total - crawled (counts j1)) < length rest)%nat)
      by lia.
    specialize (IH j1 total Htotal Hrun1 Hfail1 Hlen1). cbv zeta in IH.
    destruct IH as (H1 & H2 & H3 & H4 & H5 & H6).
    repeat split; try assumption. lia.
Qed.

(** X9: the end of the simulation.  When [maxPages] is a number, the
    simulation ends whatever the random draws are: a running job with a
    failed count that is not negative is completed after at most
    [total - crawled + 1] ticks, with a finish time, an empty queue and
    a crawled count that did not pass the total, and further ticks leave
    it as it is.  When [maxPages] is [NaN] no tick changes the job: it
    stays running. *)
Theorem run_ticks_completes (envs : list TickEnv) (j : CrawlJob) :
  status j = running ->
  0 <= cnt_failed (counts j) ->
  match total_of j with
  | NaN => run_ticks envs j = j
  | Num total =>
      (Z.to_nat (total - crawled (counts j)) < length envs)%nat ->
      let j' := run_ticks envs j in
      status j' = completed
      /\ finishedAt j' <> None
      /\ cnt_queued (counts j') = Num 0
      /\ total <= crawled (counts j') + cnt_failed (counts j')
      /\ crawled (counts j') <= Z.max (crawled (counts j)) total
      /\ forall more, run_ticks more j' = j'
  end.
Proof.
  intros Hrun Hfail. destruct (total_of j) as [total|] eqn:Ht.
  - intros Hlen. now apply run_ticks_number.
  - now apply run_ticks_nan.
Qed.

Lemma run_ticks_completes_witness :
  status (run_ticks (repeat (mkTick one false "a" "b" 1 2 3 4) 51)
            Samples.job_running) = completed.
Proof.
  pose proof (run_ticks_completes (repeat (mkTick one false "a" "b" 1 2 3 4) 51)
                Samples.job_running eq_refl) as H.
  change (total_of Samples.job_running) with (Num 50) in H.
  refine (proj1 (H _ _)).
  - simpl. lia.
  - vm_compute. lia.
Defined.

(** A job created from a form whose [maxPages] field was emptied is
    never completed by the simulation. *)
Example run_ticks_nan_maxPages :
  status (run_ticks (repeat (mkTick three false "a" "b" 1 2 3 4) 100)
            (mkJob "j" "docs"
               (mkConfig "docs" ["https://example.com"] NaN 3 true false [] []
                  true false false 10000 3 2 60 "" [] true false true false
                  true true true true true true false)
               running 0 (Some 0) None None (mkCounts 0 NaN 0) None None))
  = running.
Proof. reflexivity. Qed.

End SimulationRun.

(* ================================================================== *)
(** ** An invariant of every store the service can reach *)
(* ================================================================== *)

Module LifecycleProps.

Import JobService Queries Simulation Lifecycle StoreFacts.

Ltac settle :=
  unfold finished_iff_terminal in *; simpl in *;
  try solve [split; intros; congruence
            |split; intros; try discriminate; exfalso; intuition congruence
            |intuition congruence].

(** Replacing the job found under an id by a good one keeps the list
    good. *)
Lemma Forall_update_found (P : CrawlJob -> Prop) (job : string)
    (f : CrawlJob -> CrawlJob) (js : list CrawlJob) (j : CrawlJob) :
  find_job job js = Some j -> P (f j) -> Forall P js ->
  Forall P (update_job job f js).
Proof.
  unfold find_job. induction js as [|x js IH]; simpl; [discriminate|].
  intros Hfind Hj Hall. inversion Hall as [|? ? Hx Hrest]; subst.
  destruct (id x =? job).
  - injection Hfind as <-. now constructor.
  - constructor; [exact Hx | now apply IH].
Qed.

Lemma jobs_simulateCrawling (job : string) (st : Store) :
  jobs (simulateCrawling job st) = jobs st.
Proof.
  unfold simulateCrawling. destruct (find_job job (jobs st)) as [j|]; [|reflexivity].
  destruct (negb (JobStatus_eqb (status j) running)); reflexivity.
Qed.

Lemma created_job_good mock now base newId ids fr cfg st :
  Forall finished_iff_terminal (jobs st) ->
  Forall finished_iff_terminal (jobs (snd (createJob mock now base newId ids fr cfg st))).
Proof.
  intros Hall. unfold createJob. destruct mock; simpl.
  - apply Forall_app. split; [exact Hall|]. constructor; [settle | constructor].
  - destruct fr as [e|res]; [exact Hall|].
    destruct (Net.ok res); simpl; [|exact Hall].
    destruct (Net.json res) as [[data|]|e]; try exact Hall.
    destruct (truthy_opt (job_id data)); simpl; [|exact Hall].
    constructor; [settle | exact Hall].
Qed.

Lemma action_good mock now newId job action st :
  Forall finished_iff_terminal (jobs st) ->
  Forall finished_iff_terminal (jobs (snd (performJobAction mock now newId job action st))).
Proof.
  intros Hall. unfold performJobAction. destruct mock; [|exact Hall].
  destruct (find_job job (jobs st)) as [j|] eqn:Hfind; [|exact Hall].
  assert (Hj : finished_iff_terminal j).
  { apply find_job_In in Hfind as [Hin _].
    now apply (proj1 (Forall_forall _ _) Hall). }
  destruct action, (status j) eqn:Hst; simpl; try exact Hall;
    rewrite ?jobs_simulateCrawling; simpl;
    (eapply Forall_update_found; [exact Hfind | | exact Hall]);
    unfold finished_iff_terminal in *; rewrite Hst in Hj; simpl in *;
    destruct (finishedAt j); intuition congruence.
Qed.

Lemma mergeInfo_good (clock : SyncClock) (info : BackendJobInfo) (local : CrawlJob) :
  finished_iff_terminal local -> finished_iff_terminal (mergeInfo clock info local).
Proof.
  unfold finished_iff_terminal.
  ReconcileProps.merge_cases info local; simpl; intros H;
    try exact H; (split; [intros; discriminate | intros; reflexivity]).
Qed.

Lemma sync_good clock fr job st :
  Forall finished_iff_terminal (jobs st) ->
  Forall finished_iff_terminal (jobs (syncJobFromBackend clock fr job st)).
Proof.
  intros Hall. unfold syncJobFromBackend.
  destruct (getJobInfo fr) as [info|]; [|exact Hall].
  destruct (find_job job (jobs st)) as [j|] eqn:Hfind; [|exact Hall].
  simpl. eapply Forall_update_found; [exact Hfind | | exact Hall].
  apply mergeInfo_good. apply find_job_In in Hfind as [Hin _].
  now apply (proj1 (Forall_forall _ _) Hall).
Qed.

Lemma logs_good fr job st : jobs (snd (getJobLogs fr job st)) = jobs st.
Proof.
  unfold getJobLogs. destruct fr as [e|res]; [reflexivity|].
  destruct (negb (Net.ok res)); [reflexivity|].
  destruct (Net.json res) as [[data|]|e]; try reflexivity.
  destruct (log_lines data); reflexivity.
Qed.

Lemma tick_good env job st :
  Forall finished_iff_terminal (jobs st) ->
  Forall finished_iff_terminal (jobs (tick env job st)).
Proof.
  intros Hall. unfold tick.
  destruct (find_job job (jobs st)) as [j|] eqn:Hfind; [|exact Hall].
  destruct (negb (JobStatus_eqb (status j) running)) eqn:Hrun; [exact Hall|].
  assert (Hj : finished_iff_terminal j).
  { apply find_job_In in Hfind as [Hin _].
    now apply (proj1 (Forall_forall _ _) Hall). }
  pose proof (SimulationProps.tick_job_facts env j) as P. cbv zeta in P.
  destruct P as (_ & _ & _ & _ & Hend).
  destruct (tick_job env j) as [j' pushed]. simpl in *.
  eapply (Forall_update_found _ job (fun _ => j')); [exact Hfind | | exact Hall].
  destruct (total_of j) as [total|]; [|now rewrite Hend].
  destruct Hend as (_ & _ & Hend).
  unfold finished_iff_terminal in *.
  destruct Hend as [(Hst & Hfin & _) | (Hst & Hfin & _)]; rewrite Hst, Hfin.
  - split; [discriminate | reflexivity].
  - exact Hj.
Qed.

(** X5: In every store the service can reach from its empty start, through
    any sequence of creations, actions, reconciliations, log fetches,
    simulation ticks and resets, with the mock on or off and whatever
    the network answers, a job has a finish time exactly when its
    status is completed, failed or canceled. *)
Theorem finishedAt_iff_terminal (st : Store) :
  reachable st -> Forall finished_iff_terminal (jobs st).
Proof.
  induction 1 as [|st st' _ IH Hstep]; [constructor|].
  destruct Hstep.
  - now apply created_job_good.
  - now apply action_good.
  - now apply sync_good.
  - now rewrite logs_good.
  - now apply tick_good.
  - constructor.
Qed.

(** A store reached by a creation, a reconciliation that reports
    completion, and an action. *)
Lemma finishedAt_iff_terminal_witness :
  Forall finished_iff_terminal
    (jobs (snd (performJobAction true 3000%Z "x" "srv-1" cancel
             (syncJobFromBackend (Samples.clock_at 2000%Z)
                (Net.Resolved (Samples.response true 200%Z "OK" ""
                                 (Ok (Some Samples.snapshot_done))))
                "srv-1"
                (snd (createJob USE_MOCK 1000%Z 1000%Z "local-1" Samples.no_ids
                        (Samples.started "srv-1") Samples.cfg_docs
                        (mkStore [] [] []))))))).
Proof.
  apply finishedAt_iff_terminal.
  eapply reach_step; [|apply step_action].
  eapply reach_step; [|apply step_sync].
  eapply reach_step; [|apply step_create].
  apply reach_start.
Defined.

End LifecycleProps.

(* ================================================================== *)
(** ** More on reconciliation *)
(* ================================================================== *)

Module MergeProps.

Import JobService JSFacts StoreFacts.
Local Open Scope Z_scope.

(** X10: The merge in closed form.  The status becomes [failed] when the
    snapshot carries an error, else [completed] when it reports done,
    else stays; the finish time follows the same cases; the crawled
    count is replaced by the reported one (not added to it) and kept
    when none is reported; queued and failed counts, id, name, config,
    creation and start time are never touched. *)
Theorem mergeInfo_closed_form (clock : SyncClock) (info : BackendJobInfo)
    (local : CrawlJob) :
  let merged := mergeInfo clock info local in
  status merged = (if reported_error info then failed
                   else if reported_done info then completed
                   else status local)
  /\ finishedAt merged = (if reported_error info then Some (t_error clock)
                          else if reported_done info then Some (t_done clock)
                          else finishedAt local)
  /\ counts merged = mkCounts (match reported_crawled info with
                               | Some n => n
                               | None => crawled (counts local)
                               end)
                              (cnt_queued (counts local))
                              (cnt_failed (counts local))
  /\ updatedAt merged = Some (t_updated clock)
  /\ id merged = id local /\ name merged = name local
  /\ config merged = config local
  /\ createdAt merged = createdAt local /\ startedAt merged = startedAt local.
Proof.
  cbv zeta.
  repeat match goal with |- _ /\ _ => split end;
    ReconcileProps.merge_cases info local; reflexivity.
Qed.

(** X11: A reconciliation whose fetch fails in any way (no answer, an answer
    that is not 2xx, a body that does not decode or is [null]), or that
    is asked for an id that is not stored, leaves the store unchanged. *)
Theorem syncJobFromBackend_noop (clock : SyncClock)
    (fr : Net.FetchResult (Body BackendJobInfo)) (job : string) (st : Store) :
  (match fr with
   | Net.Rejected _ => True
   | Net.Resolved res =>
       Net.ok res = false
       \/ (exists e, Net.json res = Throw e)
       \/ Net.json res = Ok None
   end
   \/ find_job job (jobs st) = None) ->
  syncJobFromBackend clock fr job st = st.
Proof.
  unfold syncJobFromBackend, getJobInfo.
  intros [H | H].
  - destruct fr as [e|res]; [reflexivity|].
    destruct H as [H | [[e H] | H]]; rewrite H; simpl; try reflexivity;
      destruct (negb (Net.ok res)); reflexivity.
  - rewrite H. destruct fr as [e|res]; [reflexivity|].
    destruct (negb (Net.ok res)); [reflexivity|].
    destruct (catch_with (Net.json res) None); reflexivity.
Qed.

Lemma syncJobFromBackend_noop_witness :
  syncJobFromBackend (Samples.clock_at 1000)
    (Net.Resolved (Samples.response false 404 "Not Found" ""
                     (Ok (Some Samples.snapshot_done))))
    "j1" Samples.store0
  = Samples.store0.
Proof.
  apply (syncJobFromBackend_noop (Samples.clock_at 1000)
           (Net.Resolved (Samples.response false 404 "Not Found" ""
                            (Ok (Some Samples.snapshot_done))))
           "j1" Samples.store0).
  left. left. reflexivity.
Defined.

(** X12: A successful reconciliation touches one job only: the log entries
    and the tickers are kept, the list keeps its length, every other id
    resolves to the job it resolved to, and the id reconciled resolves
    to the merge of the snapshot into the job it resolved to. *)
Theorem syncJobFromBackend_frame (clock : SyncClock)
    (res : Net.Response (Body BackendJobInfo)) (info : BackendJobInfo)
    (job : string) (st : Store) (local : CrawlJob) :
  Net.ok res = true -> Net.json res = Ok (Some info) ->
  find_job job (jobs st) = Some local ->
  let st' := syncJobFromBackend clock (Net.Resolved res) job st in
  logs st' = logs st
  /\ intervals st' = intervals st
  /\ length (jobs st') = length (jobs st)
  /\ find_job job (jobs st') = Some (mergeInfo clock info local)
  /\ forall other, other <> job -> find_job other (jobs st') = find_job other (jobs st).
Proof.
  intros Hok Hjson Hfind. cbv zeta.
  unfold syncJobFromBackend, getJobInfo. rewrite Hok, Hjson. simpl. rewrite Hfind.
  simpl. repeat split.
  - apply length_update_job.
  - apply ReconcileProps.find_update_job; [apply ReconcileProps.mergeInfo_id | exact Hfind].
  - intros other Hother. apply find_update_job_other; [|exact Hother].
    intros x Hx. now rewrite ReconcileProps.mergeInfo_id.
Qed.

Lemma syncJobFromBackend_frame_witness :
  logs (syncJobFromBackend (Samples.clock_at 1000)
          (Net.Resolved (Samples.response true 200 "OK" ""
                           (Ok (Some Samples.snapshot_done))))
          "j1" Samples.store0)
  = [Samples.log_j1; Samples.log_j2].
Proof.
  exact (proj1 (syncJobFromBackend_frame (Samples.clock_at 1000)
                  (Samples.response true 200 "OK" "" (Ok (Some Samples.snapshot_done)))
                  Samples.snapshot_done "j1" Samples.store0 Samples.job_running
                  eq_refl eq_refl eq_refl)).
Defined.

Lemma mergeInfo_keeps_jobDir (clock : SyncClock) (info : BackendJobInfo)
    (local : CrawlJob) :
  truthy_opt (info_jobDir info) = false ->
  jobDir (mergeInfo clock info local) = jobDir local.
Proof.
  intros H. unfold mergeInfo.
  destruct (info_jobDir info) as [d|]; simpl in H; [rewrite H|];
    destruct (info_startUrl info) as [u|]; try destruct (truthy u);
    destruct (reported_error info), (reported_done info); reflexivity.
Qed.

(** X13: The working directory is sticky: once a snapshot has reported a
    directory name [d] (not empty, without [/]), a later snapshot that
    reports none leaves the token in place, so the download link built
    after the second reconciliation is still the link to [d]. *)
Theorem jobDir_survives_later_snapshot (API_URL : string) (c1 c2 : SyncClock)
    (first later : BackendJobInfo) (local : CrawlJob) (d fileName : string) :
  info_jobDir first = Some d -> d <> ""%string -> contains slash d = false ->
  truthy_opt (info_jobDir later) = false ->
  jobDir (mergeInfo c2 later (mergeInfo c1 first local))
  = Some ("output_crawler/" ++ d)%string
  /\ buildDownloadUrl API_URL
       (jobDir (mergeInfo c2 later (mergeInfo c1 first local))) fileName
     = Some (API_URL ++ "/download/" ++ d ++ "/" ++ fileName)%string.
Proof.
  intros Hdir Hne Hno Hlater.
  rewrite (mergeInfo_keeps_jobDir c2 later _ Hlater).
  assert (Hstored : jobDir (mergeInfo c1 first local)
                    = Some ("output_crawler/" ++ d)%string).
  { apply truthy_true_iff in Hne. unfold mergeInfo. rewrite Hdir, Hne.
    destruct (info_startUrl first) as [u|]; [destruct (truthy u)|]; reflexivity. }
  rewrite Hstored. split; [reflexivity|].
  apply LinkProps.buildDownloadUrl_folder.
  exact (LinkProps.extractJobFolder_two "output_crawler" d eq_refl Hno Hne).
Qed.

Lemma jobDir_survives_later_snapshot_witness :
  jobDir (mergeInfo (Samples.clock_at 2000)
            (mkJobInfo "j1" "docs" 1 None None None None)
            (mergeInfo (Samples.clock_at 1000) Samples.snapshot_done
               Samples.job_running))
  = Some "output_crawler/job-20251003-101601"%string.
Proof.
  refine (proj1 (jobDir_survives_later_snapshot Samples.api (Samples.clock_at 1000)
                   (Samples.clock_at 2000) Samples.snapshot_done
                   (mkJobInfo "j1" "docs" 1 None None None None)
                   Samples.job_running "job-20251003-101601" "all_results.json"
                   eq_refl _ eq_refl eq_refl)).
  discriminate.
Defined.

End MergeProps.

(* ================================================================== *)
(** ** The state machine of [performJobAction] *)
(* ================================================================== *)

Module MachineProps.

Import JobService StoreFacts Lifecycle.

(** X4: With the mock on, [performJobAction] is the state machine of the
    specification.  For an unknown id it throws [Job not found] and
    changes nothing.  For a stored job it returns normally; when the
    machine has a transition for the action in the job's status, the
    job found afterwards has the target status and [updatedAt = now]
    with counts and config as before, exactly one log entry for the job
    is appended, and a ticker is started exactly when the target is
    [running]; when the machine has none, the store is unchanged. *)
Theorem performJobAction_follows_machine (now : Date) (newId job : string)
    (action : Action) (st : Store) :
  let result := performJobAction true now newId job action st in
  let st' := snd result in
  match find_job job (jobs st) with
  | None => result = (Throw (Error "Job not found"), st)
  | Some j =>
      fst result = Ok tt
      /\ match spec_transition action (status j) with
         | None => st' = st
         | Some target =>
             (exists j', find_job job (jobs st') = Some j'
                         /\ status j' = target
                         /\ updatedAt j' = Some now
                         /\ counts j' = counts j /\ config j' = config j
                         /\ createdAt j' = createdAt j)
             /\ (exists entry, logs st' = (logs st ++ [entry])%list
                               /\ jobId entry = job /\ log_id entry = newId
                               /\ timestamp entry = now)
             /\ intervals st'
                = (if JobStatus_eqb target running
                   then intervals st ++ [job] else intervals st)%list
         end
  end.
Proof.
  cbv zeta. unfold performJobAction.
  destruct (find_job job (jobs st)) as [j|] eqn:Hfind; [|reflexivity].
  destruct (find_job_In _ _ _ Hfind) as [_ Hid].
  destruct action, (status j) eqn:Hst; simpl; split; try reflexivity;
    unfold simulateCrawling, push_log, set_job; simpl;
    try (erewrite find_update_job_at; [|exact Hfind|exact Hid]); simpl;
    (split; [eexists; split;
               [first [reflexivity
                      |apply find_update_job_at; [exact Hfind | exact Hid]]
               |repeat split]
            |split; [eexists; repeat split | reflexivity]]).
Qed.

End MachineProps.

(* ================================================================== *)
(** ** Facts about the decimal text of numbers *)
(* ================================================================== *)

Module NumberFacts.

Lemma to_int_proper (z : Z) :
  Z.to_int z <> Decimal.Pos Decimal.Nil /\ Z.to_int z <> Decimal.Neg Decimal.Nil.
Proof.
  destruct z as [|p|p]; simpl; split; try discriminate;
    intros [= H]; now apply DecimalPos.Unsigned.to_uint_nonnil in H.
Qed.

(** Different numbers print differently. *)
Lemma number_to_string_inj (a b : Z) :
  number_to_string a = number_to_string b -> a = b.
Proof.
  unfold number_to_string. intros H.
  apply DecimalZ.to_int_inj.
  destruct (to_int_proper a) as [Ha1 Ha2], (to_int_proper b) as [Hb1 Hb2].
  pose proof (NilZero.isi _ Ha1 Ha2) as Ia.
  pose proof (NilZero.isi _ Hb1 Hb2) as Ib.
  rewrite H in Ia. congruence.
Qed.

Lemma string_of_uint_no_dash (d : Decimal.uint) :
  contains "-"%char (NilEmpty.string_of_uint d) = false.
Proof. induction d; simpl; auto. Qed.

(** The text of a number that is not negative holds no [-]. *)
Lemma number_to_string_no_dash (n : nat) :
  contains "-"%char (number_to_string (Z.of_nat n)) = false.
Proof.
  unfold number_to_string.
  destruct (Z.of_nat n) as [|p|p] eqn:E; simpl.
  - reflexivity.
  - destruct (Pos.to_uint p) eqn:Hp; try reflexivity;
      rewrite <- Hp; unfold NilZero.string_of_uint;
      rewrite Hp; rewrite <- Hp at 1;
      try apply string_of_uint_no_dash;
      rewrite Hp; apply (string_of_uint_no_dash).
  - lia.
Qed.

Lemma append_cancel (p a b : string) : (p ++ a = p ++ b)%string -> a = b.
Proof. induction p as [|c p IH]; simpl; [auto|]. intros [= H]. auto. Qed.

(** Two texts without [-], each followed by [-], that start the same
    string are the same text. *)
Lemma before_dash (x y : string) :
  forall (a b : string),
  contains "-"%char x = false -> contains "-"%char y = false ->
  (x ++ String "-"%char a = y ++ String "-"%char b)%string -> x = y /\ a = b.
Proof.
  revert y. induction x as [|c x IH]; intros [|d y] a b Hx Hy; simpl in *.
  - intros [= ->]. auto.
  - intros [= <- _]. apply orb_false_iff in Hy as [Hy _]. discriminate Hy.
  - intros [= -> _]. apply orb_false_iff in Hx as [Hx _]. discriminate Hx.
  - intros [= -> H]. apply orb_false_iff in Hx as [_ Hx].
    apply orb_false_iff in Hy as [_ Hy].
    destruct (IH y a b Hx Hy H) as [-> ->]. auto.
Qed.

End NumberFacts.

(* ================================================================== *)
(** ** More on download links *)
(* ================================================================== *)

Module ExportProps.

Import JobService JSFacts.

Lemma first_piece_empty (r : string) :
  match split slash r with
  | piece :: _ => piece = "" <-> (r = "" \/ exists r', r = String slash r')
  | [] => False
  end.
Proof.
  destruct r as [|c r]; simpl.
  - split; auto.
  - destruct (Ascii.eqb c slash) eqn:Hc.
    + apply Ascii.eqb_eq in Hc. subst c. split; [|reflexivity].
      intros _. right. now exists r.
    + destruct (split slash r) as [|p ps] eqn:Hs.
      * now apply split_not_nil in Hs.
      * split; [discriminate|].
        intros [H | [r' H]]; [discriminate|].
        injection H as -> _. now rewrite Ascii.eqb_refl in Hc.
Qed.

(** X14: The tokens that give no folder, and so no link: the empty token,
    the token [/], and every token that starts with [//], whatever
    follows. *)
Theorem extractJobFolder_none_iff (dir : string) :
  extractJobFolder (Some dir) = None
  <-> dir = "" \/ dir = "/" \/ exists rest, dir = "//" ++ rest.
Proof.
  destruct dir as [|c r].
  - split; auto.
  - unfold extractJobFolder. simpl truthy. simpl negb. cbv iota.
    simpl split. destruct (Ascii.eqb c slash) eqn:Hc.
    + apply Ascii.eqb_eq in Hc. subst c.
      pose proof (first_piece_empty r) as Hr.
      destruct (split slash r) as [|p ps]; [contradiction|].
      simpl. unfold or_else. simpl.
      destruct (truthy p) eqn:Hp.
      * split; [discriminate|].
        assert (Hne : p <> "") by now apply truthy_true_iff.
        intros [H | [H | [rest H]]]; try discriminate.
        -- injection H as ->. exfalso. apply Hne, Hr. now left.
        -- injection H as ->. exfalso. apply Hne, Hr. right. now exists rest.
      * split; [intros _|reflexivity].
        assert (He : p = "").
        { unfold truthy in Hp. apply negb_false_iff in Hp.
          now apply String.eqb_eq. }
        apply Hr in He as [-> | [r' ->]]; [now right; left|].
        right; right. now exists r'.
    + destruct (split slash r) as [|p ps] eqn:Hs;
        [now apply split_not_nil in Hs|].
      simpl. unfold or_else. simpl.
      split.
      * destruct ps as [|q qs]; simpl; [discriminate|].
        destruct (truthy q); discriminate.
      * intros [H | [H | [rest H]]]; try discriminate;
          injection H as -> _; now rewrite Ascii.eqb_refl in Hc.
Qed.

Lemma flat_map_links (API_URL : string) (native_text : string -> string)
    (dir : option string) (folder : string) (fs : list string) :
  extractJobFolder dir = Some folder ->
  flat_map (link_for API_URL native_text dir) fs
  = map (fun f => mkLink f (API_URL ++ "/download/" ++ folder ++ "/"
                              ++ filename_text native_text f)) fs.
Proof.
  intros H. induction fs as [|f fs IH]; simpl; [reflexivity|].
  unfold link_for at 1.
  rewrite (LinkProps.buildDownloadUrl_folder API_URL dir folder _ H).
  simpl. now rewrite IH.
Qed.

(** X15: For a stored job whose token gives a folder, [exportJob] returns one
    link per requested id that is found in the table, in the order of
    the request and as often as requested, each pointing to
    base/download/folder/file, where the folder is not empty and holds
    no [/]; it throws exactly when no requested id is found. *)
Theorem exportJob_links (API_URL : string) (native_text : string -> string)
    (objectUrl : nat -> string) (job : string) (formats : list string)
    (st : Store) (j : CrawlJob) (folder : string) :
  find_job job (jobs st) = Some j ->
  extractJobFolder (jobDir j) = Some folder ->
  folder <> "" /\ contains slash folder = false
  /\ exportJob API_URL native_text USE_MOCK objectUrl job formats st
     = match filter in_formatToFilename formats with
       | [] => Throw (Error "No download links available for requested formats.")
       | kept =>
           Ok (map (fun f => mkLink f (API_URL ++ "/download/" ++ folder ++ "/"
                                         ++ filename_text native_text f)) kept)
       end.
Proof.
  intros Hfind Hfolder.
  destruct (LinkProps.extractJobFolder_piece _ _ Hfolder) as [Hne Hno].
  split; [exact Hne|]. split; [exact Hno|].
  unfold exportJob. rewrite Hfind. simpl.
  rewrite (flat_map_links _ _ _ _ _ Hfolder).
  destruct (filter in_formatToFilename formats); reflexivity.
Qed.

Lemma exportJob_links_witness :
  exportJob Samples.api Samples.v8_text USE_MOCK Samples.no_urls "j2"
    ["csv"; "pdf"; "markdown-book"; "csv"] Samples.store0
  = Ok [ mkLink "csv" "http://127.0.0.1:8000/download/job-20250101-000000/all_results.csv";
         mkLink "markdown-book"
           "http://127.0.0.1:8000/download/job-20250101-000000/all_results.md";
         mkLink "csv" "http://127.0.0.1:8000/download/job-20250101-000000/all_results.csv" ].
Proof.
  exact (proj2 (proj2 (exportJob_links Samples.api Samples.v8_text Samples.no_urls
                         "j2" ["csv"; "pdf"; "markdown-book"; "csv"] Samples.store0
                         Samples.job_completed "job-20250101-000000"
                         eq_refl eq_refl))).
Defined.

(** X16: For a stored job whose token gives no folder (no token, an empty
    one, [/], or one that starts with [//]) every export throws the
    same error, whatever formats are requested. *)
Theorem exportJob_no_folder (API_URL : string) (native_text : string -> string)
    (objectUrl : nat -> string) (job : string) (formats : list string)
    (st : Store) (j : CrawlJob) :
  find_job job (jobs st) = Some j ->
  extractJobFolder (jobDir j) = None ->
  exportJob API_URL native_text USE_MOCK objectUrl job formats st
  = Throw (Error "No download links available for requested formats.").
Proof.
  intros Hfind Hnone. unfold exportJob. rewrite Hfind. simpl.
  assert (H : flat_map (link_for API_URL native_text (jobDir j))
                (filter in_formatToFilename formats) = []).
  { induction (filter in_formatToFilename formats) as [|f fs IH]; [reflexivity|].
    simpl. unfold link_for at 1.
    now rewrite (LinkProps.buildDownloadUrl_none API_URL _ _ Hnone). }
  now rewrite H.
Qed.

Lemma exportJob_no_folder_witness :
  exportJob Samples.api Samples.v8_text USE_MOCK Samples.no_urls "j1"
    ["json"; "csv"; "markdown-book"] Samples.store0
  = Throw (Error "No download links available for requested formats.").
Proof.
  apply (exportJob_no_folder Samples.api Samples.v8_text Samples.no_urls "j1"
           ["json"; "csv"; "markdown-book"] Samples.store0 Samples.job_running);
    reflexivity.
Defined.

End ExportProps.

(* ================================================================== *)
(** ** More on the log entries *)
(* ================================================================== *)

Module LogOrder.

Import JobService Queries NumberFacts.
Local Open Scope Z_scope.

Lemma insert_by_time_perm (x : JobLog) (l : list JobLog) :
  Permutation (insert_by_time x l) (x :: l).
Proof.
  induction l as [|y l IH]; simpl; [apply Permutation_refl|].
  destruct (timestamp x <=? timestamp y); [apply Permutation_refl|].
  eapply perm_trans; [apply perm_skip, IH | apply perm_swap].
Qed.

Lemma sort_by_time_perm (l : list JobLog) : Permutation (sort_by_time l) l.
Proof.
  unfold sort_by_time. induction l as [|x l IH]; simpl; [constructor|].
  eapply perm_trans; [apply insert_by_time_perm | now apply perm_skip].
Qed.

Lemma insert_by_time_sorted (x : JobLog) (l : list JobLog) :
  StronglySorted not_later l -> StronglySorted not_later (insert_by_time x l).
Proof.
  induction 1 as [|y l Hl IH Hy]; simpl.
  - constructor; constructor.
  - destruct (timestamp x <=? timestamp y) eqn:Hxy.
    + apply Z.leb_le in Hxy. constructor; [constructor; assumption|].
      constructor; [exact Hxy|].
      eapply Forall_impl; [|exact Hy].
      unfold not_later. intros z Hz. lia.
    + apply Z.leb_gt in Hxy. constructor; [exact IH|].
      eapply Permutation_Forall;
        [apply Permutation_sym, insert_by_time_perm|].
      constructor; [unfold not_later; lia | exact Hy].
Qed.

Lemma sort_by_time_sorted (l : list JobLog) : StronglySorted not_later (sort_by_time l).
Proof.
  unfold sort_by_time. induction l as [|x l IH]; simpl; [constructor|].
  now apply insert_by_time_sorted.
Qed.

Lemma length_map_index {A B} (f : nat -> A -> B) (xs : list A) :
  forall start, length (map_index f start xs) = length xs.
Proof.
  induction xs as [|x xs IH]; intros start; simpl; [reflexivity|]. now rewrite IH.
Qed.

(** X17: When the fetch of the log fails in any way (no answer, an answer
    that is not 2xx, a body that does not decode, is [null] or has no
    [logs]), [getJobLogs] returns no entry and keeps the cache. *)
Theorem getJobLogs_failure_keeps_cache (fr : Net.FetchResult (Body BackendJobLogs))
    (job : string) (st : Store) :
  match fr with
  | Net.Rejected _ => True
  | Net.Resolved res =>
      Net.ok res = false
      \/ (exists e, Net.json res = Throw e)
      \/ Net.json res = Ok None
      \/ (exists data, Net.json res = Ok (Some data) /\ log_lines data = None)
  end ->
  getJobLogs fr job st = ([], st).
Proof.
  unfold getJobLogs. destruct fr as [e|res]; [reflexivity|].
  intros [H | [[e H] | [H | (data & H & Hl)]]]; rewrite H; simpl;
    try reflexivity; destruct (negb (Net.ok res)); try reflexivity.
  now rewrite Hl.
Qed.

Lemma getJobLogs_failure_keeps_cache_witness :
  getJobLogs (Net.Resolved (Samples.response true 200 "OK" "{}"
                              (Ok (Some (mkJobLogs None)))))
    "j1" Samples.store0
  = ([], Samples.store0).
Proof.
  apply (getJobLogs_failure_keeps_cache
           (Net.Resolved (Samples.response true 200 "OK" "{}"
                            (Ok (Some (mkJobLogs None)))))
           "j1" Samples.store0).
  right. right. right. eexists. split; reflexivity.
Defined.

(** X18: The entries [getJobLogs] returns after a successful fetch are the
    fetched ones, each once, ordered by time stamp, oldest first. *)
Theorem getJobLogs_returns_sorted (res : Net.Response (Body BackendJobLogs))
    (data : BackendJobLogs) (lines : list BackendLogLine) (job : string) (st : Store) :
  Net.ok res = true ->
  Net.json res = Ok (Some data) ->
  log_lines data = Some lines ->
  let shown := fst (getJobLogs (Net.Resolved res) job st) in
  Permutation shown (map_index (log_of_line job) 0 lines)
  /\ StronglySorted not_later shown
  /\ length shown = length lines.
Proof.
  intros Hok Hjson Hlines. cbv zeta.
  unfold getJobLogs. rewrite Hok, Hjson, Hlines. simpl.
  split; [apply sort_by_time_perm|]. split; [apply sort_by_time_sorted|].
  rewrite (Permutation_length (sort_by_time_perm _)).
  apply length_map_index.
Qed.

Lemma getJobLogs_returns_sorted_witness :
  StronglySorted not_later
    (fst (getJobLogs (Net.Resolved Samples.logs_answer) "j1" Samples.store0)).
Proof.
  exact (proj1 (proj2 (getJobLogs_returns_sorted Samples.logs_answer
                         (mkJobLogs (Some Samples.two_lines)) Samples.two_lines
                         "j1" Samples.store0 eq_refl eq_refl eq_refl))).
Defined.

(** The identifier of an entry determines its position and its time
    stamp. *)
Lemma log_id_inj (job : string) (i i' : nat) (l l' : BackendLogLine) :
  log_id (log_of_line job i l) = log_id (log_of_line job i' l') ->
  i = i' /\ ts l = ts l'.
Proof.
  simpl. intros H.
  apply append_cancel in H. injection H as H.
  apply before_dash in H as [Hi Ht];
    try apply number_to_string_no_dash.
  apply number_to_string_inj in Hi. apply number_to_string_inj in Ht.
  split; [lia | exact Ht].
Qed.

Lemma in_map_index {A B} (f : nat -> A -> B) (xs : list A) :
  forall start y, In y (map_index f start xs) ->
    exists i x, (start <= i)%nat /\ y = f i x.
Proof.
  induction xs as [|x xs IH]; intros start y; simpl; [contradiction|].
  intros [<- | H].
  - exists start, x. split; [lia | reflexivity].
  - destruct (IH _ _ H) as (i & x' & Hi & ->). exists i, x'. split; [lia | reflexivity].
Qed.

Lemma mapped_ids_nodup (job : string) (lines : list BackendLogLine) :
  forall start, NoDup (map log_id (map_index (log_of_line job) start lines)).
Proof.
  induction lines as [|l lines IH]; intros start; simpl; constructor.
  - intros Hin. apply in_map_iff in Hin as (e & He & Hin).
    apply in_map_index in Hin as (i & l' & Hi & ->).
    apply log_id_inj in He as [He _]. lia.
  - apply IH.
Qed.

(** X19: The identifiers given to the entries of one fetch are pairwise
    different, in the cache and in the list returned. *)
Theorem getJobLogs_ids_unique (res : Net.Response (Body BackendJobLogs))
    (data : BackendJobLogs) (lines : list BackendLogLine) (job : string) (st : Store) :
  Net.ok res = true ->
  Net.json res = Ok (Some data) ->
  log_lines data = Some lines ->
  NoDup (map log_id (fst (getJobLogs (Net.Resolved res) job st)))
  /\ NoDup (map log_id
              (filter (fun x => jobId x =? job)%string
                      (logs (snd (getJobLogs (Net.Resolved res) job st))))).
Proof.
  intros Hok Hjson Hlines.
  pose proof (LogProps.mapped_jobId job lines 0) as Hmine.
  unfold getJobLogs. rewrite Hok, Hjson, Hlines. simpl. split.
  - eapply Permutation_NoDup;
      [apply Permutation_map, Permutation_sym, sort_by_time_perm|].
    apply mapped_ids_nodup.
  - rewrite filter_app.
    rewrite (LogProps.filter_none (fun x => jobId x =? job)%string
               (filter (other_job job) (logs st))).
    + simpl. rewrite LogProps.filter_all; [apply mapped_ids_nodup|].
      eapply Forall_impl; [|exact Hmine].
      intros e He. simpl in He. rewrite He. apply String.eqb_refl.
    + apply Forall_forall. intros x Hx. apply filter_In in Hx as [_ Hx].
      unfold other_job in Hx. now apply negb_true_iff in Hx.
Qed.

Lemma getJobLogs_ids_unique_witness :
  NoDup (map log_id (fst (getJobLogs (Net.Resolved Samples.logs_answer) "j1"
                            Samples.store0))).
Proof.
  exact (proj1 (getJobLogs_ids_unique Samples.logs_answer
                  (mkJobLogs (Some Samples.two_lines)) Samples.two_lines
                  "j1" Samples.store0 eq_refl eq_refl eq_refl)).
Defined.

End LogOrder.

(* ================================================================== *)
(** ** More on the transport adapter *)
(* ================================================================== *)

Module ApiProps.

Import Api ApiGet JSFacts.
Local Open Scope Z_scope.

(** X20: [getJSON] never retries: with a base URL configured it sends exactly
    one GET, to the base followed by the path with one leading [/], with
    a time-out of 60000 ms, and treats what comes back exactly as one
    attempt of [postJSON] does; without a base URL it sends nothing and
    throws the configuration error. *)
Theorem getJSON_single_request (BASE_URL : string) (JSON : Type)
    (parse : string -> option JSON) (net : Attempt) (path : string) :
  (BASE_URL <> ""%string ->
     getJSON BASE_URL JSON parse net path
     = ([GET (url_of BASE_URL path) 60000], try_once JSON parse 60000 net))
  /\ (BASE_URL = ""%string ->
     getJSON BASE_URL JSON parse net path
     = ([], Throw (Error "VITE_API_URL is not set"))).
Proof.
  split; intros H.
  - apply truthy_true_iff in H. unfold getJSON. rewrite H. simpl.
    destruct net; reflexivity.
  - subst. reflexivity.
Qed.

(** A path is requested at the same URL with or without its leading
    slash, by [postJSON] as by [getJSON]. *)
Theorem leading_slash_optional (BASE_URL : string) (JSON : Type)
    (parse : string -> option JSON) (B : Type) (net : nat -> Attempt)
    (path : string) (body : B) :
  startsWith "/"%char path = false ->
  url_of BASE_URL ("/" ++ path) = url_of BASE_URL path
  /\ postJSON BASE_URL JSON parse B net ("/" ++ path) body
     = postJSON BASE_URL JSON parse B net path body
  /\ getJSON BASE_URL JSON parse (net 1%nat) ("/" ++ path)
     = getJSON BASE_URL JSON parse (net 1%nat) path.
Proof.
  intros H.
  assert (Hurl : url_of BASE_URL ("/" ++ path) = url_of BASE_URL path).
  { unfold url_of. simpl. now rewrite H. }
  split; [exact Hurl|]. split.
  - unfold postJSON. now rewrite Hurl.
  - unfold getJSON. fold (url_of BASE_URL ("/" ++ path)).
    fold (url_of BASE_URL path). now rewrite Hurl.
Qed.

Lemma leading_slash_optional_witness :
  url_of Samples.api "/jobs/j1" = url_of Samples.api "jobs/j1".
Proof.
  exact (proj1 (leading_slash_optional Samples.api unit (fun _ => Some tt) unit
                  Samples.cold_start "jobs/j1" tt eq_refl)).
Defined.

(** The caller of [postJSON] learns of a failure only after both
    attempts and both waits of 1500 ms; a result is always handed over
    right after the request that produced it. *)
Theorem postJSON_outcome_shape (BASE_URL : string) (JSON : Type)
    (parse : string -> option JSON) (B : Type) (net : nat -> Attempt)
    (path : string) (body : B) :
  BASE_URL <> ""%string ->
  let u := url_of BASE_URL path in
  match postJSON BASE_URL JSON parse B net path body with
  | (evs, Throw e) =>
      evs = [Fetch u body 65000; Wait 1500; Fetch u body 90000; Wait 1500]
      /\ try_once JSON parse 90000 (net 2%nat) = Throw e
  | (evs, Ok d) =>
      (evs = [Fetch u body 65000] /\ try_once JSON parse 65000 (net 1%nat) = Ok d)
      \/ (evs = [Fetch u body 65000; Wait 1500; Fetch u body 90000]
          /\ try_once JSON parse 90000 (net 2%nat) = Ok d)
  end.
Proof.
  intros H. apply truthy_true_iff in H. cbv zeta.
  unfold postJSON. rewrite H. simpl.
  change (timeout_of 1) with 65000. change (timeout_of 2) with 90000.
  destruct (try_once JSON parse 65000 (net 1%nat)) as [d|e1]; [now left|].
  destruct (try_once JSON parse 90000 (net 2%nat)) as [d|e2]; [now right|].
  now split.
Qed.

Lemma postJSON_outcome_shape_witness :
  match postJSON Samples.api unit (fun _ => Some tt) unit (fun _ => NoAnswer) "/crawl" tt with
  | (evs, Throw e) =>
      evs = [Fetch (url_of Samples.api "/crawl") tt 65000; Wait 1500;
             Fetch (url_of Samples.api "/crawl") tt 90000; Wait 1500]
      /\ try_once unit (fun _ => Some tt) 90000 NoAnswer = Throw e
  | (evs, Ok d) =>
      (evs = [Fetch (url_of Samples.api "/crawl") tt 65000]
       /\ try_once unit (fun _ => Some tt) 65000 NoAnswer = Ok d)
      \/ (evs = [Fetch (url_of Samples.api "/crawl") tt 65000; Wait 1500;
                 Fetch (url_of Samples.api "/crawl") tt 90000]
          /\ try_once unit (fun _ => Some tt) 90000 NoAnswer = Ok d)
  end.
Proof.
  apply (postJSON_outcome_shape Samples.api unit (fun _ => Some tt) unit
           (fun _ => NoAnswer) "/crawl" tt).
  discriminate.
Defined.

End ApiProps.

(* ================================================================== *)
(** ** More on the form *)
(* ================================================================== *)

Module FormProps.

Import JobService CrawlJobForm FormEdit JSFacts.

Lemma not_in_network (c : CrawlConfig) (evs : list (Api.Event CrawlConfig)) :
  ~ In (OnSubmit c) (map Network evs).
Proof.
  intros H. apply in_map_iff in H as (e & He & _). discriminate.
Qed.

Lemma not_in_remember (c : CrawlConfig) (data : CrawlResponse) :
  ~ In (OnSubmit c) (remember_first data).
Proof.
  unfold remember_first. destruct (results data) as [[|r rs]|]; simpl; auto.
  destruct (truthy (res_jobDir r)); simpl; [|auto].
  intros [H | []]. discriminate.
Qed.

(** X21: [handleSubmit] calls [onSubmit] only with the config of the form,
    and exactly when the name and the first start URL are not blank and
    [postJSON] returned a body whose status is [ok]; a thrown error, an
    empty body or any other status never reaches [onSubmit]. *)
Theorem handleSubmit_onSubmit_iff (BASE_URL : string)
    (JSON_parse : string -> option CrawlResponse) (net : nat -> Api.Attempt)
    (config c : CrawlConfig) :
  In (OnSubmit c) (handleSubmit BASE_URL JSON_parse net config)
  <-> c = config
      /\ trim (cfg_name config) <> ""
      /\ startUrls config <> []
      /\ trim (nth 0 (startUrls config) "") <> ""
      /\ exists data,
           snd (Api.postJSON BASE_URL CrawlResponse JSON_parse CrawlConfig
                  net "/crawl" config) = Ok (Some data)
           /\ resp_status data = "ok".
Proof.
  unfold handleSubmit.
  destruct (truthy (trim (cfg_name config))) eqn:Hname; simpl.
  2:{ split.
      - intros [H | []]. discriminate.
      - intros (_ & H & _). apply truthy_true_iff in H. congruence. }
  apply truthy_true_iff in Hname.
  destruct (startUrls config) as [|u us] eqn:Hurls; simpl.
  { split.
    - intros [H | []]. discriminate.
    - intros (_ & _ & H & _). now elim H. }
  destruct (truthy (trim u)) eqn:Hu; simpl.
  2:{ split.
      - intros [H | []]. discriminate.
      - intros (_ & _ & _ & H & _). apply truthy_true_iff in H. congruence. }
  apply truthy_true_iff in Hu.
  destruct (Api.postJSON BASE_URL CrawlResponse JSON_parse CrawlConfig net
              "/crawl" config) as [evs r]. simpl.
  rewrite in_app_iff.
  destruct r as [[data|]|e]; simpl.
  - destruct (resp_status data =? "ok") eqn:Hst.
    + apply String.eqb_eq in Hst. split.
      * intros [H | [H | [H | H]]]; try discriminate;
          [now apply not_in_network in H|].
        apply in_app_iff in H as [H | [H | []]];
          [now apply not_in_remember in H|].
        injection H as <-. repeat split; try assumption; try discriminate.
        now exists data.
      * intros (-> & _). right. right. right.
        apply in_app_iff. right. now left.
    + split.
      * intros [H | [H | [H | []]]]; try discriminate.
        now apply not_in_network in H.
      * intros (_ & _ & _ & _ & d & [= <-] & Hd).
        apply String.eqb_neq in Hst. congruence.
  - split.
    + intros [H | [H | [H | [H | []]]]]; try discriminate.
      now apply not_in_network in H.
    + intros (_ & _ & _ & _ & d & H & _). discriminate.
  - split.
    + intros [H | [H | [H | []]]]; try discriminate.
      now apply not_in_network in H.
    + intros (_ & _ & _ & _ & d & H & _). discriminate.
Qed.

(** A name made of a no-break space (U+00A0) is blank for [trim]: the
    handler alerts and sends nothing. *)
Example handleSubmit_nbsp_name :
  handleSubmit Samples.api Samples.parse_any Samples.cold_start
    (mkConfig (String (ascii_of_nat 194) (String (ascii_of_nat 160) ""))
       ["https://example.com"] 100%Z 3%Z true false [] []
       true false false 10000%Z 3%Z 2%Z 60%Z "" [] true false true false
       true true true true true true false)
  = [Alert "Please provide a job name"].
Proof. reflexivity. Qed.

(** [createJob] either throws and keeps the store, or returns a new
    running job put in front of the list. *)
Lemma createJob_cases (now base : Date) (newId : string) (ids : nat -> string)
    (fr : Net.FetchResult (Body BackendAsyncStart)) (cfg : CrawlConfig) (st : Store) :
  (exists e, createJob USE_MOCK now base newId ids fr cfg st = (Throw e, st))
  \/ exists job,
       createJob USE_MOCK now base newId ids fr cfg st
       = (Ok job, mkStore (job :: jobs st) (logs st) (intervals st))
       /\ config job = cfg /\ status job = running /\ finishedAt job = None.
Proof.
  unfold createJob, USE_MOCK.
  destruct fr as [e|res]; [left; now exists e|].
  destruct (Net.ok res); simpl; [|left; eexists; reflexivity].
  destruct (Net.json res) as [[d|]|e]; try (left; eexists; reflexivity).
  destruct (truthy_opt (job_id d)); simpl; [|left; eexists; reflexivity].
  right. eexists. repeat split.
Qed.

(** X22: One submission of the form changes the service's store by at most
    one job: the store afterwards is either the store before or the
    store before with one new running job, holding the submitted config,
    in front; log entries and tickers are never touched. *)
Theorem submit_adds_at_most_one_job (BASE_URL : string)
    (JSON_parse : string -> option CrawlResponse) (net : nat -> Api.Attempt)
    (env : App.CreateEnv) (cfg : CrawlConfig) (st : Store) :
  let st' := App.submit BASE_URL JSON_parse net env cfg st in
  st' = st
  \/ exists job, st' = mkStore (job :: jobs st) (logs st) (intervals st)
                 /\ config job = cfg /\ status job = running
                 /\ finishedAt job = None.
Proof.
  cbv zeta. unfold App.submit, handleSubmit.
  destruct (negb (truthy (trim (cfg_name cfg)))); [now left|].
  destruct ((length (startUrls cfg) =? 0)%nat
            || negb (truthy (trim (nth 0 (startUrls cfg) "")))); [now left|].
  destruct (Api.postJSON BASE_URL CrawlResponse JSON_parse CrawlConfig net
              "/crawl" cfg) as [evs r].
  assert (Hnet : forall effs s, App.run_effects env (map Network evs ++ effs) s
                                = App.run_effects env effs s).
  { intros effs s. induction evs as [|e evs IH]; simpl; auto. }
  rewrite Hnet.
  destruct r as [[data|]|e]; simpl; try (now left).
  destruct (resp_status data =? "ok"); simpl; [|now left].
  assert (Hrem : forall effs s, App.run_effects env (remember_first data ++ effs) s
                                = App.run_effects env effs s).
  { intros effs s. unfold remember_first.
    destruct (results data) as [[|r rs]|]; simpl; auto.
    destruct (truthy (res_jobDir r)); reflexivity. }
  rewrite Hrem. simpl. unfold App.handleCreateJob.
  destruct (createJob_cases (App.env_now env) (App.env_base env)
              (App.env_newId env) (App.env_ids env) (App.env_fetch env) cfg st)
    as [[e ->] | (job & -> & Hjob)]; simpl; [now left|].
  right. now exists job.
Qed.

End FormProps.

(* ================================================================== *)
(** ** The editors of the form and its download links *)
(* ================================================================== *)

Module FormEditProps.

Import JobService FormEdit JSFacts.

Lemma split2_without_sep (a b : ascii) (s : string) :
  contains a s = false -> contains b s = false -> split2 a b s = [s].
Proof.
  induction s as [|c s IH]; simpl; intros Ha Hb; [reflexivity|].
  apply orb_false_iff in Ha as [Hca Ha]. apply orb_false_iff in Hb as [Hcb Hb].
  rewrite Hca, Hcb, (IH Ha Hb). reflexivity.
Qed.

Lemma split2_prefix (a b : ascii) (p s : string) :
  contains a p = false -> contains b p = false ->
  split2 a b (p ++ String b s) = p :: split2 a b s.
Proof.
  induction p as [|c p IH]; simpl; intros Ha Hb.
  - rewrite Ascii.eqb_refl. now rewrite orb_true_r.
  - apply orb_false_iff in Ha as [Hca Ha]. apply orb_false_iff in Hb as [Hcb Hb].
    rewrite Hca, Hcb, (IH Ha Hb). reflexivity.
Qed.

(** X23: On a directory of the form [prefix/folder] (no further [/] or [\],
    [folder] not empty) the form and the service agree: the job name the
    form keeps is the folder the service extracts, and the links the
    form shows are the links [buildDownloadUrl] gives for the same
    base. *)
Theorem form_links_agree (API_BASE prefix folder fileName : string) :
  contains "/"%char prefix = false -> contains "\"%char prefix = false ->
  contains "/"%char folder = false -> contains "\"%char folder = false ->
  folder <> "" ->
  jobName_of (prefix ++ "/" ++ folder) = folder
  /\ extractJobFolder (Some (prefix ++ "/" ++ folder)) = Some (jobName_of (prefix ++ "/" ++ folder))
  /\ buildDownloadUrl API_BASE (Some (prefix ++ "/" ++ folder)) fileName
     = Some (download_link API_BASE (jobName_of (prefix ++ "/" ++ folder)) fileName).
Proof.
  intros Hp1 Hp2 Hf1 Hf2 Hne.
  assert (Hname : jobName_of (prefix ++ "/" ++ folder) = folder).
  { unfold jobName_of. simpl append.
    rewrite (split2_prefix _ _ _ _ Hp2 Hp1), (split2_without_sep _ _ _ Hf2 Hf1).
    reflexivity. }
  assert (Hfolder : extractJobFolder (Some (prefix ++ "/" ++ folder)) = Some folder)
    by exact (LinkProps.extractJobFolder_two prefix folder Hp1 Hf1 Hne).
  rewrite Hname. split; [reflexivity|]. split; [exact Hfolder|].
  unfold download_link. now apply LinkProps.buildDownloadUrl_folder.
Qed.

Lemma form_links_agree_witness :
  buildDownloadUrl Samples.api (Some "output_crawler/job-20251003-101601") "all_results.csv"
  = Some (download_link Samples.api (jobName_of "output_crawler/job-20251003-101601")
            "all_results.csv").
Proof.
  refine (proj2 (proj2 (form_links_agree Samples.api "output_crawler"
                          "job-20251003-101601" "all_results.csv"
                          eq_refl eq_refl eq_refl eq_refl _))).
  discriminate.
Defined.

Lemma drop_index_out {A} (index : nat) (xs : list A) :
  forall pos, (index < pos \/ pos + length xs <= index)%nat ->
  drop_index index pos xs = xs.
Proof.
  induction xs as [|x xs IH]; intros pos H; simpl; [reflexivity|].
  simpl in H. destruct (Nat.eqb_spec pos index) as [E|E]; [lia|].
  rewrite IH; [reflexivity | lia].
Qed.

Lemma drop_index_in {A} (index : nat) (xs : list A) :
  forall pos, (pos <= index < pos + length xs)%nat ->
  S (length (drop_index index pos xs)) = length xs.
Proof.
  induction xs as [|x xs IH]; intros pos H; simpl in *; [lia|].
  destruct (Nat.eqb_spec pos index) as [E|E].
  - rewrite drop_index_out; [reflexivity | lia].
  - simpl. rewrite IH; [reflexivity | lia].
Qed.

Lemma drop_index_last {A} (xs : list A) (x : A) :
  forall pos, drop_index (pos + length xs) pos (xs ++ [x]) = xs.
Proof.
  induction xs as [|y xs IH]; intros pos; simpl.
  - rewrite Nat.add_0_r, Nat.eqb_refl. reflexivity.
  - destruct (Nat.eqb_spec pos (pos + S (length xs))) as [E|E]; [lia|].
    f_equal. replace (pos + S (length xs))%nat with (S pos + length xs)%nat by lia.
    apply IH.
Qed.

(** X24: The editors of the start URLs and of the patterns never leave an
    empty list: adding appends one empty entry, removing takes out
    exactly the entry at the index when there are at least two entries
    and the index is in range, and does nothing otherwise; removing the
    entry just added gives the list back. *)
Theorem entries_never_empty (index : nat) (entries : list string) :
  entries <> [] ->
  removeEntry index entries <> []
  /\ addEntry entries <> []
  /\ length (addEntry entries) = S (length entries)
  /\ ((index < length entries)%nat -> (1 < length entries)%nat ->
        S (length (removeEntry index entries)) = length entries)
  /\ ((length entries <= index)%nat \/ length entries = 1%nat ->
        removeEntry index entries = entries)
  /\ removeEntry (length entries) (addEntry entries) = entries.
Proof.
  intros Hne. unfold removeEntry, addEntry.
  assert (Hlen : (1 <= length entries)%nat)
    by (destruct entries; [now elim Hne | simpl; lia]).
  repeat split.
  - destruct (Nat.ltb_spec 1 (length entries)) as [H|H]; [|exact Hne].
    destruct (Nat.ltb_spec index (length entries)) as [Hi|Hi].
    + pose proof (drop_index_in index entries 0 ltac:(lia)) as Hd.
      intros E. rewrite E in Hd. simpl in Hd. lia.
    + rewrite drop_index_out; [exact Hne | lia].
  - destruct entries; discriminate.
  - rewrite length_app. simpl. lia.
  - intros Hi H1. apply Nat.ltb_lt in H1. rewrite H1.
    apply drop_index_in. lia.
  - intros [H | H].
    + destruct (1 <? length entries)%nat; [|reflexivity].
      apply drop_index_out. lia.
    + rewrite H. reflexivity.
  - rewrite length_app. simpl.
    replace (1 <? length entries + 1)%nat with true
      by (symmetry; apply Nat.ltb_lt; lia).
    exact (drop_index_last entries "" 0).
Qed.

Lemma entries_never_empty_witness :
  removeEntry 0 [""] <> [] /\ removeEntry 1 (addEntry [""]) = [""].
Proof.
  split.
  - refine (proj1 (entries_never_empty 0 [""] _)). discriminate.
  - refine (proj2 (proj2 (proj2 (proj2 (proj2 (entries_never_empty 0 [""] _)))))).
    discriminate.
Defined.

End FormEditProps.

(* ================================================================== *)
(** ** The progress card: duration and action buttons *)
(* ================================================================== *)

Module ProgressProps.

Import JobService JobProgress StoreFacts Lifecycle.
Local Open Scope Z_scope.

(** X25: For a job that did not finish before it started, the duration shown
    splits the whole seconds elapsed into minutes and seconds below 60,
    and the minutes are left out under one minute. *)
Theorem formatDuration_parts (now start stop : Date) :
  start <= stop ->
  let d := stop - start in
  0 <= seconds_of d < 60
  /\ 0 <= minutes_of d
  /\ minutes_of d * 60 + seconds_of d = d / 1000
  /\ formatDuration now start (Some stop)
     = (if (d <? 60000)%Z then number_to_string (seconds_of d) ++ "s"
        else number_to_string (minutes_of d) ++ "m "
               ++ number_to_string (seconds_of d) ++ "s")%string.
Proof.
  intros H. cbv zeta. set (d := stop - start).
  assert (Hd : 0 <= d) by (unfold d; lia).
  unfold seconds_of, minutes_of.
  rewrite (Z.rem_mod_nonneg d 60000) by lia.
  assert (Hm : 0 <= d / 60000) by (apply Z.div_pos; lia).
  assert (Hr : 0 <= d mod 60000 < 60000) by (apply Z.mod_pos_bound; lia).
  assert (Hs : 0 <= d mod 60000 / 1000 < 60).
  { split; [apply Z.div_pos; lia|]. apply Z.div_lt_upper_bound; lia. }
  repeat split; try lia.
  - rewrite (Z.div_mod d 60000) at 3 by lia.
    replace (60000 * (d / 60000) + d mod 60000)
      with (d mod 60000 + (d / 60000 * 60) * 1000) by lia.
    rewrite Z.div_add by lia. lia.
  - unfold formatDuration. fold d. unfold minutes_of, seconds_of.
    rewrite (Z.rem_mod_nonneg d 60000) by lia.
    destruct (Z.ltb_spec d 60000) as [Hlt|Hge].
    + rewrite (Z.div_small d 60000) by lia. reflexivity.
    + assert (1 <= d / 60000) by (apply Z.div_le_lower_bound; lia).
      destruct (Z.ltb_spec 0 (d / 60000)); [reflexivity | lia].
Qed.

Lemma formatDuration_parts_witness :
  formatDuration 0 1000 (Some 126500) = "2m 5s"%string.
Proof.
  exact (proj2 (proj2 (proj2 (formatDuration_parts 0 1000 126500 ltac:(lia))))).
Defined.

(** X26: Every button the card offers for a stored job asks for a transition
    the state machine has, and with the mock on pressing it changes the
    status of the job; a job that is completed, failed or canceled gets
    no button. *)
Theorem buttons_are_effective (now : Date) (newId job : string) (st : Store)
    (j : CrawlJob) (a : Action) :
  find_job job (jobs st) = Some j ->
  In a (getActionButtons j) ->
  terminal (status j) = false
  /\ spec_transition a (status j) <> None
  /\ exists j', find_job job (jobs (snd (performJobAction true now newId job a st)))
                = Some j'
                /\ status j' <> status j
                /\ spec_transition a (status j) = Some (status j').
Proof.
  intros Hfind Hin.
  destruct (find_job_In _ _ _ Hfind) as [_ Hid].
  unfold getActionButtons in Hin. unfold performJobAction. rewrite Hfind.
  destruct (status j) eqn:Hst; simpl in Hin;
    repeat match goal with
           | H : _ \/ _ |- _ => destruct H
           | H : False |- _ => destruct H
           end; subst a; simpl;
    (split; [reflexivity|]); (split; [discriminate|]);
    unfold simulateCrawling, push_log, set_job; simpl;
    try (erewrite find_update_job_at; [|exact Hfind|exact Hid]); simpl;
    (eexists; split;
      [first [reflexivity | apply find_update_job_at; [exact Hfind | exact Hid]]
      |split; [discriminate | reflexivity]]).
Qed.

Lemma buttons_are_effective_witness :
  exists j', find_job "j1" (jobs (snd (performJobAction true 5000 "x" "j1" pause
                                         Samples.store0))) = Some j'
             /\ status j' <> status Samples.job_running
             /\ spec_transition pause (status Samples.job_running) = Some (status j').
Proof.
  exact (proj2 (proj2 (buttons_are_effective 5000 "x" "j1" Samples.store0
                         Samples.job_running pause eq_refl (or_introl eq_refl)))).
Defined.

End ProgressProps.

(* ================================================================== *)
(** ** The export panel *)
(* ================================================================== *)

Module PanelProps.

Import JobService ExportPanel JSFacts.

Lemma existsb_eqb_In (x : string) (l : list string) :
  existsb (String.eqb x) l = true <-> In x l.
Proof.
  rewrite existsb_exists. split.
  - intros (y & Hy & E). apply String.eqb_eq in E. now subst.
  - intros H. exists x. split; [exact H | apply String.eqb_refl].
Qed.

Lemma dedupe_In (xs : list string) :
  forall seen x, In x (dedupe seen xs) <-> In x xs /\ ~ In x seen.
Proof.
  induction xs as [|y xs IH]; intros seen x; simpl; [tauto|].
  destruct (existsb (String.eqb y) seen) eqn:E.
  - apply existsb_eqb_In in E. rewrite IH. split.
    + intros [H1 H2]. auto.
    + intros [[-> | H1] H2]; [contradiction | auto].
  - assert (Hy : ~ In y seen).
    { intros H. apply existsb_eqb_In in H. congruence. }
    simpl. rewrite IH. simpl. split.
    + intros [<- | [H1 H2]]; [auto|]. split; [auto|]. intros H. apply H2. now right.
    + intros [[<- | H1] H2]; [now left|].
      destruct (String.eqb_spec y x) as [->|Hne]; [now left|].
      right. split; [exact H1|]. intros [H | H]; [contradiction | contradiction].
Qed.

Lemma dedupe_NoDup (xs : list string) : forall seen, NoDup (dedupe seen xs).
Proof.
  induction xs as [|y xs IH]; intros seen; simpl; [constructor|].
  destruct (existsb (String.eqb y) seen); [apply IH|].
  constructor; [|apply IH].
  intros H. apply dedupe_In in H as [_ H]. apply H. now left.
Qed.

Lemma dedupe_fresh (xs : list string) :
  forall seen, NoDup xs -> (forall x, In x xs -> ~ In x seen) -> dedupe seen xs = xs.
Proof.
  induction xs as [|y xs IH]; intros seen Hnd Hfresh; simpl; [reflexivity|].
  inversion Hnd as [|? ? Hy Hxs]; subst.
  destruct (existsb (String.eqb y) seen) eqn:E.
  - apply existsb_eqb_In in E. exfalso. apply (Hfresh y); [now left | exact E].
  - f_equal. apply IH; [exact Hxs|].
    intros x Hx [<- | H]; [contradiction|].
    apply (Hfresh x); [now right | exact H].
Qed.

(** X27: The selection of formats stays free of duplicates under the toggle
    that goes through a [Set]: ticking a format makes it selected and
    keeps the others, appending it at the end when it is new and
    changing nothing when it is there already; unticking removes it and
    keeps the others. *)
Theorem handleFormatToggle_selection (formatId : string) (prev : list string) :
  NoDup prev ->
  NoDup (handleFormatToggle formatId true prev)
  /\ NoDup (handleFormatToggle formatId false prev)
  /\ (forall f, In f (handleFormatToggle formatId true prev)
                <-> In f prev \/ f = formatId)
  /\ (forall f, In f (handleFormatToggle formatId false prev)
                <-> In f prev /\ f <> formatId)
  /\ (In formatId prev -> handleFormatToggle formatId true prev = prev)
  /\ (~ In formatId prev ->
      handleFormatToggle formatId true prev = (prev ++ [formatId])%list).
Proof.
  intros Hnd. unfold handleFormatToggle. repeat split.
  - apply dedupe_NoDup.
  - now apply NoDup_filter.
  - intros H. apply dedupe_In in H as [H _].
    apply in_app_iff in H as [H | [<- | []]]; auto.
  - intros H. apply dedupe_In. split; [|auto].
    apply in_app_iff. destruct H as [H | ->]; [now left | right; now left].
  - apply filter_In in H. tauto.
  - apply filter_In in H as [_ H]. apply negb_true_iff in H.
    now apply String.eqb_neq.
  - intros [H1 H2]. apply filter_In. split; [exact H1|].
    apply negb_true_iff. now apply String.eqb_neq.
  - intros Hin.
    assert (G : forall xs seen, NoDup xs -> (forall x, In x xs -> ~ In x seen) ->
                  In formatId xs \/ In formatId seen ->
                  dedupe seen (xs ++ [formatId]) = xs).
    { induction xs as [|y xs IH]; intros seen Hn Hf Hor; simpl.
      - destruct Hor as [[] | Hs].
        apply existsb_eqb_In in Hs. now rewrite Hs.
      - inversion Hn as [|? ? Hy Hxs]; subst.
        destruct (existsb (String.eqb y) seen) eqn:E.
        + apply existsb_eqb_In in E. exfalso. apply (Hf y); [now left | exact E].
        + f_equal. apply IH; [exact Hxs | |].
          * intros x Hx [<- | H]; [contradiction|].
            apply (Hf x); [now right | exact H].
          * destruct Hor as [[-> | H] | H]; [right; now left | now left |].
            right. now right. }
    apply (G prev []); [exact Hnd | | now left].
    intros x _ [].
  - intros Hnot. apply dedupe_fresh.
    + apply NoDup_app; [exact Hnd | repeat constructor; auto |].
      intros x Hx [<- | []]. contradiction.
    + intros x _ [].
Qed.

Lemma handleFormatToggle_selection_witness :
  handleFormatToggle "csv" true ["markdown-book"] = ["markdown-book"; "csv"]
  /\ handleFormatToggle "csv" true ["markdown-book"; "csv"] = ["markdown-book"; "csv"].
Proof.
  split.
  - refine (proj2 (proj2 (proj2 (proj2 (proj2
             (handleFormatToggle_selection "csv" ["markdown-book"] _))))) _).
    + repeat constructor. intros [].
    + intros [H | []]. discriminate.
  - refine (proj1 (proj2 (proj2 (proj2 (proj2
             (handleFormatToggle_selection "csv" ["markdown-book"; "csv"] _))))) _).
    + repeat constructor; simpl; intuition discriminate.
    + right. now left.
Defined.

End PanelProps.

(* ================================================================== *)
(** ** From the panel to the downloads *)
(* ================================================================== *)

Module DownloadProps.

Import JobService ExportPanel JSFacts.

(** X28: For a stored job whose token gives a folder, an export of a
    selection with at least one known format clicks one anchor per known
    format selected, in the order of the selection: its target is the
    link base/download/folder/file and its file name is
    crawl-job-id-export.ext; the toast reports success. *)
Theorem export_selected_downloads (API_URL : string) (native_text : string -> string)
    (objectUrl : nat -> string) (j : CrawlJob) (selected : list string)
    (st : Store) (folder : string) :
  find_job (id j) (jobs st) = Some j ->
  extractJobFolder (jobDir j) = Some folder ->
  filter in_formatToFilename selected <> [] ->
  export_selected API_URL native_text objectUrl j selected st
  = (map (fun f => mkDownload
                     (API_URL ++ "/download/" ++ folder ++ "/"
                        ++ filename_text native_text f)
                     ("crawl-job-" ++ id j ++ "-export." ++ ext_of native_text f))
         (filter in_formatToFilename selected),
     ["Export generated successfully"]).
Proof.
  intros Hfind Hfolder Hkept.
  unfold export_selected, handleExport.
  destruct selected as [|f fs]; [now elim Hkept|]. simpl length. simpl Nat.eqb.
  cbv iota. unfold handleExportJob, exportJob, USE_MOCK. rewrite Hfind.
  rewrite (ExportProps.flat_map_links _ _ _ _ _ Hfolder).
  destruct (filter in_formatToFilename (f :: fs)) as [|k ks]; [now elim Hkept|].
  cbn [map]. rewrite map_map. reflexivity.
Qed.

Lemma export_selected_downloads_witness :
  export_selected Samples.api Samples.v8_text Samples.no_urls Samples.job_completed
    ["markdown-book"] Samples.store0
  = ([mkDownload "http://127.0.0.1:8000/download/job-20250101-000000/all_results.md"
        "crawl-job-j2-export.md"],
     ["Export generated successfully"]).
Proof.
  refine (export_selected_downloads Samples.api Samples.v8_text Samples.no_urls
            Samples.job_completed ["markdown-book"] Samples.store0
            "job-20250101-000000" eq_refl eq_refl _).
  discriminate.
Defined.

End DownloadProps.

(* ================================================================== *)
(** ** The version of the service that crawls in one call *)
(* ================================================================== *)

Module SyncServiceProps.

Import JobService SyncService JSFacts.

Lemma created_jobs_good (ids : nat -> string) (nows : nat -> Date) (cfg : CrawlConfig)
    (rs : list BackendResult) :
  forall start,
  Forall (fun j => status j = completed /\ finishedAt j <> None /\ config j = cfg)
         (map_index (fun k r => jobFromBackend (ids k) (nows k) cfg r) start rs)
  /\ map jobDir (map_index (fun k r => jobFromBackend (ids k) (nows k) cfg r) start rs)
     = map (fun r => Some (r_jobDir r)) rs
  /\ map counts (map_index (fun k r => jobFromBackend (ids k) (nows k) cfg r) start rs)
     = map (fun r => mkCounts (match r_pages r with Some n => n | None => 0%Z end) 0 0)
           rs.
Proof.
  induction rs as [|r rs IH]; intros start; simpl.
  - repeat split; constructor.
  - destruct (IH (S start)) as (IH1 & IH2 & IH3). repeat split.
    + constructor; [|exact IH1]. repeat split. discriminate.
    + now rewrite IH2.
    + now rewrite IH3.
Qed.

(** X29: [createJob] of this version stores all the jobs of an answer or
    none.  When it throws, the store is the one it was given.  When it
    returns, the answer was 2xx with status [ok] and a list of results
    that is not empty; one job per result has been put in front of the
    list, in the order of the results, each completed, with a finish
    time, the submitted config, the directory of its result and the
    counts [{pages ?? 0, 0, 0}] of its result; the job returned is the
    first of them; logs and tickers are untouched. *)
Theorem createJob_all_or_nothing (ids : nat -> string) (nows : nat -> Date)
    (fr : Net.FetchResult (Body BackendCrawlResult)) (cfg : CrawlConfig) (st : Store) :
  match createJobSync ids nows fr cfg st with
  | (Throw _, st') => st' = st
  | (Ok first, st') =>
      exists res data results created,
        fr = Net.Resolved res /\ Net.ok res = true
        /\ Net.json res = Ok (Some data)
        /\ crawl_status data = "ok"
        /\ crawl_results data = Some results /\ results <> []
        /\ st' = mkStore (created ++ jobs st) (logs st) (intervals st)
        /\ map jobDir created = map (fun r => Some (r_jobDir r)) results
        /\ map counts created
           = map (fun r => mkCounts (match r_pages r with
                                     | Some n => n
                                     | None => 0%Z
                                     end) 0 0) results
        /\ first = nth_error created 0 /\ first <> None
        /\ Forall (fun j => status j = completed /\ finishedAt j <> None
                            /\ config j = cfg)
                  created
  end.
Proof.
  unfold createJobSync. destruct fr as [e|res]; [reflexivity|].
  destruct (Net.ok res) eqn:Hok; simpl; [|reflexivity].
  destruct (Net.json res) as [[data|]|e] eqn:Hjson; try reflexivity.
  destruct (crawl_results data) as [[|r rs]|] eqn:Hres; try reflexivity.
  destruct (crawl_status data =? "ok") eqn:Hst; [|reflexivity].
  apply String.eqb_eq in Hst.
  destruct (created_jobs_good ids nows cfg (r :: rs) 0) as (Hgood & Hdirs & Hcounts).
  exists res, data, (r :: rs),
    (map_index (fun k r => jobFromBackend (ids k) (nows k) cfg r) 0 (r :: rs)).
  repeat split; try assumption; try reflexivity; try discriminate.
Qed.

(** X30: The job returned by a successful [createJob] of this version can be
    exported at once: when the directory of the first result has the
    form [prefix/folder], [exportJob] on the id of the job returned
    gives the link to [all_results.json] in that folder. *)
Theorem createJob_then_exportJob (API_URL : string) (ids : nat -> string)
    (nows : nat -> Date) (res : Net.Response (Body BackendCrawlResult))
    (data : BackendCrawlResult) (r : BackendResult) (rs : list BackendResult)
    (cfg : CrawlConfig) (st : Store) (prefix folder : string) :
  Net.ok res = true -> Net.json res = Ok (Some data) ->
  crawl_status data = "ok" -> crawl_results data = Some (r :: rs) ->
  r_jobDir r = prefix ++ "/" ++ folder ->
  contains slash prefix = false -> contains slash folder = false -> folder <> "" ->
  fst (createJobSync ids nows (Net.Resolved res) cfg st)
    = Ok (Some (jobFromBackend (ids 0%nat) (nows 0%nat) cfg r))
  /\ exportJobSync API_URL (ids 0%nat)
       (snd (createJobSync ids nows (Net.Resolved res) cfg st))
     = Ok (API_URL ++ "/download/" ++ folder ++ "/" ++ "all_results.json").
Proof.
  intros Hok Hjson Hst Hres Hdir Hp Hf Hne.
  unfold createJobSync. rewrite Hok, Hjson, Hres, Hst. simpl.
  split; [reflexivity|].
  unfold exportJobSync, find_job. simpl. rewrite String.eqb_refl. simpl.
  assert (Hfolder : extractJobFolder (Some (r_jobDir r)) = Some folder).
  { rewrite Hdir. exact (LinkProps.extractJobFolder_two prefix folder Hp Hf Hne). }
  rewrite !(LinkProps.buildDownloadUrl_folder API_URL _ folder _ Hfolder).
  reflexivity.
Qed.

Lemma createJob_then_exportJob_witness :
  exportJobSync Samples.api "id-0"
    (snd (createJobSync (fun _ => "id-0") (fun _ => 1000%Z)
            (Net.Resolved (Samples.response true 200%Z "OK" ""
               (Ok (Some (mkCrawlResult "ok"
                            (Some [mkBackendResult "https://example.com"
                                     "output_crawler/job-20251003-101601" (Some 3%Z)])
                            None None)))))
            Samples.cfg_docs Samples.store0))
  = Ok "http://127.0.0.1:8000/download/job-20251003-101601/all_results.json".
Proof.
  refine (proj2 (createJob_then_exportJob Samples.api (fun _ => "id-0")
                   (fun _ => 1000%Z)
                   (Samples.response true 200%Z "OK" ""
                      (Ok (Some (mkCrawlResult "ok"
                                   (Some [mkBackendResult "https://example.com"
                                            "output_crawler/job-20251003-101601"
                                            (Some 3%Z)])
                                   None None))))
                   (mkCrawlResult "ok"
                      (Some [mkBackendResult "https://example.com"
                               "output_crawler/job-20251003-101601" (Some 3%Z)])
                      None None)
                   (mkBackendResult "https://example.com"
                      "output_crawler/job-20251003-101601" (Some 3%Z))
                   [] Samples.cfg_docs Samples.store0
                   "output_crawler" "job-20251003-101601"
                   eq_refl eq_refl eq_refl eq_refl eq_refl eq_refl eq_refl _)).
  discriminate.
Defined.

(** [getJobLogs] of this version returns the cached entries of the job,
    each once and no other, oldest first. *)
Theorem getJobLogs_cached_sorted (job : string) (st : Store) :
  Permutation (getJobLogsSync job st) (filter (fun l => jobId l =? job) (logs st))
  /\ StronglySorted Queries.not_later (getJobLogsSync job st)
  /\ (forall e, In e (getJobLogsSync job st) <-> In e (logs st) /\ jobId e = job).
Proof.
  unfold getJobLogsSync. split; [apply LogOrder.sort_by_time_perm|].
  split; [apply LogOrder.sort_by_time_sorted|].
  intros e. split.
  - intros H. eapply Permutation_in in H; [|apply LogOrder.sort_by_time_perm].
    apply filter_In in H as [H1 H2]. split; [exact H1 | now apply String.eqb_eq].
  - intros [H1 H2].
    eapply Permutation_in; [apply Permutation_sym, LogOrder.sort_by_time_perm|].
    apply filter_In. split; [exact H1 | now apply String.eqb_eq].
Qed.

End SyncServiceProps.
